(** * Tide / temperature merger: a shallow embedding of [streamlit_app.py]

    The program is one function, [process_and_merge_data], written as a
    sequence of pandas calls on data frames, interleaved with streamlit
    diagnostics ([st.write], [st.warning], [st.info], [st.error]) and
    [st.stop].  The development below has three layers:

    - the data model: cells, rows, data frames, workbooks;
    - the pandas operations the function calls, each as a total function
      returning a [result] when the Python operation can raise; what pandas
      decides by itself (how it prints, which strings it parses and to which
      datetime type, the order of equal keys) is an interface;
    - the function itself, in a small monad that threads the diagnostic log
      and distinguishes a returned value from [st.stop] and from an
      exception that nothing catches. *)

From Stdlib Require Import ZArith String Ascii DecimalString QArith_base.
From Stdlib Require Import List Bool Arith Lia Permutation Sorted Orders Mergesort.
Import ListNotations.

Close Scope Q_scope.
Local Open Scope string_scope.
Local Open Scope list_scope.
Local Open Scope Z_scope.

(** ** Cells, rows and data frames *)

(** A cell as [pd.read_excel] delivers it.  [NA] stands for NaN, None and
    NaT alike.  A datetime is an instant counted from the epoch in the
    resolution of its column, a 64-bit signed integer in a [datetime64]
    column.  Numbers are never inspected by the program; they are only
    compared for identity by [drop_duplicates]. *)
Inductive cell : Type :=
| NA
| Str (s : string)
| Num (x : Q)
| Boolean (b : bool)
| Datetime (ns : Z)
| TimeOfDay (ns : Z).

Definition row : Type := list cell.

(** The type of a datetime column: [datetime64[unit]] or, with a time
    zone, [datetime64[unit, tz]].  Every other column (text, numbers,
    Python objects, among them datetimes of differing UTC offsets) counts
    as [ObjectDtype]: the program only ever asks for the type of the two
    columns it writes with [pd.to_datetime]. *)
Inductive resolution : Type :=
| Seconds | Milliseconds | Microseconds | Nanoseconds.

Inductive dtype : Type :=
| Datetime64 (unit : resolution) (tz : option string)
| ObjectDtype.

(** A frame: the column labels, the rows, and [df.dtypes] restricted to the
    datetime columns (a label that is not listed is an object column). *)
Record DataFrame : Type := Frame {
  columns : list string;
  rows : list row;
  dtypes : list (string * dtype)
}.

(** A frame without datetime columns. *)
Abbreviation mkDataFrame cols rs := (Frame cols rs []).

Definition resolution_eqb (a b : resolution) : bool :=
  match a, b with
  | Seconds, Seconds | Milliseconds, Milliseconds
  | Microseconds, Microseconds | Nanoseconds, Nanoseconds => true
  | _, _ => false
  end.

Definition tz_eqb (a b : option string) : bool :=
  match a, b with
  | None, None => true
  | Some x, Some y => String.eqb x y
  | _, _ => false
  end.

(** [lk.dtype == rk.dtype] *)
Definition dtype_eqb (a b : dtype) : bool :=
  match a, b with
  | Datetime64 u tz, Datetime64 u' tz' => resolution_eqb u u' && tz_eqb tz tz'
  | ObjectDtype, ObjectDtype => true
  | _, _ => false
  end.

Fixpoint lookup_dtype (c : string) (ds : list (string * dtype)) : dtype :=
  match ds with
  | [] => ObjectDtype
  | (n, d) :: ds' => if String.eqb c n then d else lookup_dtype c ds'
  end.

(** [df[c].dtype] *)
Definition dtype_of (df : DataFrame) (c : string) : dtype :=
  lookup_dtype c (dtypes df).

Definition without (c : string) (ds : list (string * dtype))
  : list (string * dtype) :=
  filter (fun p => negb (String.eqb (fst p) c)) ds.

Inductive exn : Type :=
| KeyError (key : string)
| ValueError (what : string)
| MergeError (what : string)
| IOError (what : string).

(** [str(e)] as the f-strings of the two [except] handlers print it. *)
Definition exn_str (e : exn) : string :=
  match e with
  | KeyError k => "'" ++ k ++ "'"
  | ValueError w => w
  | MergeError w => w
  | IOError w => w
  end.

Inductive result (A : Type) : Type :=
| Ok (a : A)
| Err (e : exn).
Arguments Ok {A} a.
Arguments Err {A} e.

Notation "'try' x <- c ; k" :=
  (match c with Ok x => k | Err e => Err e end)
  (at level 10, x name, c at level 100, k at level 200, only parsing).

Lemma cell_eq_dec (a b : cell) : {a = b} + {a <> b}.
Proof.
  decide equality;
    try apply Z.eq_dec; try apply Bool.bool_dec; try apply string_dec.
  destruct x as [n d], x0 as [n' d'].
  destruct (Z.eq_dec n n'); [|right; congruence].
  destruct (Pos.eq_dec d d'); [left|right]; congruence.
Defined.

Definition row_eq_dec : forall a b : row, {a = b} + {a <> b} :=
  list_eq_dec cell_eq_dec.

Definition row_eqb (a b : row) : bool :=
  if row_eq_dec a b then true else false.

(** [df.shape[0]] *)
Definition shape0 (df : DataFrame) : nat := length (rows df).

(** [df.empty]: some axis has length 0. *)
Definition empty (df : DataFrame) : bool :=
  (length (rows df) =? 0)%nat || (length (columns df) =? 0)%nat.

(** [c in df.columns] *)
Definition has_column (c : string) (df : DataFrame) : bool :=
  existsb (String.eqb c) (columns df).

(** Position of the first column labelled [c]. *)
Fixpoint find_col (c : string) (cols : list string) : option nat :=
  match cols with
  | [] => None
  | n :: cols' =>
      if String.eqb c n then Some 0%nat
      else option_map S (find_col c cols')
  end.

Definition col_pos (df : DataFrame) (c : string) : result nat :=
  match find_col c (columns df) with
  | Some j => Ok j
  | None => Err (KeyError c)
  end.

Definition cell_at (j : nat) (r : row) : cell := nth j r NA.

(** [df[c]]: the values of a column, [KeyError] when there is none. *)
Definition getitem (df : DataFrame) (c : string) : result (list cell) :=
  try j <- col_pos df c; Ok (map (cell_at j) (rows df)).

(** Writing position [j] of a row.  On a rectangular frame [j] is at most
    the row's length; a shorter row is padded with [NA] first, which is what
    index alignment does with labels that have no value. *)
Definition set_at (j : nat) (v : cell) (r : row) : row :=
  firstn j (r ++ repeat NA j) ++ v :: skipn (S j) r.

Fixpoint assign (j : nat) (rs : list row) (vals : list cell) : list row :=
  match rs with
  | [] => []
  | r :: rs' => set_at j (hd NA vals) r :: assign j rs' (tl vals)
  end.

(** [df[c] = vals] for values that are not datetimes: overwrite the column
    labelled [c], or append a new last column; the column is an object
    column afterwards. *)
Definition setitem (df : DataFrame) (c : string) (vals : list cell)
  : DataFrame :=
  match find_col c (columns df) with
  | Some j =>
      Frame (columns df) (assign j (rows df) vals) (without c (dtypes df))
  | None =>
      Frame (columns df ++ [c])
            (assign (length (columns df)) (rows df) vals)
            (without c (dtypes df))
  end.

(** [df[mask]] with the mask computed row by row. *)
Definition select (df : DataFrame) (keep : row -> bool) : DataFrame :=
  Frame (columns df) (filter keep (rows df)) (dtypes df).

(** Elementwise [series == s] against a string literal: true exactly on a
    text cell holding the same characters. *)
Definition eq_str (s : string) (c : cell) : bool :=
  match c with
  | Str t => String.eqb t s
  | _ => false
  end.

(** [df.drop(columns=[c])] *)
Definition drop_in_row (c : string) (cols : list string) (r : row) : row :=
  map snd (filter (fun p => negb (String.eqb (fst p) c)) (combine cols r)).

Definition drop_column (df : DataFrame) (c : string) : DataFrame :=
  Frame (filter (fun n => negb (String.eqb n c)) (columns df))
        (map (drop_in_row c (columns df)) (rows df))
        (without c (dtypes df)).

(** [duplicated(keep='first')]: a row is dropped when an equal row came
    before it. *)
Fixpoint keep_first (seen : list row) (rs : list row) : list row :=
  match rs with
  | [] => []
  | r :: rs' =>
      if existsb (row_eqb r) seen then keep_first seen rs'
      else r :: keep_first (r :: seen) rs'
  end.

(** [df.drop_duplicates(inplace=True)].  pandas returns at once on an
    empty frame (no rows, or no columns), leaving it as it is. *)
Definition drop_duplicates (df : DataFrame) : DataFrame :=
  if empty df then df
  else Frame (columns df) (keep_first [] (rows df)) (dtypes df).

Definition isna (c : cell) : bool :=
  match c with NA => true | _ => false end.

(** [df.dropna(subset=[c], inplace=True)] *)
Definition dropna (df : DataFrame) (c : string) : result DataFrame :=
  try j <- col_pos df c;
  Ok (select df (fun r => negb (isna (cell_at j r)))).

(** [df.rename(columns={...}, inplace=True)]; labels that are not
    present are ignored. *)
Fixpoint rename_label (m : list (string * string)) (n : string) : string :=
  match m with
  | [] => n
  | (old, new) :: m' => if String.eqb n old then new else rename_label m' n
  end.

Definition rename (df : DataFrame) (m : list (string * string)) : DataFrame :=
  Frame (map (rename_label m) (columns df)) (rows df)
        (map (fun p => (rename_label m (fst p), snd p)) (dtypes df)).

(** ** The library behaviour the program relies on

    Three pandas/numpy behaviours are taken as an interface rather than
    fixed: how [astype(str)] prints a column, what [pd.to_datetime] makes
    of a column of strings, and the order numpy's default sort gives to
    equal keys.  The first two work on a whole column, as pandas infers
    formats from it.

    [pd.to_datetime(..., errors='coerce')] turns a string it rejects into
    NaT (here [None]) and decides the type of the column it returns: its
    resolution, a time zone when the strings carry a UTC offset, an object
    column when pandas keeps datetimes of differing offsets.  It can still
    raise.  All that is assumed is that a column it returns has one value
    per string, and that the instants of a [datetime64] column fit 64 bits.
    The sort is any permutation of positions that makes the keys ascend. *)
Definition int64 (z : Z) : Prop := - 2 ^ 63 <= z < 2 ^ 63.

Class Pandas : Type := {
  astype_str : list cell -> list string;
  astype_str_length : forall cs, length (astype_str cs) = length cs;
  to_datetime : list string -> result (dtype * list (option Z));
  to_datetime_length :
    forall ss d stamps,
      to_datetime ss = Ok (d, stamps) -> length stamps = length ss;
  to_datetime_int64 :
    forall ss u tz stamps,
      to_datetime ss = Ok (Datetime64 u tz, stamps) ->
      Forall (fun o => forall v, o = Some v -> int64 v) stamps;
  argsort : list Z -> list nat;
  argsort_perm : forall ks, Permutation (argsort ks) (seq 0 (length ks));
  argsort_sorted :
    forall ks, StronglySorted Z.le (map (fun i => nth i ks 0) (argsort ks))
}.

Definition key_of (c : cell) : option Z :=
  match c with Datetime ns => Some ns | _ => None end.

Definition has_key (j : nat) (r : row) : bool :=
  match key_of (cell_at j r) with Some _ => true | None => false end.

Definition key_at (j : nat) (r : row) : Z :=
  match key_of (cell_at j r) with Some k => k | None => 0 end.

Definition stamp_cell (o : option Z) : cell :=
  match o with Some ns => Datetime ns | None => NA end.

(** [df[c] = stamps] for a column that [pd.to_datetime] returned. *)
Definition setitem_datetime (df : DataFrame) (c : string) (d : dtype)
  (stamps : list (option Z)) : DataFrame :=
  let df := setitem df c (map stamp_cell stamps) in
  Frame (columns df) (rows df) ((c, d) :: dtypes df).

(** Elementwise [a + sep + b] on two string columns. *)
Definition str_add (a : list string) (sep : string) (b : list string)
  : list string :=
  map (fun p => (fst p ++ sep ++ snd p)%string) (combine a b).

Section Frames.
Context {pandas : Pandas}.

(** [df.sort_values(by=c, inplace=True)] on a datetime column: ascending,
    rows without a timestamp last. *)
Definition sort_values (df : DataFrame) (c : string) : result DataFrame :=
  try j <- col_pos df c;
  let dated := filter (has_key j) (rows df) in
  let rest := filter (fun r => negb (has_key j r)) (rows df) in
  Ok (Frame (columns df)
        (map (fun i => nth i dated []) (argsort (map (key_at j) dated))
         ++ rest)
        (dtypes df)).

(** Lines 57-60 and 93-96 of the source are the same four statements up to
    the column names:
<<
    df[time] = df[time].astype(str)
    df[out] = pd.to_datetime(df[date].astype(str) + ' ' + df[time],
                             errors='coerce')
    df.dropna(subset=[out], inplace=True)
    df.sort_values(by=out, inplace=True)
>>
    The second statement reads [df[time]] back after the first wrote it;
    the strings just written are used directly. *)
Definition compose_timestamps (df : DataFrame) (date time out : string)
  : result DataFrame :=
  try t <- getitem df time;
  let time_s := astype_str t in
  let df := setitem df time (map Str time_s) in
  try d <- getitem df date;
  try stamps <- to_datetime (str_add (astype_str d) " " time_s);
  let df := setitem_datetime df out (fst stamps) (snd stamps) in
  try df <- dropna df out;
  sort_values df out.

End Frames.

(** ** [pd.merge_asof(..., direction='nearest', tolerance=...)]

    pandas first compares the types of the two key columns and refuses
    keys of different types and object keys.  It then walks the two key
    columns once, with a pointer into the right keys that it carries from
    one left key to the next; it refuses key columns that are not sorted,
    and on sorted keys the pointer stops, for each left key, where a search
    from the end of the right keys stops.  The searches below start from
    the end for every left key.  The keys are 64-bit integers in the
    resolution of the columns, and the distances between them are computed
    in 64 bits: a difference of [2^63] or more wraps around. *)

Definition ticks_per_second (u : resolution) : Z :=
  match u with
  | Seconds => 1
  | Milliseconds => 1000
  | Microseconds => 1000000
  | Nanoseconds => 1000000000
  end.

(** [pd.Timedelta('1 hour')] in the unit of the keys. *)
Definition one_hour (u : resolution) : Z := 3600 * ticks_per_second u.

(** Two's complement: the 64-bit integer congruent to [z]. *)
Definition wrap64 (z : Z) : Z := (z + 2 ^ 63) mod 2 ^ 64 - 2 ^ 63.

(** [a - b] on 64-bit integers. *)
Definition sub64 (a b : Z) : Z := wrap64 (a - b).

(** Number of leading keys that are [<= l]: where the backward search
    stops. *)
Fixpoint count_le (l : Z) (rs : list Z) : nat :=
  match rs with
  | r :: rs' => if r <=? l then S (count_le l rs') else 0%nat
  | [] => 0%nat
  end.

(** Number of leading keys that are [>= l]; applied to the reversed keys it
    is where the forward search, which walks from the right end, stops. *)
Fixpoint count_ge (l : Z) (rs : list Z) : nat :=
  match rs with
  | r :: rs' => if r >=? l then S (count_ge l rs') else 0%nat
  | [] => 0%nat
  end.

(** Backward search: the last position with key [<= l], given up when the
    difference exceeds the tolerance. *)
Definition backward (l : Z) (rs : list Z) (tol : Z) : option nat :=
  match count_le l rs with
  | O => None
  | S p => if sub64 l (nth p rs 0) >? tol then None else Some p
  end.

(** Forward search: the first position with key [>= l], same tolerance. *)
Definition forward (l : Z) (rs : list Z) (tol : Z) : option nat :=
  match count_ge l (rev rs) with
  | O => None
  | S k =>
      let p := (length rs - S k)%nat in
      if sub64 (nth p rs 0) l >? tol then None else Some p
  end.

(** Nearest: both searches, the backward one winning ties. *)
Definition nearest (l : Z) (rs : list Z) (tol : Z) : option nat :=
  match backward l rs tol, forward l rs tol with
  | Some b, Some f =>
      if sub64 l (nth b rs 0) <=? sub64 (nth f rs 0) l then Some b else Some f
  | Some b, None => Some b
  | None, f => f
  end.

(** The join keys as integers; pandas refuses null keys. *)
Fixpoint merge_keys (side : string) (cs : list cell) : result (list Z) :=
  match cs with
  | [] => Ok []
  | Datetime ns :: cs' => try ks <- merge_keys side cs'; Ok (ns :: ks)
  | NA :: _ =>
      Err (ValueError ("Merge keys contain null values on " ++ side ++ " side"))
  | _ :: _ => Err (MergeError "incompatible merge keys")
  end.

Fixpoint is_monotonic_increasing (ks : list Z) : bool :=
  match ks with
  | a :: ((b :: _) as ks') => (a <=? b) && is_monotonic_increasing ks'
  | _ => true
  end.

Definition sorted_keys (side : string) (df : DataFrame) (j : nat)
  : result (list Z) :=
  try ks <- merge_keys side (map (cell_at j) (rows df));
  if is_monotonic_increasing ks then Ok ks
  else Err (ValueError (side ++ " keys must be sorted")).

(** A label present on both sides gets the default suffixes [_x], [_y]. *)
Definition suffixed (suffix : string) (others : list string) (n : string)
  : string :=
  if existsb (String.eqb n) others then (n ++ suffix)%string else n.

(** [Index.duplicated()]: the positions whose label occurred before. *)
Fixpoint duplicated (seen labels : list string) : list bool :=
  match labels with
  | [] => []
  | n :: rest => existsb (String.eqb n) seen :: duplicated (n :: seen) rest
  end.

(** The labels that repeat an earlier label once the suffixes are added
    and did not before: pandas refuses to create them. *)
Definition caused_by_suffix (before after : list string) : list string :=
  map fst
    (filter (fun p => fst (snd p) && negb (snd (snd p)))
       (combine after
          (combine (duplicated [] after) (duplicated [] before)))).

Definition null_row (df : DataFrame) : row :=
  repeat NA (length (columns df)).

(** The right-hand part of one merged row. *)
Definition matched (right : DataFrame) (rk : list Z) (tol : Z) (l : Z) : row :=
  match nearest l rk tol with
  | Some p => nth p (rows right) (null_row right)
  | None => null_row right
  end.

(** One output row per left row, in the left order.  The texts of the
    [MergeError]s are shortened: no handler of the program prints them. *)
Definition merge_asof (left right : DataFrame) (left_on right_on : string)
  (tolerance : resolution -> Z) : result DataFrame :=
  try lj <- col_pos left left_on;
  try rj <- col_pos right right_on;
  match dtype_of left left_on, dtype_of right right_on with
  | Datetime64 u tz, Datetime64 u' tz' =>
      if dtype_eqb (Datetime64 u tz) (Datetime64 u' tz') then
        try lk <- sorted_keys "left" left lj;
        try rk <- sorted_keys "right" right rj;
        let llabels := map (suffixed "_x" (columns right)) (columns left) in
        let rlabels := map (suffixed "_y" (columns left)) (columns right) in
        match caused_by_suffix (columns left) llabels
              ++ caused_by_suffix (columns right) rlabels with
        | [] =>
            Ok (Frame
                  (llabels ++ rlabels)
                  (map (fun r => r ++ matched right rk (tolerance u)
                                               (key_at lj r))
                       (rows left))
                  (map (fun p => (suffixed "_x" (columns right) (fst p), snd p))
                       (dtypes left)
                   ++ map (fun p => (suffixed "_y" (columns left) (fst p),
                                     snd p))
                          (dtypes right)))
        | _ :: _ =>
            Err (MergeError "suffixes cause duplicate columns")
        end
      else Err (MergeError "incompatible merge keys, must be the same type")
  | _, _ =>
      Err (MergeError "incompatible merge dtype, must be numeric")
  end.

(** ** Workbooks *)

(** An uploaded [.xlsx] file: either it cannot be opened at all, or it is a
    workbook of named sheets, each of which decodes to a table or raises
    when it is read. *)
Inductive excel : Type :=
| Corrupt (e : exn)
| Workbook (sheets : list (string * result DataFrame)).

(** [pd.ExcelFile(f).sheet_names] *)
Definition sheet_names (f : excel) : result (list string) :=
  match f with
  | Corrupt e => Err e
  | Workbook sheets => Ok (map fst sheets)
  end.

(** [pd.read_excel(f)] reads the first sheet,
    [pd.read_excel(f, sheet_name=n)] the sheet named [n]. *)
Definition read_excel (f : excel) (sheet_name : option string)
  : result DataFrame :=
  match f with
  | Corrupt e => Err e
  | Workbook sheets =>
      match sheet_name with
      | None =>
          match sheets with
          | (_, r) :: _ => r
          | [] => Err (ValueError "Worksheet index 0 is invalid")
          end
      | Some n =>
          match find (fun p => String.eqb (fst p) n) sheets with
          | Some (_, r) => r
          | None => Err (ValueError ("Worksheet named '" ++ n ++ "' not found"))
          end
      end
  end.

(** ** Python dictionaries, in insertion order *)

Definition dict (V : Type) : Type := list (string * V).

(** [d[k] = v]: a present key keeps its place, a new one goes last. *)
Fixpoint dict_set {V : Type} (k : string) (v : V) (d : dict V) : dict V :=
  match d with
  | [] => [(k, v)]
  | (k', v') :: d' =>
      if String.eqb k k' then (k, v) :: d' else (k', v') :: dict_set k v d'
  end.

Definition keys {V : Type} (d : dict V) : list string := map fst d.

(** ** Scripts: diagnostics, [st.stop] and exceptions *)

Inductive channel : Type :=
| OnWrite | OnSubheader | OnInfo | OnWarning | OnError.

Definition message : Type := (channel * string)%type.

(** How a run ends: with a value, by [st.stop()], or by an exception that
    no handler took. *)
Inductive outcome (A : Type) : Type :=
| Return (a : A)
| Stop
| Raise (e : exn).
Arguments Return {A} a.
Arguments Stop {A}.
Arguments Raise {A} e.

(** A script is run from the diagnostics shown so far and leaves the
    diagnostics shown after it. *)
Definition script (A : Type) : Type :=
  list message -> outcome A * list message.

Definition ret {A : Type} (a : A) : script A := fun log => (Return a, log).

Definition bind {A B : Type} (m : script A) (k : A -> script B) : script B :=
  fun log =>
    match m log with
    | (Return a, log') => k a log'
    | (Stop, log') => (Stop, log')
    | (Raise e, log') => (Raise e, log')
    end.

Notation "x <- c ;; k" := (bind c (fun x => k))
  (at level 61, c at next level, right associativity, only parsing).
Notation "c ;; k" := (bind c (fun _ => k))
  (at level 61, right associativity, only parsing).

Definition emit (ch : channel) (text : string) : script unit :=
  fun log => (Return tt, log ++ [(ch, text)]).

Definition st_write := emit OnWrite.
Definition st_subheader := emit OnSubheader.
Definition st_info := emit OnInfo.
Definition st_warning := emit OnWarning.
Definition st_error := emit OnError.

Definition st_stop {A : Type} : script A := fun log => (Stop, log).

(** A pandas call inside a script: its exception becomes the script's. *)
Definition lift {A : Type} (r : result A) : script A :=
  fun log => match r with Ok a => (Return a, log) | Err e => (Raise e, log) end.

(** [try: body except Exception as e: handler].  [st.stop()] is not an
    [Exception] and passes through. *)
Definition try_except {A : Type} (body : script A) (handler : exn -> script A)
  : script A :=
  fun log =>
    match body log with
    | (Raise e, log') => handler e log'
    | other => other
    end.

(** [for x in xs: acc = body(x, acc)] *)
Fixpoint for_each {X S : Type} (xs : list X) (body : X -> S -> script S)
  (acc : S) : script S :=
  match xs with
  | [] => ret acc
  | x :: xs' => acc' <- body x acc;; for_each xs' body acc'
  end.

(** [f"{n}"] for a row count. *)
Definition fmt (n : nat) : string := NilEmpty.string_of_uint (Nat.to_uint n).

(** ** The program *)

Section Program.
Context {pandas : Pandas}.

(** Lines 54-61: the tide table after it has been read. *)
Definition prepare_mares (df_mares : DataFrame) : result DataFrame :=
  try j <- col_pos df_mares "Mare";
  let df_mares := select df_mares (fun r => eq_str "Preia-Mar" (cell_at j r)) in
  try df_mares <- compose_timestamps df_mares "Data" "Hora" "Mares_DateTime";
  Ok (rename df_mares [("Alt", "Mares_Alt"); ("Mare", "Mares_Mare")]).

(** Lines 49-65. *)
Definition load_mares (tide_file : excel) : script DataFrame :=
  try_except
    (df_mares <- lift (read_excel tide_file None);;
     st_write "Tide Data loaded from the first sheet.";;
     lift (prepare_mares df_mares))
    (fun e =>
       st_error ("Error processing Tide Data. Please ensure the file format and column names are correct: " ++ exn_str e);;
       st_stop).

(** Lines 76-83: the provenance column goes, then the duplicates; the
    second component is [duplicates_removed]. *)
Definition clean_sheet (df_temp_sheet : DataFrame) : DataFrame * nat :=
  let df :=
    if has_column "ficheiro.origem" df_temp_sheet
    then drop_column df_temp_sheet "ficheiro.origem"
    else df_temp_sheet in
  let initial_rows := shape0 df in
  let df := drop_duplicates df in
  (df, (initial_rows - shape0 df)%nat).

(** Line 88: the test that sends a sheet to [continue]. *)
Definition skipped (df : DataFrame) : bool :=
  empty df || negb (has_column "Date" df) || negb (has_column "time" df).

(** Lines 74-98: the body of the loop over the sheet names. *)
Definition process_sheet (temp_file : excel) (sheet_name : string)
  (processed_temp_dfs : dict DataFrame) : script (dict DataFrame) :=
  df_temp_sheet <- lift (read_excel temp_file (Some sheet_name));;
  let '(df_temp_sheet, duplicates_removed) := clean_sheet df_temp_sheet in
  (if (0 <? duplicates_removed)%nat
      then st_warning ("Removed " ++ fmt duplicates_removed ++ " duplicate records from sheet '" ++ sheet_name ++ "'.")
      else ret tt);;
  if skipped df_temp_sheet then
    st_info ("Skipping sheet '" ++ sheet_name ++ "' as it is empty or missing 'Date' or 'time' columns after duplicate removal.");;
    ret processed_temp_dfs
  else
    df_temp_sheet <-
      lift (compose_timestamps df_temp_sheet "Date" "time" "Temp_DateTime");;
    ret (dict_set sheet_name df_temp_sheet processed_temp_dfs).

(** Lines 68-102. *)
Definition load_temps (temp_file : excel) : script (dict DataFrame) :=
  try_except
    (temp_sheet_names <- lift (sheet_names temp_file);;
     for_each temp_sheet_names (process_sheet temp_file) [])
    (fun e =>
       st_error ("Error processing Temperature Data. Please ensure the file format and column names are correct: " ++ exn_str e);;
       st_stop).

(** Lines 114-122: one merged table. *)
Definition merge_one (df_mares : DataFrame) (sheet_name : string)
  (df_temp_sheet : DataFrame) : result DataFrame :=
  try merged_sheet_df <-
    merge_asof df_mares df_temp_sheet "Mares_DateTime" "Temp_DateTime" one_hour;
  Ok (setitem merged_sheet_df "Source_Temp_Sheet"
        (repeat (Str sheet_name) (shape0 merged_sheet_df))).

(** Lines 113-124: the body of the loop over the processed sheets. *)
Definition merge_sheet (df_mares : DataFrame) (item : string * DataFrame)
  (merged_results : dict DataFrame) : script (dict DataFrame) :=
  let '(sheet_name, df_temp_sheet) := item in
  st_write ("Merging with temperature sheet: " ++ sheet_name);;
  merged_sheet_df <- lift (merge_one df_mares sheet_name df_temp_sheet);;
  st_write ("Merged data for " ++ sheet_name ++ ": " ++ fmt (shape0 merged_sheet_df) ++ " rows.");;
  ret (dict_set sheet_name merged_sheet_df merged_results).

Definition process_and_merge_data (tide_file temp_file : excel)
  : script (dict DataFrame) :=
  df_mares <- load_mares tide_file;;
  processed_temp_dfs <- load_temps temp_file;;
  match processed_temp_dfs with
  | [] =>
      st_warning "No valid temperature data sheets found after processing.";;
      st_stop
  | _ =>
      st_subheader "Merging Data...";;
      merged_results <-
        for_each processed_temp_dfs (merge_sheet df_mares) [];;
      match merged_results with
      | [] =>
          st_warning "No data was merged. Please check your input files and processing steps.";;
          st_stop
      | _ => ret merged_results
      end
  end.

End Program.

(** ** Vocabulary of the statements *)

Definition valid (o : option Z) : bool :=
  match o with Some _ => true | None => false end.

(** A table is timestamped on column [c], found at position [j], when every
    row holds a datetime there and these ascend down the table. *)
Definition timestamped (df : DataFrame) (c : string) (j : nat) : Prop :=
  find_col c (columns df) = Some j /\
  Forall (fun r => has_key j r = true) (rows df) /\
  StronglySorted Z.le (map (key_at j) (rows df)).

(** What the claim asks to stand to the right of a left row with key [l]:
    a right row whose key is nearest to [l] among all right rows and at
    most [tol] away, or, when every right row is further than [tol] (in
    particular when there is none), one null per right column. *)
Definition nearest_match (right : DataFrame) (j : nat) (tol l : Z)
  (part : row) : Prop :=
  (In part (rows right) /\
   Z.abs (key_at j part - l) <= tol /\
   forall s, In s (rows right) ->
             Z.abs (key_at j part - l) <= Z.abs (key_at j s - l))
  \/
  (part = repeat NA (length (columns right)) /\
   forall s, In s (rows right) -> Z.abs (key_at j s - l) > tol).

(** No distance between a key of the left table and a key of the right
    table reaches [2^63]: the 64-bit differences of the join are the true
    ones. *)
Definition within_reach (left right : DataFrame) (lj rj : nat) : Prop :=
  forall e s, In e (rows left) -> In s (rows right) ->
              Z.abs (key_at lj e - key_at rj s) < 2 ^ 63.

(** No label of either side repeats an earlier one only because of the
    suffixes: the test that [merge_asof] makes on the labels. *)
Definition no_label_clash (left right : DataFrame) : Prop :=
  caused_by_suffix (columns left)
    (map (suffixed "_x" (columns right)) (columns left))
  ++ caused_by_suffix (columns right)
       (map (suffixed "_y" (columns left)) (columns right))
  = [].

(** The table [merge_asof] returns when it returns one. *)
Definition joined (left right : DataFrame) (lj rj : nat) (tol : Z)
  : DataFrame :=
  Frame
    (map (suffixed "_x" (columns right)) (columns left)
     ++ map (suffixed "_y" (columns left)) (columns right))
    (map (fun r =>
            r ++ matched right (map (key_at rj) (rows right)) tol
                         (key_at lj r))
         (rows left))
    (map (fun p => (suffixed "_x" (columns right) (fst p), snd p))
         (dtypes left)
     ++ map (fun p => (suffixed "_y" (columns left) (fst p), snd p))
            (dtypes right)).

(** The merged table of one sheet. *)
Definition tagged (merged : DataFrame) (sheet_name : string) : DataFrame :=
  setitem merged "Source_Temp_Sheet"
          (repeat (Str sheet_name) (shape0 merged)).

Definition dict_of {V : Type} (items : list (string * V)) (d : dict V)
  : dict V :=
  fold_left (fun acc p => dict_set (fst p) (snd p) acc) items d.

(** A script [writes] an outcome and some diagnostics when, from any starting
    log, it ends with that outcome and has appended exactly those
    diagnostics. *)
Definition writes {A : Type} (m : script A) (o : outcome A)
  (msgs : list message) : Prop :=
  forall log, m log = (o, log ++ msgs).

Definition tide_loaded : message :=
  (OnWrite, "Tide Data loaded from the first sheet.").

Definition tide_error (e : exn) : message :=
  (OnError,
   ("Error processing Tide Data. Please ensure the file format and column names are correct: " ++ exn_str e)%string).

Definition temp_error (e : exn) : message :=
  (OnError,
   ("Error processing Temperature Data. Please ensure the file format and column names are correct: " ++ exn_str e)%string).

Definition removed_warning (sheet_name : string) (k : nat) : message :=
  (OnWarning,
   ("Removed " ++ fmt k ++ " duplicate records from sheet '" ++ sheet_name ++ "'.")%string).

Definition skip_info (sheet_name : string) : message :=
  (OnInfo,
   ("Skipping sheet '" ++ sheet_name ++ "' as it is empty or missing 'Date' or 'time' columns after duplicate removal.")%string).

Definition merging_header : message := (OnSubheader, "Merging Data...").

Definition merging (sheet_name : string) : message :=
  (OnWrite, ("Merging with temperature sheet: " ++ sheet_name)%string).

Definition merged_rows (sheet_name : string) (n : nat) : message :=
  (OnWrite,
   ("Merged data for " ++ sheet_name ++ ": " ++ fmt n ++ " rows.")%string).

Section Vocabulary.
Context {pandas : Pandas}.

(** Line 54 alone: the rows whose ['Mare'] cell, at position [j], is the
    text [Preia-Mar]. *)
Definition preia_mar (df : DataFrame) (j : nat) : DataFrame :=
  select df (fun r => eq_str "Preia-Mar" (cell_at j r)).

(** The strings handed to [pd.to_datetime], composed from positions [jd]
    and [jt] of a frame. *)
Definition stamp_strings (df : DataFrame) (jd jt : nat) : list string :=
  str_add (astype_str (map (cell_at jd) (rows df))) " "
          (astype_str (map (cell_at jt) (rows df))).

(** The timestamps [pd.to_datetime] makes of them (none when it raises). *)
Definition stamps_of (df : DataFrame) (jd jt : nat) : list (option Z) :=
  match to_datetime (stamp_strings df jd jt) with
  | Ok (_, stamps) => stamps
  | Err _ => []
  end.

(** The rows of the frame after both column assignments, before [dropna]. *)
Definition stamped (df : DataFrame) (jd jt jo : nat) : list row :=
  assign jo
    (assign jt (rows df) (map Str (astype_str (map (cell_at jt) (rows df)))))
    (map stamp_cell (stamps_of df jd jt)).

(** The table a sheet contributes to [processed_temp_dfs], if any. *)
Definition normalize_sheet (df : DataFrame) : option DataFrame :=
  let c := fst (clean_sheet df) in
  if skipped c then None
  else match compose_timestamps c "Date" "time" "Temp_DateTime" with
       | Ok s => Some s
       | Err _ => None
       end.

(** What the body of the sensor loop does with a sheet as read: it goes on
    to the next sheet (the sheet was skipped or stored), or it raises. *)
Definition sheet_passes (df : DataFrame) : Prop :=
  skipped (fst (clean_sheet df)) = true \/
  exists s,
    compose_timestamps (fst (clean_sheet df)) "Date" "time" "Temp_DateTime"
    = Ok s.

Definition sheet_raises (df : DataFrame) (e : exn) : Prop :=
  skipped (fst (clean_sheet df)) = false /\
  compose_timestamps (fst (clean_sheet df)) "Date" "time" "Temp_DateTime"
  = Err e.

(** The sheet named [n] is read and dealt with without an exception. *)
Definition processable (f : excel) (n : string) : Prop :=
  exists df, read_excel f (Some n) = Ok df /\ sheet_passes df.

(** Reading the sheet named [n], or dealing with it, raises [e]. *)
Definition fails_with (f : excel) (n : string) (e : exn) : Prop :=
  read_excel f (Some n) = Err e \/
  exists df, read_excel f (Some n) = Ok df /\ sheet_raises df e.

(** The diagnostics of one pass through the loop body. *)
Definition sheet_messages (sheet_name : string) (df : DataFrame)
  : list message :=
  (if (0 <? snd (clean_sheet df))%nat
   then [removed_warning sheet_name (snd (clean_sheet df))] else [])
  ++ (if skipped (fst (clean_sheet df)) then [skip_info sheet_name] else []).

(** The sheets that get through the loop, with their normalised tables. *)
Definition survivors (f : excel) (names : list string)
  : list (string * DataFrame) :=
  flat_map
    (fun n =>
       match read_excel f (Some n) with
       | Ok df =>
           match normalize_sheet df with Some s => [(n, s)] | None => [] end
       | Err _ => []
       end)
    names.

Definition loop_messages (f : excel) (names : list string) : list message :=
  flat_map
    (fun n =>
       match read_excel f (Some n) with
       | Ok df => sheet_messages n df
       | Err _ => []
       end)
    names.

Definition merge_table (ev : DataFrame) (item : string * DataFrame)
  : string * DataFrame :=
  (fst item,
   match merge_one ev (fst item) (snd item) with
   | Ok m => m
   | Err _ => mkDataFrame [] []
   end).

End Vocabulary.

(** ** Vocabulary of the further properties *)

(** Every row has one cell per column. *)
Definition rectangular (df : DataFrame) : Prop :=
  Forall (fun r => length r = length (columns df)) (rows df).

Definition no_valid_sheets : message :=
  (OnWarning, "No valid temperature data sheets found after processing.").

Definition no_data_merged : message :=
  (OnWarning,
   "No data was merged. Please check your input files and processing steps.").

(** The two diagnostics of one pass through the merge loop. *)
Definition merge_messages (rows_per_sheet : nat) (names : list string)
  : list message :=
  flat_map (fun n => [merging n; merged_rows n rows_per_sheet]) names.

Section FurtherVocabulary.
Context {pandas : Pandas}.

(** The sheet named [n] can be read and passes the test of line 88. *)
Definition survives (f : excel) (n : string) : bool :=
  match read_excel f (Some n) with
  | Ok df => negb (skipped (fst (clean_sheet df)))
  | Err _ => false
  end.

(** How a run ends, case by case, with the diagnostics it adds. *)
Inductive run_case (tide_file temp_file : excel)
  : outcome (dict DataFrame) -> list message -> Prop :=
| TideUnreadable (e : exn) :
    read_excel tide_file None = Err e ->
    run_case tide_file temp_file Stop [tide_error e]
| TideUnusable (raw : DataFrame) (e : exn) :
    read_excel tide_file None = Ok raw ->
    prepare_mares raw = Err e ->
    run_case tide_file temp_file Stop [tide_loaded; tide_error e]
| SensorsUnopenable (raw ev : DataFrame) (e : exn) :
    read_excel tide_file None = Ok raw ->
    prepare_mares raw = Ok ev ->
    sheet_names temp_file = Err e ->
    run_case tide_file temp_file Stop [tide_loaded; temp_error e]
| SheetFails (raw ev : DataFrame) (before after : list string)
    (n : string) (e : exn) :
    read_excel tide_file None = Ok raw ->
    prepare_mares raw = Ok ev ->
    sheet_names temp_file = Ok (before ++ n :: after) ->
    Forall (processable temp_file) before ->
    fails_with temp_file n e ->
    run_case tide_file temp_file Stop
      ([tide_loaded] ++ loop_messages temp_file (before ++ [n])
       ++ [temp_error e])
| NoSheetLeft (raw ev : DataFrame) (names : list string) :
    read_excel tide_file None = Ok raw ->
    prepare_mares raw = Ok ev ->
    sheet_names temp_file = Ok names ->
    Forall (processable temp_file) names ->
    survivors temp_file names = [] ->
    run_case tide_file temp_file Stop
      ([tide_loaded] ++ loop_messages temp_file names ++ [no_valid_sheets])
| JoinRaises (raw ev : DataFrame) (names : list string)
    (done rest : list (string * DataFrame)) (n : string) (s : DataFrame)
    (e : exn) :
    read_excel tide_file None = Ok raw ->
    prepare_mares raw = Ok ev ->
    sheet_names temp_file = Ok names ->
    Forall (processable temp_file) names ->
    dict_of (survivors temp_file names) [] = done ++ (n, s) :: rest ->
    Forall (fun p => exists m, merge_one ev (fst p) (snd p) = Ok m) done ->
    merge_one ev n s = Err e ->
    run_case tide_file temp_file (Raise e)
      ([tide_loaded] ++ loop_messages temp_file names ++ [merging_header]
       ++ merge_messages (shape0 ev) (keys done) ++ [merging n])
| Merged (raw ev : DataFrame) (names : list string) :
    read_excel tide_file None = Ok raw ->
    prepare_mares raw = Ok ev ->
    sheet_names temp_file = Ok names ->
    Forall (processable temp_file) names ->
    survivors temp_file names <> [] ->
    Forall (fun p => exists m, merge_one ev (fst p) (snd p) = Ok m)
           (dict_of (survivors temp_file names) []) ->
    run_case tide_file temp_file
      (Return (map (merge_table ev) (dict_of (survivors temp_file names) [])))
      ([tide_loaded] ++ loop_messages temp_file names ++ [merging_header]
       ++ merge_messages (shape0 ev)
            (keys (dict_of (survivors temp_file names) []))).

End FurtherVocabulary.

(** ** A reference instance of the library interface

    Enough of pandas to run the program on workbooks whose dates and times
    are written [YYYY-MM-DD] and [HH:MM:SS], the time with or without a UTC
    offset [+HH:MM] or [-HH:MM].  As pandas 2 does, [to_datetime] counts
    nanoseconds and takes the format from the first string: when that is a
    timestamp with an offset, the strings with an offset are accepted and the
    column has that time zone, or is an object column when the offsets
    differ; otherwise the strings without an offset are accepted and the
    column has no time zone.  An instant that does not fit 64 bits is
    rejected.  This instance never raises.  The sort orders the keys and
    leaves equal keys in the order they came. *)
Module Reference.

Definition digit (a : ascii) : option Z :=
  let n := Z.of_nat (nat_of_ascii a) in
  if (48 <=? n) && (n <=? 57) then Some (n - 48) else None.

Fixpoint number (acc : Z) (s : list ascii) : option Z :=
  match s with
  | [] => Some acc
  | a :: s' =>
      match digit a with
      | Some d => number (10 * acc + d) s'
      | None => None
      end
  end.

Definition leap (y : Z) : bool :=
  ((y mod 4 =? 0) && negb (y mod 100 =? 0)) || (y mod 400 =? 0).

Definition days_in_month (y m : Z) : Z :=
  if m =? 2 then (if leap y then 29 else 28)
  else if (m =? 4) || (m =? 6) || (m =? 9) || (m =? 11) then 30 else 31.

(** Days from 1970-01-01 to the given civil date. *)
Definition days_from_civil (y m d : Z) : Z :=
  let y := if m <=? 2 then y - 1 else y in
  let era := y / 400 in
  let yoe := y - era * 400 in
  let doy := (153 * (if m >? 2 then m - 3 else m + 9) + 2) / 5 + d - 1 in
  let doe := yoe * 365 + yoe / 4 - yoe / 100 + doy in
  era * 146097 + doe - 719468.

Definition civil_from_days (z : Z) : Z * Z * Z :=
  let z := z + 719468 in
  let era := z / 146097 in
  let doe := z - era * 146097 in
  let yoe := (doe - doe / 1460 + doe / 36524 - doe / 146096) / 365 in
  let doy := doe - (365 * yoe + yoe / 4 - yoe / 100) in
  let mp := (5 * doy + 2) / 153 in
  let d := doy - (153 * mp + 2) / 5 + 1 in
  let m := if mp <? 10 then mp + 3 else mp - 9 in
  ((yoe + era * 400 + (if m <=? 2 then 1 else 0), m), d).

Definition second : Z := 1000000000.
Definition day : Z := 86400 * second.

Definition instant (y m d hh mm ss : Z) : option Z :=
  if (1 <=? m) && (m <=? 12) && (1 <=? d) && (d <=? days_in_month y m)
     && (hh <? 24) && (mm <? 60) && (ss <? 60)
  then Some (days_from_civil y m d * day + (hh * 3600 + mm * 60 + ss) * second)
  else None.

(** What one string is read as. *)
Inductive parsed : Type :=
| Naive (v : Z)
| Aware (offset : string) (v : Z)
| Rejected.

Definition wall_clock (y1 y2 y3 y4 m1 m2 d1 d2 h1 h2 n1 n2 s1 s2 : ascii)
  : option Z :=
  match number 0 [y1; y2; y3; y4], number 0 [m1; m2], number 0 [d1; d2],
        number 0 [h1; h2], number 0 [n1; n2], number 0 [s1; s2] with
  | Some y, Some m, Some d, Some hh, Some mm, Some ss =>
      instant y m d hh mm ss
  | _, _, _, _, _, _ => None
  end.

(** Minutes east of UTC. *)
Definition offset_minutes (sign o1 o2 o3 o4 : ascii) : option Z :=
  match number 0 [o1; o2], number 0 [o3; o4] with
  | Some hh, Some mm =>
      if (hh <? 24) && (mm <? 60) then
        if Ascii.eqb sign "+" then Some (hh * 60 + mm)
        else if Ascii.eqb sign "-" then Some (- (hh * 60 + mm))
        else None
      else None
  | _, _ => None
  end.

Definition read (s : string) : parsed :=
  match list_ascii_of_string s with
  | [y1; y2; y3; y4; "-"; m1; m2; "-"; d1; d2; " ";
     h1; h2; ":"; n1; n2; ":"; s1; s2]%char =>
      match wall_clock y1 y2 y3 y4 m1 m2 d1 d2 h1 h2 n1 n2 s1 s2 with
      | Some v => Naive v
      | None => Rejected
      end
  | [y1; y2; y3; y4; "-"; m1; m2; "-"; d1; d2; " ";
     h1; h2; ":"; n1; n2; ":"; s1; s2; sign; o1; o2; ":"; o3; o4]%char =>
      match wall_clock y1 y2 y3 y4 m1 m2 d1 d2 h1 h2 n1 n2 s1 s2,
            offset_minutes sign o1 o2 o3 o4 with
      | Some v, Some east =>
          Aware (string_of_list_ascii [sign; o1; o2; ":"%char; o3; o4])
                (v - east * 60 * second)
      | _, _ => Rejected
      end
  | _ => Rejected
  end.

Definition in_range (v : Z) : bool := (- 2 ^ 63 <? v) && (v <? 2 ^ 63).

Definition checked (p : parsed) : parsed :=
  match p with
  | Naive v => if in_range v then Naive v else Rejected
  | Aware o v => if in_range v then Aware o v else Rejected
  | Rejected => Rejected
  end.

Definition parse (s : string) : parsed := checked (read s).

Definition naive_only (p : parsed) : option Z :=
  match p with Naive v => Some v | _ => None end.

Definition aware_only (p : parsed) : option Z :=
  match p with Aware _ v => Some v | _ => None end.

Definition offsets (ps : list parsed) : list string :=
  flat_map (fun p => match p with Aware o _ => [o] | _ => [] end) ps.

Definition stamps (ss : list string) : dtype * list (option Z) :=
  let ps := map parse ss in
  match ps with
  | Aware o _ :: _ =>
      (if forallb (String.eqb o) (offsets ps)
       then Datetime64 Nanoseconds (Some o) else ObjectDtype,
       map aware_only ps)
  | _ => (Datetime64 Nanoseconds None, map naive_only ps)
  end.

Definition decimal (n : Z) : string :=
  NilEmpty.string_of_uint (N.to_uint (Z.to_N n)).

Definition pad (width : nat) (n : Z) : string :=
  let s := decimal n in
  string_of_list_ascii (repeat "0"%char (width - String.length s)) ++ s.

Definition clock (ns : Z) : string :=
  let s := (ns / second) mod 86400 in
  pad 2 (s / 3600) ++ ":" ++ pad 2 ((s / 60) mod 60) ++ ":" ++ pad 2 (s mod 60).

Definition date (ns : Z) : string :=
  let '(y, m, d) := civil_from_days (ns / day) in
  pad 4 y ++ "-" ++ pad 2 m ++ "-" ++ pad 2 d.

(** [str] of one cell; a datetime at midnight prints as a date.  Numbers
    are printed as fractions: whatever their form, [parse] accepts no string
    that holds one in place of a date or a time. *)
Definition str (c : cell) : string :=
  match c with
  | NA => "nan"
  | Str s => s
  | Num x => decimal (Qnum x) ++ "/" ++ decimal (Zpos (Qden x))
  | Boolean true => "True"
  | Boolean false => "False"
  | Datetime ns =>
      if ns mod day =? 0 then date ns else date ns ++ " " ++ clock ns
  | TimeOfDay ns => clock ns
  end.

Module KeyOrder <: Orders.TotalLeBool.
Definition t : Type := (Z * nat)%type.
Definition leb (x y : t) : bool :=
  (fst x <? fst y) || ((fst x =? fst y) && (snd x <=? snd y)%nat).
Theorem leb_total : forall x y, is_true (leb x y) \/ is_true (leb y x).
Proof.
  intros x y. unfold leb, is_true.
  rewrite !orb_true_iff, !andb_true_iff, !Z.ltb_lt, !Z.eqb_eq, !Nat.leb_le.
  lia.
Qed.
End KeyOrder.

Module KeySort := Mergesort.Sort KeyOrder.

Definition positions (ks : list Z) : list nat :=
  map snd (KeySort.sort (combine ks (seq 0 (length ks)))).

Lemma map_snd_combine_seq (ks : list Z) (a : nat) :
  map snd (combine ks (seq a (length ks))) = seq a (length ks).
Proof.
  revert a. induction ks as [|k ks IH]; intros a; simpl; [reflexivity|].
  now rewrite IH.
Qed.

Lemma combine_seq_nth (ks pre : list Z) :
  Forall (fun p : Z * nat => nth (snd p) (pre ++ ks) 0 = fst p)
         (combine ks (seq (length pre) (length ks))).
Proof.
  revert pre. induction ks as [|k ks IH]; intros pre; simpl; constructor.
  - simpl. rewrite app_nth2 by lia. now rewrite Nat.sub_diag.
  - specialize (IH (pre ++ [k])).
    rewrite <- app_assoc, length_app in IH. simpl in IH.
    now rewrite Nat.add_1_r in IH.
Qed.

Lemma positions_perm (ks : list Z) :
  Permutation (positions ks) (seq 0 (length ks)).
Proof.
  unfold positions.
  rewrite <- (map_snd_combine_seq ks 0) at 2.
  apply Permutation_map, Permutation_sym, KeySort.Permuted_sort.
Qed.

Lemma sorted_fst (l : list (Z * nat)) :
  StronglySorted (fun x y => is_true (KeyOrder.leb x y)) l ->
  StronglySorted Z.le (map fst l).
Proof.
  induction 1 as [|p l _ IH Hall]; simpl; constructor; auto.
  rewrite Forall_map. eapply Forall_impl; [|exact Hall].
  intros q Hq. unfold KeyOrder.leb, is_true in Hq.
  rewrite orb_true_iff, andb_true_iff, Z.ltb_lt, Z.eqb_eq in Hq. lia.
Qed.

Lemma positions_sorted (ks : list Z) :
  StronglySorted Z.le (map (fun i => nth i ks 0) (positions ks)).
Proof.
  unfold positions. rewrite map_map.
  set (l := KeySort.sort _).
  assert (Hnth : Forall (fun p : Z * nat => nth (snd p) ks 0 = fst p) l).
  { eapply Permutation_Forall; [apply KeySort.Permuted_sort|].
    exact (combine_seq_nth ks []). }
  rewrite (map_ext_in _ fst).
  - apply sorted_fst, KeySort.StronglySorted_sort.
    intros x y z Hxy Hyz. unfold KeyOrder.leb, is_true in *.
    rewrite orb_true_iff, andb_true_iff, Z.ltb_lt, Z.eqb_eq, Nat.leb_le in *.
    lia.
  - intros p Hp. rewrite Forall_forall in Hnth. now apply Hnth.
Qed.

Lemma stamps_length (ss : list string) (d : dtype) (vs : list (option Z)) :
  Ok (stamps ss) = Ok (d, vs) -> length vs = length ss.
Proof.
  intros [= H].
  assert (Hlen : length (snd (stamps ss)) = length ss).
  { unfold stamps. rewrite <- (length_map parse ss).
    destruct (map parse ss) as [|[v|o v|] ps]; cbn [snd];
      now rewrite length_map. }
  rewrite H in Hlen. exact Hlen.
Qed.

Lemma checked_range (p : parsed) :
  match checked p with
  | Naive v | Aware _ v => int64 v
  | Rejected => True
  end.
Proof.
  unfold int64.
  destruct p as [v|o v|]; cbn [checked]; try exact I;
    destruct (in_range v) eqn:R; try exact I;
    unfold in_range in R; apply andb_prop in R; destruct R as [R1 R2];
    apply Z.ltb_lt in R1, R2; lia.
Qed.

Lemma stamps_int64 (ss : list string) (u : resolution) (tz : option string)
  (vs : list (option Z)) :
  Ok (stamps ss) = Ok (Datetime64 u tz, vs) ->
  Forall (fun o => forall v, o = Some v -> int64 v) vs.
Proof.
  intros [= H].
  assert (Hn : Forall (fun o => forall v, o = Some v -> int64 v)
                      (map naive_only (map parse ss))).
  { rewrite !Forall_map. apply Forall_forall. intros s _ v Hv.
    pose proof (checked_range (read s)) as R. fold (parse s) in R.
    destruct (parse s); try discriminate. now injection Hv as <-. }
  assert (Ha : Forall (fun o => forall v, o = Some v -> int64 v)
                      (map aware_only (map parse ss))).
  { rewrite !Forall_map. apply Forall_forall. intros s _ v Hv.
    pose proof (checked_range (read s)) as R. fold (parse s) in R.
    destruct (parse s); try discriminate. now injection Hv as <-. }
  assert (Hall : Forall (fun o => forall v, o = Some v -> int64 v)
                        (snd (stamps ss))).
  { unfold stamps. revert Hn Ha.
    destruct (map parse ss) as [|[a|o a|] ps]; cbn [snd]; auto. }
  rewrite H in Hall. exact Hall.
Qed.

#[export] Instance pandas : Pandas := {|
  astype_str := map str;
  astype_str_length := fun cs => length_map str cs;
  to_datetime := fun ss => Ok (stamps ss);
  to_datetime_length := stamps_length;
  to_datetime_int64 := stamps_int64;
  argsort := positions;
  argsort_perm := positions_perm;
  argsort_sorted := positions_sorted
|}.

End Reference.

(** ** Sample workbooks, run with the reference instance *)
Module Demo.
Import Reference.

Definition tide_table : DataFrame :=
  mkDataFrame ["Data"; "Hora"; "Mare"; "Alt"]
    [[Str "2024-01-01"; Str "20:30:00"; Str "Preia-Mar"; Num (19 # 10)];
     [Str "2024-01-01"; Str "08:00:00"; Str "Preia-Mar"; Num (21 # 10)];
     [Str "2024-01-01"; Str "14:00:00"; Str "Baixa-Mar"; Num (3 # 10)];
     [Str "2024-01-01"; Str "23:00:00"; Str "Preia-Mar"; Num (20 # 10)];
     [Str "2024-01-01"; Str "noon"; Str "Preia-Mar"; Num (22 # 10)];
     [Str "2024-01-02"; Str "02:00:00"; Str "preia-mar"; Num (18 # 10)]].

Definition tide_file : excel := Workbook [("Mares", Ok tide_table)].

(** Sheet A: two rows that differ in the provenance column only, a reading
    five minutes after the first tide, one 1:00:01 after the second and one
    59:59 after the third. *)
Definition sheet_a : DataFrame :=
  mkDataFrame ["Date"; "time"; "CaboSines"; "ficheiro.origem"]
    [[Str "2024-01-01"; Str "23:59:59"; Num (171 # 10); Str "b.csv"];
     [Str "2024-01-01"; Str "08:05:00"; Num (182 # 10); Str "a.csv"];
     [Str "2024-01-01"; Str "08:05:00"; Num (182 # 10); Str "b.csv"];
     [Str "2024-01-01"; Str "21:30:01"; Num (175 # 10); Str "b.csv"]].

(** Sheet B has no [time] column. *)
Definition sheet_b : DataFrame :=
  mkDataFrame ["Date"; "ALL_TQE_fora"]
    [[Str "2024-01-01"; Num (160 # 10)]].

Definition temp_file : excel :=
  Workbook [("A", Ok sheet_a); ("B", Ok sheet_b)].

Definition events : DataFrame :=
  Eval vm_compute in
    match prepare_mares tide_table with
    | Ok ev => ev
    | Err _ => mkDataFrame [] []
    end.

Definition sensor_a : DataFrame :=
  Eval vm_compute in
    match normalize_sheet sheet_a with
    | Some s => s
    | None => mkDataFrame [] []
    end.

Definition merged_a : DataFrame :=
  Eval vm_compute in
    match merge_one events "A" sensor_a with
    | Ok m => m
    | Err _ => mkDataFrame [] []
    end.

End Demo.

Module Sample.
Import Reference.

Definition results : dict DataFrame :=
  Eval vm_compute in
    match fst (process_and_merge_data Demo.tide_file Demo.temp_file []) with
    | Return r => r
    | _ => []
    end.

Definition diagnostics : list message :=
  Eval vm_compute in
    snd (process_and_merge_data Demo.tide_file Demo.temp_file []).

(** A tide table without the ['Alt'] column. *)
Definition tide_without_alt : DataFrame :=
  mkDataFrame ["Data"; "Hora"; "Mare"]
    [[Str "2024-01-01"; Str "08:00:00"; Str "Preia-Mar"];
     [Str "2024-01-01"; Str "14:00:00"; Str "Baixa-Mar"]].

(** A tide table without the ['Hora'] column. *)
Definition tide_without_hora : DataFrame :=
  mkDataFrame ["Data"; "Mare"; "Alt"]
    [[Str "2024-01-01"; Str "Preia-Mar"; Num (21 # 10)]].

(** A tide table with low tides only. *)
Definition low_tides : DataFrame :=
  mkDataFrame ["Data"; "Hora"; "Mare"; "Alt"]
    [[Str "2024-01-01"; Str "02:00:00"; Str "Baixa-Mar"; Num (3 # 10)];
     [Str "2024-01-01"; Str "14:00:00"; Str "Baixa-Mar"; Num (4 # 10)]].

Definition results_without_alt : dict DataFrame :=
  Eval vm_compute in
    match fst (process_and_merge_data
                 (Workbook [("Mares", Ok tide_without_alt)])
                 Demo.temp_file []) with
    | Return r => r
    | _ => []
    end.

(** A sensor workbook whose second sheet cannot be decoded. *)
Definition broken_after : excel :=
  Workbook [("A", Ok Demo.sheet_a); ("B", Err (IOError "bad sheet"))].

Definition broken_before : excel :=
  Workbook [("B", Err (IOError "bad sheet")); ("A", Ok Demo.sheet_a)].

(** A sensor workbook whose second of three sheets cannot be decoded. *)
Definition broken_between : excel :=
  Workbook [("A", Ok Demo.sheet_a); ("B", Err (IOError "bad sheet"));
            ("C", Ok Demo.sheet_a)].

(** A sensor workbook with no usable sheet: one without a [time] column and
    one without rows. *)
Definition skipped_only : excel :=
  Workbook [("B", Ok Demo.sheet_b);
            ("E", Ok (mkDataFrame ["Date"; "time"; "CaboSines"] []))].

(** A file that is not a workbook. *)
Definition not_a_workbook : excel := Corrupt (IOError "File is not a zip file").

(** A sheet none of whose rows composes to a timestamp. *)
Definition garbled_sheet : DataFrame :=
  mkDataFrame ["Date"; "time"; "CaboSines"]
    [[Str "2024-01-01"; Str "eight"; Num (182 # 10)];
     [Str "yesterday"; Str "08:05:00"; Num (171 # 10)]].

Definition garbled_sensor : DataFrame :=
  Eval vm_compute in
    match normalize_sheet garbled_sheet with
    | Some s => s
    | None => mkDataFrame [] []
    end.

(** What the sensor stage stores for the sample workbook. *)
Definition processed : dict DataFrame :=
  Eval vm_compute in
    match fst (load_temps Demo.temp_file []) with
    | Return d => d
    | _ => []
    end.

(** Sheet A with the readings' times written with their UTC offset. *)
Definition offset_sheet : DataFrame :=
  mkDataFrame ["Date"; "time"; "CaboSines"]
    [[Str "2024-01-01"; Str "08:05:00+01:00"; Num (182 # 10)];
     [Str "2024-01-01"; Str "21:30:01+01:00"; Num (175 # 10)]].

Definition offset_file : excel := Workbook [("A", Ok offset_sheet)].

Definition offset_sensor : DataFrame :=
  Eval vm_compute in
    match normalize_sheet offset_sheet with
    | Some s => s
    | None => mkDataFrame [] []
    end.

(** A high tide at the far end of the range of 64-bit nanoseconds, with a
    reading ten minutes after it and one at the near end of the range. *)
Definition far_tide : DataFrame :=
  mkDataFrame ["Data"; "Hora"; "Mare"; "Alt"]
    [[Str "2262-04-11"; Str "23:00:00"; Str "Preia-Mar"; Num (21 # 10)]].

Definition far_sheet : DataFrame :=
  mkDataFrame ["Date"; "time"; "CaboSines"]
    [[Str "1677-09-22"; Str "00:30:00"; Num (99 # 10)];
     [Str "2262-04-11"; Str "23:10:00"; Num (182 # 10)]].

Definition far_events : DataFrame :=
  Eval vm_compute in
    match prepare_mares far_tide with
    | Ok ev => ev
    | Err _ => mkDataFrame [] []
    end.

Definition far_sensor : DataFrame :=
  Eval vm_compute in
    match normalize_sheet far_sheet with
    | Some s => s
    | None => mkDataFrame [] []
    end.

Definition far_merged : DataFrame :=
  Eval vm_compute in
    match merge_one far_events "A" far_sensor with
    | Ok m => m
    | Err _ => mkDataFrame [] []
    end.

End Sample.

(** * Properties *)

(** ** Columns and rows *)

Lemma find_col_nth (c : string) (cols : list string) (j : nat) :
  find_col c cols = Some j -> nth_error cols j = Some c.
Proof.
  revert j. induction cols as [|n cols IH]; intros j; simpl; [discriminate|].
  destruct (String.eqb_spec c n) as [->|Hne].
  - intros [= <-]. reflexivity.
  - destruct (find_col c cols) as [i|]; simpl; [|discriminate].
    intros [= <-]. simpl. now apply IH.
Qed.

Lemma find_col_lt (c : string) (cols : list string) (j : nat) :
  find_col c cols = Some j -> (j < length cols)%nat.
Proof.
  intros H. apply find_col_nth in H. apply nth_error_Some. congruence.
Qed.

Lemma find_col_distinct (c c' : string) (cols : list string) (j j' : nat) :
  c <> c' -> find_col c cols = Some j -> find_col c' cols = Some j' -> j <> j'.
Proof.
  intros Hne H H' ->. apply find_col_nth in H, H'. congruence.
Qed.

Lemma find_col_none (c : string) (cols : list string) :
  find_col c cols = None <-> ~ In c cols.
Proof.
  induction cols as [|n cols IH]; simpl; [tauto|].
  destruct (String.eqb_spec c n) as [->|Hne].
  - split; [discriminate|]. intros H. exfalso. auto.
  - destruct (find_col c cols) as [i|]; simpl.
    + split; [discriminate|]. intros H. exfalso. apply H. right.
      destruct IH as [_ IH]. destruct (in_dec string_dec c cols); auto.
      specialize (IH n0). discriminate.
    + split; [|reflexivity]. intros _ [Heq|Hin]; [congruence|].
      now apply IH.
Qed.

Lemma find_col_app_old (c : string) (cols more : list string) (j : nat) :
  find_col c cols = Some j -> find_col c (cols ++ more) = Some j.
Proof.
  revert j. induction cols as [|n cols IH]; intros j; simpl; [discriminate|].
  destruct (String.eqb c n); [auto|].
  destruct (find_col c cols) as [i|]; simpl; [|discriminate].
  intros [= <-]. now rewrite (IH i).
Qed.

Lemma find_col_app_new (c : string) (cols : list string) :
  find_col c cols = None -> find_col c (cols ++ [c]) = Some (length cols).
Proof.
  induction cols as [|n cols IH]; simpl.
  - now rewrite String.eqb_refl.
  - destruct (String.eqb c n); [discriminate|].
    destruct (find_col c cols) as [i|]; simpl; [discriminate|].
    intros _. now rewrite IH.
Qed.

Lemma has_column_find (c : string) (df : DataFrame) :
  has_column c df = true <-> exists j, find_col c (columns df) = Some j.
Proof.
  unfold has_column. rewrite existsb_exists. split.
  - intros [n [Hin Heq]]. apply String.eqb_eq in Heq. subst n.
    destruct (find_col c (columns df)) as [j|] eqn:E; [eauto|].
    apply find_col_none in E. contradiction.
  - intros [j Hj]. exists c. split; [|apply String.eqb_refl].
    apply find_col_nth in Hj. eapply nth_error_In; eauto.
Qed.

Lemma has_column_false (c : string) (df : DataFrame) :
  has_column c df = false <-> find_col c (columns df) = None.
Proof.
  destruct (has_column c df) eqn:E.
  - apply has_column_find in E. destruct E as [j ->]. split; discriminate.
  - split; [|reflexivity]. intros _.
    destruct (find_col c (columns df)) as [j|] eqn:F; [|reflexivity].
    assert (has_column c df = true) by (apply has_column_find; eauto).
    congruence.
Qed.

Lemma cell_at_nil (j : nat) : cell_at j [] = NA.
Proof. now destruct j. Qed.

Lemma cell_at_length (j : nat) (r : row) :
  cell_at j r <> NA -> (j < length r)%nat.
Proof.
  unfold cell_at. intros H.
  destruct (Nat.lt_ge_cases j (length r)) as [Hlt|Hge]; [assumption|].
  now rewrite nth_overflow in H.
Qed.

Lemma cell_at_app (j : nat) (r more : row) :
  (j < length r)%nat -> cell_at j (r ++ more) = cell_at j r.
Proof. intros H. unfold cell_at. now apply app_nth1. Qed.

Lemma cell_at_set_at_same (j : nat) (v : cell) (r : row) :
  cell_at j (set_at j v r) = v.
Proof.
  unfold cell_at, set_at.
  assert (Hlen : length (firstn j (r ++ repeat NA j)) = j).
  { rewrite length_firstn, length_app, repeat_length. lia. }
  rewrite app_nth2 by lia. rewrite Hlen, Nat.sub_diag. reflexivity.
Qed.

Lemma cell_at_set_at_other (i j : nat) (v : cell) (r : row) :
  i <> j -> cell_at i (set_at j v r) = cell_at i r.
Proof.
  intros Hne. unfold cell_at, set_at.
  assert (Hlen : length (firstn j (r ++ repeat NA j)) = j).
  { rewrite length_firstn, length_app, repeat_length. lia. }
  destruct (Nat.lt_ge_cases i j) as [Hlt|Hge].
  - rewrite app_nth1 by lia. rewrite nth_firstn.
    replace (i <? j)%nat with true by (symmetry; now apply Nat.ltb_lt).
    destruct (Nat.lt_ge_cases i (length r)) as [Hin|Hout].
    + now apply app_nth1.
    + rewrite app_nth2 by lia. rewrite (nth_overflow r) by lia.
      destruct (Nat.lt_ge_cases (i - length r) (length (repeat NA j))) as [H|H].
      * apply nth_repeat_lt. now rewrite repeat_length in H.
      * now apply nth_overflow.
  - rewrite app_nth2 by lia. rewrite Hlen.
    destruct (i - j)%nat as [|k] eqn:E; [lia|]. cbn [nth].
    rewrite nth_skipn. f_equal. lia.
Qed.

Lemma assign_length (j : nat) (rs : list row) (vals : list cell) :
  length (assign j rs vals) = length rs.
Proof.
  revert vals. induction rs as [|r rs IH]; intros vals; simpl; auto.
Qed.

(** Every row of an assigned column is an old row with one position
    written. *)
Lemma assign_in (j : nat) (rs : list row) (vals : list cell) (r' : row) :
  In r' (assign j rs vals) -> exists r v, In r rs /\ r' = set_at j v r.
Proof.
  revert vals. induction rs as [|r rs IH]; intros vals; simpl; [tauto|].
  intros [<-|Hin].
  - exists r, (hd NA vals). auto.
  - destruct (IH _ Hin) as [r0 [v [H1 H2]]]. exists r0, v. auto.
Qed.

Lemma assign_column (j : nat) (rs : list row) (vals : list cell) :
  length vals = length rs -> map (cell_at j) (assign j rs vals) = vals.
Proof.
  revert vals. induction rs as [|r rs IH]; intros [|v vals]; simpl;
    try discriminate; auto.
  intros [= H]. now rewrite cell_at_set_at_same, IH.
Qed.

Lemma assign_other_column (i j : nat) (rs : list row) (vals : list cell) :
  i <> j -> map (cell_at i) (assign j rs vals) = map (cell_at i) rs.
Proof.
  intros Hne. revert vals. induction rs as [|r rs IH]; intros vals; simpl; auto.
  now rewrite cell_at_set_at_other, IH.
Qed.

Lemma map_nth_seq {A : Type} (l : list A) (d : A) :
  map (fun i => nth i l d) (seq 0 (length l)) = l.
Proof.
  induction l as [|x l IH]; simpl; [reflexivity|].
  f_equal. rewrite <- seq_shift, map_map. exact IH.
Qed.

Lemma filter_all {A : Type} (f : A -> bool) (l : list A) :
  Forall (fun x => f x = true) l ->
  filter f l = l /\ filter (fun x => negb (f x)) l = [].
Proof.
  induction 1 as [|x l Hx _ [IH1 IH2]]; simpl; [auto|].
  rewrite Hx. simpl. now rewrite IH1, IH2.
Qed.

Lemma filter_length_map {A B : Type} (g : B -> bool) (h : A -> B)
  (l : list A) :
  length (filter (fun x => g (h x)) l) = length (filter g (map h l)).
Proof.
  induction l as [|x l IH]; simpl; [reflexivity|].
  destruct (g (h x)); simpl; now rewrite IH.
Qed.

Lemma has_key_datetime (j : nat) (r : row) :
  has_key j r = true -> cell_at j r = Datetime (key_at j r).
Proof.
  unfold has_key, key_at. destruct (cell_at j r); simpl; congruence.
Qed.

Lemma str_add_length (a b : list string) (sep : string) :
  length a = length b -> length (str_add a sep b) = length a.
Proof.
  intros H. unfold str_add. rewrite length_map, length_combine. lia.
Qed.

Lemma setitem_found (df : DataFrame) (c : string) (vals : list cell)
  (j : nat) :
  find_col c (columns df) = Some j ->
  setitem df c vals
  = Frame (columns df) (assign j (rows df) vals) (without c (dtypes df)).
Proof. intros H. unfold setitem. now rewrite H. Qed.

Lemma lookup_dtype_without (c c' : string) (ds : list (string * dtype)) :
  c <> c' -> lookup_dtype c (without c' ds) = lookup_dtype c ds.
Proof.
  intros Hne. induction ds as [|[n d] ds IH]; [reflexivity|].
  cbn [without filter fst negb lookup_dtype].
  destruct (String.eqb_spec n c') as [->|Hn]; cbn [negb].
  - fold (without c' ds). rewrite IH.
    destruct (String.eqb_spec c c'); [contradiction|reflexivity].
  - fold (without c' ds). cbn [lookup_dtype]. now rewrite IH.
Qed.

Lemma setitem_position (df : DataFrame) (c : string) (vals : list cell)
  (j : nat) :
  find_col c (columns (setitem df c vals)) = Some j ->
  find_col c (columns df) = Some j \/ j = length (columns df).
Proof.
  unfold setitem. destruct (find_col c (columns df)) eqn:E; cbn [columns].
  - rewrite E. auto.
  - rewrite (find_col_app_new _ _ E). intros [= <-]. auto.
Qed.

Section FrameFacts.
Context {pandas : Pandas}.

(** Sorting a column in which every row has a timestamp: the same rows,
    keys ascending. *)
Lemma sort_values_sorted (df : DataFrame) (c : string) (j : nat) :
  find_col c (columns df) = Some j ->
  Forall (fun r => has_key j r = true) (rows df) ->
  exists df',
    sort_values df c = Ok df' /\ columns df' = columns df /\
    Permutation (rows df') (rows df) /\
    StronglySorted Z.le (map (key_at j) (rows df')) /\
    dtypes df' = dtypes df.
Proof.
  intros Hj Hall. unfold sort_values, col_pos. rewrite Hj.
  destruct (filter_all _ _ Hall) as [-> ->]. rewrite app_nil_r.
  eexists. split; [reflexivity|]. simpl. split; [reflexivity|].
  split; [|split; [|reflexivity]].
  - rewrite <- (map_nth_seq (rows df) []) at 2.
    apply Permutation_map.
    rewrite <- (length_map (key_at j) (rows df)). apply argsort_perm.
  - rewrite map_map.
    rewrite (map_ext _ (fun i => nth i (map (key_at j) (rows df)) 0)).
    + apply argsort_sorted.
    + intros i.
      assert (H0 : key_at j [] = 0) by (unfold key_at; now rewrite cell_at_nil).
      rewrite <- H0 at 1. symmetry. apply map_nth.
Qed.

Lemma stamp_strings_length (df : DataFrame) (jd jt : nat) :
  length (stamp_strings df jd jt) = length (rows df).
Proof.
  unfold stamp_strings. rewrite str_add_length;
    rewrite !astype_str_length, !length_map; reflexivity.
Qed.

Lemma stamps_of_ok (df : DataFrame) (jd jt : nat) (d : dtype)
  (vs : list (option Z)) :
  to_datetime (stamp_strings df jd jt) = Ok (d, vs) ->
  stamps_of df jd jt = vs /\ length vs = length (rows df).
Proof.
  intros H. unfold stamps_of. rewrite H. split; [reflexivity|].
  rewrite (to_datetime_length _ _ _ H). apply stamp_strings_length.
Qed.

Lemma stamps_of_length (df : DataFrame) (jd jt : nat) :
  (length (stamps_of df jd jt) <= length (rows df))%nat.
Proof.
  unfold stamps_of.
  destruct (to_datetime (stamp_strings df jd jt)) as [[d vs]|e] eqn:E.
  - rewrite (to_datetime_length _ _ _ E), stamp_strings_length. lia.
  - cbn [length]. lia.
Qed.

(** The four statements on a frame that has the two columns: they raise
    exactly when [pd.to_datetime] does. *)
Lemma compose_timestamps_spec (df : DataFrame) (date time out : string)
  (jd jt : nat) (d : dtype) (vs : list (option Z)) :
  date <> time ->
  find_col date (columns df) = Some jd ->
  find_col time (columns df) = Some jt ->
  to_datetime (stamp_strings df jd jt) = Ok (d, vs) ->
  exists df' jo,
    compose_timestamps df date time out = Ok df' /\
    columns df' = columns (setitem df out []) /\
    find_col out (columns df') = Some jo /\
    Permutation (rows df')
      (filter (fun r => negb (isna (cell_at jo r))) (stamped df jd jt jo)) /\
    Forall (fun r => has_key jo r = true) (rows df') /\
    StronglySorted Z.le (map (key_at jo) (rows df')) /\
    length (rows df') = length (filter valid (stamps_of df jd jt)) /\
    dtype_of df' out = d.
Proof.
  intros Hne Hd Ht Hstamps.
  destruct (stamps_of_ok df jd jt d vs Hstamps) as [Hvs Hvlen].
  assert (Hjj : jd <> jt) by (eapply find_col_distinct; eauto).
  unfold compose_timestamps, getitem, col_pos. rewrite Ht.
  rewrite (setitem_found df time _ jt Ht). cbn [columns rows]. rewrite Hd.
  rewrite (assign_other_column jd jt) by assumption.
  fold (stamp_strings df jd jt). rewrite Hstamps. cbn [fst snd].
  set (rows1 := assign jt (rows df) _).
  set (vals := map stamp_cell vs).
  assert (Hlen : length vals = length rows1).
  { unfold vals, rows1. now rewrite length_map, Hvlen, assign_length. }
  assert (Hcount : forall jo,
    length (filter (fun r => negb (isna (cell_at jo r))) (assign jo rows1 vals))
    = length (filter valid vs)).
  { intros jo.
    rewrite (filter_length_map (fun c => negb (isna c)) (cell_at jo)).
    rewrite assign_column by assumption. unfold vals.
    rewrite <- (filter_length_map (fun c => negb (isna c)) stamp_cell).
    f_equal. apply filter_ext. now intros [k|]. }
  assert (Hkeys : forall jo,
    Forall (fun r => has_key jo r = true)
      (filter (fun r => negb (isna (cell_at jo r))) (assign jo rows1 vals))).
  { intros jo. apply Forall_forall. intros r Hr.
    apply filter_In in Hr. destruct Hr as [Hin Hna].
    assert (Hc : In (cell_at jo r) vals).
    { rewrite <- (assign_column jo rows1 vals Hlen). now apply in_map. }
    unfold vals in Hc. apply in_map_iff in Hc. destruct Hc as [o [Ho _]].
    unfold has_key. rewrite <- Ho in *. now destruct o. }
  set (jo := match find_col out (columns df) with
             | Some j => j | None => length (columns df) end).
  set (df1 := Frame (columns df) rows1 (without time (dtypes df))).
  set (df2 := setitem_datetime df1 out d vs).
  assert (Hcols : columns df2 = columns (setitem df out [])).
  { unfold df2, setitem_datetime, setitem, df1. cbn [columns].
    now destruct (find_col out (columns df)). }
  assert (Hjo : find_col out (columns df2) = Some jo).
  { rewrite Hcols. unfold setitem, jo.
    destruct (find_col out (columns df)) eqn:E; cbn [columns]; auto.
    now apply find_col_app_new. }
  assert (Hrows : rows df2 = assign jo rows1 vals).
  { unfold df2, setitem_datetime, setitem, df1, jo. cbn [columns rows].
    now destruct (find_col out (columns df)). }
  assert (Hdt : dtype_of df2 out = d).
  { unfold df2, setitem_datetime, dtype_of. cbn [dtypes lookup_dtype].
    now rewrite String.eqb_refl. }
  unfold dropna, col_pos. rewrite Hjo.
  destruct (sort_values_sorted
              (select df2 (fun r => negb (isna (cell_at jo r)))) out jo)
    as [df' [Hs [Hc [Hp [Hsorted Hdts]]]]].
  - exact Hjo.
  - cbn [select rows]. rewrite Hrows. apply Hkeys.
  - exists df', jo. rewrite Hs. cbn [select rows columns dtypes] in *.
    rewrite Hrows in Hp. rewrite Hvs.
    repeat split; auto; try congruence.
    + unfold stamped. rewrite Hvs. exact Hp.
    + eapply Permutation_Forall; [apply Permutation_sym; exact Hp|].
      apply Hkeys.
    + rewrite (Permutation_length Hp). apply Hcount.
    + unfold dtype_of. rewrite Hdts. exact Hdt.
Qed.

Lemma compose_timestamps_raises (df : DataFrame) (date time out : string)
  (jd jt : nat) (e : exn) :
  date <> time ->
  find_col date (columns df) = Some jd ->
  find_col time (columns df) = Some jt ->
  to_datetime (stamp_strings df jd jt) = Err e ->
  compose_timestamps df date time out = Err e.
Proof.
  intros Hne Hd Ht Hstamps.
  assert (Hjj : jd <> jt) by (eapply find_col_distinct; eauto).
  unfold compose_timestamps, getitem, col_pos. rewrite Ht.
  rewrite (setitem_found df time _ jt Ht). cbn [columns rows]. rewrite Hd.
  rewrite (assign_other_column jd jt) by assumption.
  fold (stamp_strings df jd jt). now rewrite Hstamps.
Qed.

Lemma compose_timestamps_no_time (df : DataFrame) (date time out : string) :
  find_col time (columns df) = None ->
  compose_timestamps df date time out = Err (KeyError time).
Proof.
  intros H. unfold compose_timestamps, getitem, col_pos. now rewrite H.
Qed.

Lemma compose_timestamps_no_date (df : DataFrame) (date time out : string)
  (jt : nat) :
  find_col time (columns df) = Some jt ->
  find_col date (columns df) = None ->
  compose_timestamps df date time out = Err (KeyError date).
Proof.
  intros Ht Hd. unfold compose_timestamps, getitem, col_pos. rewrite Ht.
  rewrite (setitem_found df time _ jt Ht). cbn [columns]. now rewrite Hd.
Qed.

End FrameFacts.

(** ** The nearest search *)

Lemma is_monotonic_sorted (ks : list Z) :
  is_monotonic_increasing ks = true <-> StronglySorted Z.le ks.
Proof.
  split.
  - intros H. apply Sorted_StronglySorted; [exact Z.le_trans|].
    induction ks as [|a ks IH]; [constructor|].
    destruct ks as [|b ks]; [repeat constructor|].
    cbn [is_monotonic_increasing] in H. apply andb_prop in H.
    destruct H as [Hab Hrest]. constructor; [now apply IH|].
    constructor. now apply Z.leb_le.
  - intros H. apply StronglySorted_Sorted in H.
    induction H as [|a ks Hs IH Hhd]; [reflexivity|].
    destruct ks as [|b ks]; [reflexivity|].
    inversion Hhd; subst.
    change (is_monotonic_increasing (a :: b :: ks))
      with ((a <=? b) && is_monotonic_increasing (b :: ks)).
    rewrite IH, andb_true_r. now apply Z.leb_le.
Qed.

Lemma sorted_nth (ks : list Z) :
  StronglySorted Z.le ks ->
  forall i j, (i <= j < length ks)%nat -> nth i ks 0 <= nth j ks 0.
Proof.
  induction 1 as [|a ks Hs IH Hall]; intros i j Hij; simpl in Hij; [lia|].
  destruct i as [|i], j as [|j]; simpl; try lia.
  - rewrite Forall_forall in Hall. apply Hall, nth_In. lia.
  - apply IH. lia.
Qed.

Lemma count_le_bound (l : Z) (rs : list Z) :
  (count_le l rs <= length rs)%nat.
Proof.
  induction rs as [|r rs IH]; simpl; [lia|]. destruct (r <=? l); lia.
Qed.

Lemma count_le_before (l : Z) (rs : list Z) (i : nat) :
  (i < count_le l rs)%nat -> nth i rs 0 <= l.
Proof.
  revert i. induction rs as [|r rs IH]; intros i; simpl; [lia|].
  destruct (Z.leb_spec r l) as [Hrl|Hrl]; [|lia].
  destruct i as [|i]; [auto|]. intros Hi. apply IH. lia.
Qed.

Lemma count_le_at (l : Z) (rs : list Z) :
  (count_le l rs < length rs)%nat -> l < nth (count_le l rs) rs 0.
Proof.
  induction rs as [|r rs IH]; simpl; [lia|].
  destruct (Z.leb_spec r l) as [Hrl|Hrl]; [|auto]. intros Hi. apply IH. lia.
Qed.

Lemma count_ge_bound (l : Z) (rs : list Z) :
  (count_ge l rs <= length rs)%nat.
Proof.
  induction rs as [|r rs IH]; simpl; [lia|]. destruct (r >=? l); lia.
Qed.

Lemma count_ge_before (l : Z) (rs : list Z) (i : nat) :
  (i < count_ge l rs)%nat -> l <= nth i rs 0.
Proof.
  revert i. induction rs as [|r rs IH]; intros i; simpl; [lia|].
  rewrite Z.geb_leb. destruct (Z.leb_spec l r) as [Hrl|Hrl]; [|lia].
  destruct i as [|i]; [auto|]. intros Hi. apply IH. lia.
Qed.

Lemma count_ge_at (l : Z) (rs : list Z) :
  (count_ge l rs < length rs)%nat -> nth (count_ge l rs) rs 0 < l.
Proof.
  induction rs as [|r rs IH]; simpl; [lia|].
  rewrite Z.geb_leb. destruct (Z.leb_spec l r) as [Hrl|Hrl]; [|auto].
  intros Hi. apply IH. lia.
Qed.

(** ** Differences in 64 bits *)

Lemma wrap64_small (z : Z) : - 2 ^ 63 <= z < 2 ^ 63 -> wrap64 z = z.
Proof.
  intros H. unfold wrap64. rewrite Z.mod_small; lia.
Qed.

Lemma wrap64_high (z : Z) :
  2 ^ 63 <= z < 2 ^ 64 -> wrap64 z = z - 2 ^ 64.
Proof.
  intros H. unfold wrap64.
  replace (z + 2 ^ 63) with (z - 2 ^ 63 + 1 * 2 ^ 64) by lia.
  rewrite Z.mod_add by lia. rewrite Z.mod_small; lia.
Qed.

Lemma sub64_exact (a b : Z) : Z.abs (a - b) < 2 ^ 63 -> sub64 a b = a - b.
Proof. intros H. apply wrap64_small. lia. Qed.

Lemma sub64_exact_rev (a b : Z) :
  Z.abs (a - b) < 2 ^ 63 -> sub64 b a = b - a.
Proof. intros H. apply wrap64_small. lia. Qed.

(** ** The nearest search, where no difference wraps around *)

Section Nearest.
Variables (l tol : Z) (rs : list Z).
Hypothesis sorted : StronglySorted Z.le rs.
Hypothesis reach :
  forall i, (i < length rs)%nat -> Z.abs (l - nth i rs 0) < 2 ^ 63.

(** The backward search returns the greatest key [<= l], provided it is
    within the tolerance. *)
Lemma backward_spec :
  match backward l rs tol with
  | Some b =>
      (b < length rs)%nat /\ nth b rs 0 <= l /\ l - nth b rs 0 <= tol /\
      forall i, (i < length rs)%nat -> nth i rs 0 <= l ->
                nth i rs 0 <= nth b rs 0
  | None =>
      forall i, (i < length rs)%nat -> nth i rs 0 <= l -> l - nth i rs 0 > tol
  end.
Proof.
  unfold backward.
  pose proof (count_le_bound l rs) as Hb.
  pose proof (count_le_before l rs) as Hbefore.
  pose proof (count_le_at l rs) as Hat.
  pose proof (sorted_nth rs sorted) as Hmono.
  assert (Hsplit : forall i, (i < length rs)%nat -> nth i rs 0 <= l ->
                             (i < count_le l rs)%nat).
  { intros i Hi Hle.
    destruct (Nat.lt_ge_cases i (count_le l rs)) as [|Hge]; [assumption|].
    specialize (Hmono (count_le l rs) i). lia. }
  destruct (count_le l rs) as [|p] eqn:E.
  - intros i Hi Hle. specialize (Hsplit i Hi Hle). lia.
  - rewrite (sub64_exact l (nth p rs 0)) by (apply reach; lia).
    destruct (Z.gtb_spec (l - nth p rs 0) tol) as [Hgt|Hle].
    + intros i Hi Hil. specialize (Hsplit i Hi Hil).
      specialize (Hmono i p). lia.
    + repeat split; try lia.
      * apply Hbefore. lia.
      * intros i Hi Hil. specialize (Hsplit i Hi Hil). apply Hmono. lia.
Qed.

(** The forward search returns the least key [>= l], provided it is within
    the tolerance. *)
Lemma forward_spec :
  match forward l rs tol with
  | Some f =>
      (f < length rs)%nat /\ l <= nth f rs 0 /\ nth f rs 0 - l <= tol /\
      forall i, (i < length rs)%nat -> l <= nth i rs 0 ->
                nth f rs 0 <= nth i rs 0
  | None =>
      forall i, (i < length rs)%nat -> l <= nth i rs 0 -> nth i rs 0 - l > tol
  end.
Proof.
  unfold forward.
  pose proof (count_ge_bound l (rev rs)) as Hb.
  pose proof (count_ge_before l (rev rs)) as Hbefore.
  pose proof (count_ge_at l (rev rs)) as Hat.
  pose proof (sorted_nth rs sorted) as Hmono.
  rewrite length_rev in *.
  set (n := length rs) in *.
  assert (Hrev : forall i, (i < n)%nat ->
                           nth i (rev rs) 0 = nth (n - S i) rs 0).
  { intros i Hi. now apply rev_nth. }
  assert (Hin : forall q, (q < n)%nat ->
                (n - count_ge l (rev rs) <= q)%nat -> l <= nth q rs 0).
  { intros q Hq Hge. specialize (Hbefore (n - S q)%nat).
    rewrite Hrev in Hbefore by lia.
    replace (n - S (n - S q))%nat with q in Hbefore by lia.
    apply Hbefore. lia. }
  assert (Hsplit : forall q, (q < n)%nat -> l <= nth q rs 0 ->
                             (n - count_ge l (rev rs) <= q)%nat).
  { intros q Hq Hle.
    destruct (Nat.le_gt_cases (n - count_ge l (rev rs)) q) as [|Hlt];
      [assumption|].
    assert (Hc : (count_ge l (rev rs) < n)%nat) by lia.
    specialize (Hat Hc). rewrite Hrev in Hat by lia.
    specialize (Hmono q (n - S (count_ge l (rev rs)))%nat). lia. }
  destruct (count_ge l (rev rs)) as [|k] eqn:E.
  - intros i Hi Hle. specialize (Hsplit i Hi Hle). lia.
  - cbv zeta.
    rewrite (sub64_exact_rev l (nth (n - S k) rs 0)) by (apply reach; lia).
    destruct (Z.gtb_spec (nth (n - S k) rs 0 - l) tol) as [Hgt|Hle].
    + intros i Hi Hil. specialize (Hsplit i Hi Hil).
      specialize (Hmono (n - S k)%nat i). lia.
    + repeat split; try lia.
      * apply Hin; lia.
      * intros i Hi Hil. specialize (Hsplit i Hi Hil). apply Hmono. lia.
Qed.

(** The nearest search returns a position whose key is closest to [l] among
    all keys and within the tolerance, and returns nothing exactly when no
    key is within the tolerance. *)
Lemma nearest_spec :
  match nearest l rs tol with
  | Some p =>
      (p < length rs)%nat /\ Z.abs (nth p rs 0 - l) <= tol /\
      forall i, (i < length rs)%nat ->
                Z.abs (nth p rs 0 - l) <= Z.abs (nth i rs 0 - l)
  | None =>
      forall i, (i < length rs)%nat -> Z.abs (nth i rs 0 - l) > tol
  end.
Proof.
  unfold nearest.
  pose proof backward_spec as Hb. pose proof forward_spec as Hf.
  destruct (backward l rs tol) as [b|], (forward l rs tol) as [f|].
  - destruct Hb as (Hb1 & Hb2 & Hb3 & Hb4), Hf as (Hf1 & Hf2 & Hf3 & Hf4).
    rewrite (sub64_exact l (nth b rs 0)) by now apply reach.
    rewrite (sub64_exact_rev l (nth f rs 0)) by now apply reach.
    destruct (Z.leb_spec (l - nth b rs 0) (nth f rs 0 - l)).
    + repeat split; try lia. intros i Hi.
      specialize (Hb4 i Hi). specialize (Hf4 i Hi). lia.
    + repeat split; try lia. intros i Hi.
      specialize (Hb4 i Hi). specialize (Hf4 i Hi). lia.
  - destruct Hb as (Hb1 & Hb2 & Hb3 & Hb4).
    repeat split; try lia. intros i Hi.
    specialize (Hb4 i Hi). specialize (Hf i Hi). lia.
  - destruct Hf as (Hf1 & Hf2 & Hf3 & Hf4).
    repeat split; try lia. intros i Hi.
    specialize (Hb i Hi). specialize (Hf4 i Hi). lia.
  - intros i Hi. specialize (Hb i Hi). specialize (Hf i Hi). lia.
Qed.

End Nearest.

(** ** The join *)

Lemma merge_keys_rows (side : string) (j : nat) (rs : list row) :
  Forall (fun r => has_key j r = true) rs ->
  merge_keys side (map (cell_at j) rs) = Ok (map (key_at j) rs).
Proof.
  induction 1 as [|r rs Hr _ IH]; simpl; [reflexivity|].
  rewrite (has_key_datetime _ _ Hr). now rewrite IH.
Qed.

Lemma merge_keys_inv (side : string) (j : nat) (rs : list row)
  (ks : list Z) :
  merge_keys side (map (cell_at j) rs) = Ok ks ->
  ks = map (key_at j) rs /\ Forall (fun r => has_key j r = true) rs.
Proof.
  revert ks. induction rs as [|r rs IH]; intros ks; simpl.
  - intros [= <-]. auto.
  - unfold has_key, key_at.
    destruct (cell_at j r) eqn:E; try discriminate.
    destruct (merge_keys side (map (cell_at j) rs)) as [ks'|] eqn:K;
      [|discriminate].
    intros [= <-]. destruct (IH ks' eq_refl) as [-> Hall].
    split; [reflexivity|]. constructor; [now rewrite E|assumption].
Qed.

Lemma sorted_keys_ok (side : string) (df : DataFrame) (j : nat) :
  Forall (fun r => has_key j r = true) (rows df) ->
  StronglySorted Z.le (map (key_at j) (rows df)) ->
  sorted_keys side df j = Ok (map (key_at j) (rows df)).
Proof.
  intros Hk Hs. unfold sorted_keys. rewrite (merge_keys_rows _ _ _ Hk).
  apply is_monotonic_sorted in Hs. now rewrite Hs.
Qed.

Lemma sorted_keys_inv (side : string) (df : DataFrame) (j : nat)
  (ks : list Z) :
  sorted_keys side df j = Ok ks ->
  ks = map (key_at j) (rows df) /\
  Forall (fun r => has_key j r = true) (rows df) /\
  StronglySorted Z.le ks.
Proof.
  unfold sorted_keys.
  destruct (merge_keys side (map (cell_at j) (rows df))) as [ks'|] eqn:K;
    [|discriminate].
  destruct (is_monotonic_increasing ks') eqn:M; [|discriminate].
  intros [= <-]. apply merge_keys_inv in K. destruct K as [-> Hall].
  repeat split; auto. now apply is_monotonic_sorted.
Qed.

Lemma matched_spec (right : DataFrame) (j : nat) (tol l : Z) :
  StronglySorted Z.le (map (key_at j) (rows right)) ->
  (forall s, In s (rows right) -> Z.abs (l - key_at j s) < 2 ^ 63) ->
  nearest_match right j tol l
    (matched right (map (key_at j) (rows right)) tol l).
Proof.
  intros Hs Hreach. unfold matched, nearest_match.
  assert (Hkey : forall i, (i < length (rows right))%nat ->
            nth i (map (key_at j) (rows right)) 0
            = key_at j (nth i (rows right) (null_row right))).
  { intros i Hi.
    rewrite (nth_indep _ 0 (key_at j (null_row right)))
      by now rewrite length_map.
    apply map_nth. }
  assert (Hr : forall i, (i < length (map (key_at j) (rows right)))%nat ->
            Z.abs (l - nth i (map (key_at j) (rows right)) 0) < 2 ^ 63).
  { intros i Hi. rewrite length_map in Hi. rewrite Hkey by assumption.
    apply Hreach. now apply nth_In. }
  pose proof (nearest_spec l tol _ Hs Hr) as Hn.
  rewrite length_map in Hn.
  destruct (nearest l _ tol) as [p|].
  - destruct Hn as (Hp & Htol & Hmin). left.
    rewrite Hkey in Htol, Hmin by assumption.
    repeat split; auto.
    + now apply nth_In.
    + intros s Hin.
      destruct (In_nth _ _ (null_row right) Hin) as [i [Hi <-]].
      rewrite <- (Hkey i Hi). now apply Hmin.
  - right. split; [reflexivity|]. intros s Hin.
    destruct (In_nth _ _ (null_row right) Hin) as [i [Hi <-]].
    rewrite <- (Hkey i Hi). now apply Hn.
Qed.

Lemma resolution_eqb_eq (a b : resolution) :
  resolution_eqb a b = true <-> a = b.
Proof. destruct a, b; cbn; split; congruence. Qed.

Lemma tz_eqb_eq (a b : option string) : tz_eqb a b = true <-> a = b.
Proof.
  destruct a as [x|], b as [y|]; cbn; try (split; congruence).
  rewrite String.eqb_eq. split; congruence.
Qed.

Lemma dtype_eqb_eq (a b : dtype) : dtype_eqb a b = true <-> a = b.
Proof.
  destruct a as [u tz|], b as [u' tz'|]; cbn; try (split; congruence).
  rewrite andb_true_iff, resolution_eqb_eq, tz_eqb_eq.
  split; [intros [-> ->]; reflexivity|intros [= -> ->]; auto].
Qed.

Lemma merge_asof_ok (left right : DataFrame) (left_on right_on : string)
  (tolerance : resolution -> Z) (lj rj : nat) (u : resolution)
  (tz : option string) :
  find_col left_on (columns left) = Some lj ->
  find_col right_on (columns right) = Some rj ->
  Forall (fun r => has_key lj r = true) (rows left) ->
  StronglySorted Z.le (map (key_at lj) (rows left)) ->
  Forall (fun r => has_key rj r = true) (rows right) ->
  StronglySorted Z.le (map (key_at rj) (rows right)) ->
  dtype_of left left_on = Datetime64 u tz ->
  dtype_of right right_on = Datetime64 u tz ->
  no_label_clash left right ->
  merge_asof left right left_on right_on tolerance
  = Ok (joined left right lj rj (tolerance u)).
Proof.
  intros Hl Hr Hlk Hls Hrk Hrs Hld Hrd Hclash. unfold merge_asof, col_pos.
  rewrite Hl, Hr, Hld, Hrd.
  rewrite (proj2 (dtype_eqb_eq _ _) eq_refl).
  rewrite (sorted_keys_ok _ _ _ Hlk Hls), (sorted_keys_ok _ _ _ Hrk Hrs).
  unfold no_label_clash in Hclash. rewrite Hclash.
  reflexivity.
Qed.

Lemma merge_asof_inv (left right : DataFrame) (left_on right_on : string)
  (tolerance : resolution -> Z) (merged : DataFrame) :
  merge_asof left right left_on right_on tolerance = Ok merged ->
  exists lj rj u tz,
    find_col left_on (columns left) = Some lj /\
    find_col right_on (columns right) = Some rj /\
    StronglySorted Z.le (map (key_at lj) (rows left)) /\
    StronglySorted Z.le (map (key_at rj) (rows right)) /\
    dtype_of left left_on = Datetime64 u tz /\
    dtype_of right right_on = Datetime64 u tz /\
    no_label_clash left right /\
    merged = joined left right lj rj (tolerance u).
Proof.
  unfold merge_asof, col_pos.
  destruct (find_col left_on (columns left)) as [lj|]; [|discriminate].
  destruct (find_col right_on (columns right)) as [rj|]; [|discriminate].
  destruct (dtype_of left left_on) as [u tz|]; [|discriminate].
  destruct (dtype_of right right_on) as [u' tz'|]; [|discriminate].
  destruct (dtype_eqb (Datetime64 u tz) (Datetime64 u' tz')) eqn:D;
    [|discriminate].
  apply dtype_eqb_eq in D. injection D as <- <-.
  destruct (sorted_keys "left" left lj) as [lk|] eqn:L; [|discriminate].
  destruct (sorted_keys "right" right rj) as [rk|] eqn:R; [|discriminate].
  destruct (caused_by_suffix _ _ ++ caused_by_suffix _ _) eqn:C;
    [|discriminate].
  intros [= <-].
  apply sorted_keys_inv in L, R.
  destruct L as (-> & _ & HL), R as (-> & _ & HR).
  exists lj, rj, u, tz. repeat split; auto.
Qed.

(** Renaming the value and type columns leaves the timestamp column where
    it is. *)
Lemma find_col_rename (cols : list string) :
  find_col "Mares_DateTime"
    (map (rename_label [("Alt", "Mares_Alt"); ("Mare", "Mares_Mare")]) cols)
  = find_col "Mares_DateTime" cols.
Proof.
  induction cols as [|n cols IH]; [reflexivity|].
  cbn [map find_col]. rewrite IH. f_equal.
  assert (H : String.eqb "Mares_DateTime"
                (rename_label [("Alt", "Mares_Alt"); ("Mare", "Mares_Mare")] n)
              = String.eqb "Mares_DateTime" n); [|now rewrite H].
  cbn [rename_label].
  destruct (String.eqb_spec n "Alt") as [->|H1]; [reflexivity|].
  destruct (String.eqb_spec n "Mare") as [->|H2]; reflexivity.
Qed.

(** ** Normalised tables *)

Section Normalised.
Context {pandas : Pandas}.

Lemma compose_timestamps_inv (df df' : DataFrame) (date time out : string) :
  date <> time ->
  compose_timestamps df date time out = Ok df' ->
  exists jd jt jo,
    find_col date (columns df) = Some jd /\
    find_col time (columns df) = Some jt /\
    columns df' = columns (setitem df out []) /\
    timestamped df' out jo /\
    Permutation (rows df')
      (filter (fun r => negb (isna (cell_at jo r))) (stamped df jd jt jo)) /\
    length (rows df') = length (filter valid (stamps_of df jd jt)).
Proof.
  intros Hne H.
  destruct (find_col time (columns df)) as [jt|] eqn:Ht.
  2:{ rewrite compose_timestamps_no_time in H by assumption. discriminate. }
  destruct (find_col date (columns df)) as [jd|] eqn:Hd.
  2:{ rewrite (compose_timestamps_no_date _ _ _ _ jt) in H by assumption.
      discriminate. }
  destruct (to_datetime (stamp_strings df jd jt)) as [[d vs]|e] eqn:S.
  2:{ rewrite (compose_timestamps_raises df date time out jd jt e) in H
        by assumption. discriminate. }
  destruct (compose_timestamps_spec df date time out jd jt d vs Hne Hd Ht S)
    as (df0 & jo & H0 & Hc & Hj & Hp & Hk & Hs & Hl & _).
  rewrite H0 in H. injection H as <-.
  exists jd, jt, jo. unfold timestamped. repeat split; auto.
Qed.

(** The type of the column written by a composition that succeeds is the
    one [pd.to_datetime] chose. *)
Lemma compose_timestamps_dtype (df df' : DataFrame) (date time out : string) :
  date <> time ->
  compose_timestamps df date time out = Ok df' ->
  exists jd jt d vs,
    find_col date (columns df) = Some jd /\
    find_col time (columns df) = Some jt /\
    to_datetime (stamp_strings df jd jt) = Ok (d, vs) /\
    dtype_of df' out = d.
Proof.
  intros Hne H.
  destruct (find_col time (columns df)) as [jt|] eqn:Ht.
  2:{ rewrite compose_timestamps_no_time in H by assumption. discriminate. }
  destruct (find_col date (columns df)) as [jd|] eqn:Hd.
  2:{ rewrite (compose_timestamps_no_date _ _ _ _ jt) in H by assumption.
      discriminate. }
  destruct (to_datetime (stamp_strings df jd jt)) as [[d vs]|e] eqn:S.
  2:{ rewrite (compose_timestamps_raises df date time out jd jt e) in H
        by assumption. discriminate. }
  destruct (compose_timestamps_spec df date time out jd jt d vs Hne Hd Ht S)
    as (df0 & jo & H0 & _ & _ & _ & _ & _ & _ & Hdt).
  rewrite H0 in H. injection H as <-.
  exists jd, jt, d, vs. auto.
Qed.

(** With both columns present the composition returns a table or raises
    what [pd.to_datetime] raises. *)
Lemma compose_timestamps_cases (df : DataFrame) (date time out : string) :
  date <> time ->
  has_column date df = true -> has_column time df = true ->
  exists jd jt,
    find_col date (columns df) = Some jd /\
    find_col time (columns df) = Some jt /\
    ((exists df' d vs,
        to_datetime (stamp_strings df jd jt) = Ok (d, vs) /\
        compose_timestamps df date time out = Ok df') \/
     (exists e,
        to_datetime (stamp_strings df jd jt) = Err e /\
        compose_timestamps df date time out = Err e)).
Proof.
  intros Hne Hd Ht. apply has_column_find in Hd, Ht.
  destruct Hd as [jd Hd], Ht as [jt Ht].
  exists jd, jt. split; [assumption|]. split; [assumption|].
  destruct (to_datetime (stamp_strings df jd jt)) as [[d vs]|e] eqn:S.
  - left.
    destruct (compose_timestamps_spec df date time out jd jt d vs Hne Hd Ht S)
      as (df' & _ & H & _). eauto.
  - right. exists e. split; [reflexivity|].
    now apply (compose_timestamps_raises df date time out jd jt).
Qed.

Lemma prepare_mares_inv (df_mares ev : DataFrame) :
  prepare_mares df_mares = Ok ev ->
  exists jm jd jt je,
    find_col "Mare" (columns df_mares) = Some jm /\
    find_col "Data" (columns df_mares) = Some jd /\
    find_col "Hora" (columns df_mares) = Some jt /\
    timestamped ev "Mares_DateTime" je /\
    (find_col "Mares_DateTime" (columns df_mares) = Some je \/
     je = length (columns df_mares)) /\
    Permutation (rows ev)
      (filter (fun r => negb (isna (cell_at je r)))
              (stamped (preia_mar df_mares jm) jd jt je)) /\
    length (rows ev)
    = length (filter valid (stamps_of (preia_mar df_mares jm) jd jt)).
Proof.
  unfold prepare_mares, col_pos.
  destruct (find_col "Mare" (columns df_mares)) as [jm|] eqn:Hm;
    [|discriminate].
  fold (preia_mar df_mares jm).
  destruct (compose_timestamps (preia_mar df_mares jm) _ _ _) as [df|] eqn:C;
    [|discriminate].
  intros [= <-].
  apply compose_timestamps_inv in C; [|discriminate].
  destruct C as (jd & jt & je & Hd & Ht & Hc & (Hj & Hk & Hs) & Hp & Hl).
  exists jm, jd, jt, je. unfold timestamped. cbn [rename columns rows].
  rewrite find_col_rename. repeat split; auto.
  rewrite Hc in Hj. apply setitem_position in Hj. exact Hj.
Qed.

(** A tide table with the three columns is normalised, unless
    [pd.to_datetime] raises. *)
Lemma prepare_mares_cases (df_mares : DataFrame) :
  has_column "Mare" df_mares = true ->
  has_column "Hora" df_mares = true ->
  has_column "Data" df_mares = true ->
  exists jm jd jt,
    find_col "Mare" (columns df_mares) = Some jm /\
    find_col "Data" (columns df_mares) = Some jd /\
    find_col "Hora" (columns df_mares) = Some jt /\
    ((exists ev d vs,
        to_datetime (stamp_strings (preia_mar df_mares jm) jd jt)
        = Ok (d, vs) /\
        prepare_mares df_mares = Ok ev) \/
     (exists e,
        to_datetime (stamp_strings (preia_mar df_mares jm) jd jt) = Err e /\
        prepare_mares df_mares = Err e)).
Proof.
  intros Hm Ht Hd. apply has_column_find in Hm. destruct Hm as [jm Hm].
  unfold prepare_mares, col_pos. rewrite Hm. fold (preia_mar df_mares jm).
  destruct (compose_timestamps_cases (preia_mar df_mares jm)
              "Data" "Hora" "Mares_DateTime") as (jd & jt & Hjd & Hjt & H);
    [discriminate|exact Hd|exact Ht|].
  exists jm, jd, jt. split; [reflexivity|]. split; [exact Hjd|].
  split; [exact Hjt|].
  destruct H as [(df & d & vs & S & C)|(e & S & C)]; rewrite C.
  - left. eauto.
  - right. eauto.
Qed.

Lemma prepare_mares_missing (df_mares : DataFrame) :
  has_column "Mare" df_mares = false \/
  has_column "Hora" df_mares = false \/
  has_column "Data" df_mares = false ->
  exists c, prepare_mares df_mares = Err (KeyError c).
Proof.
  intros H. unfold prepare_mares, col_pos.
  destruct (find_col "Mare" (columns df_mares)) as [jm|] eqn:Hm; [|eauto].
  set (df := select _ _).
  assert (Hcols : columns df = columns df_mares) by reflexivity.
  destruct (find_col "Hora" (columns df)) as [jt|] eqn:Ht.
  2:{ rewrite compose_timestamps_no_time by assumption. eauto. }
  destruct (find_col "Data" (columns df)) as [jd|] eqn:Hd.
  2:{ rewrite (compose_timestamps_no_date _ _ _ _ jt) by assumption. eauto. }
  rewrite Hcols in Ht, Hd. exfalso.
  rewrite !has_column_false in H. intuition congruence.
Qed.

(** On normalised tables the join goes through when the two key columns
    have one type and no suffix creates a duplicate label. *)
Lemma merge_asof_timestamped (ev sensor : DataFrame) (je js : nat)
  (u : resolution) (tz : option string) :
  timestamped ev "Mares_DateTime" je ->
  timestamped sensor "Temp_DateTime" js ->
  dtype_of ev "Mares_DateTime" = Datetime64 u tz ->
  dtype_of sensor "Temp_DateTime" = Datetime64 u tz ->
  no_label_clash ev sensor ->
  merge_asof ev sensor "Mares_DateTime" "Temp_DateTime" one_hour
  = Ok (joined ev sensor je js (one_hour u)).
Proof.
  intros (H1 & H2 & H3) (H4 & H5 & H6) Hd Hd' Hc.
  now apply (merge_asof_ok _ _ _ _ _ _ _ u tz).
Qed.

End Normalised.

(** ** Scripts *)

Lemma writes_ret {A : Type} (a : A) : writes (ret a) (Return a) [].
Proof. intros log. unfold ret. now rewrite app_nil_r. Qed.

Lemma writes_emit (ch : channel) (text : string) :
  writes (emit ch text) (Return tt) [(ch, text)].
Proof. intros log. reflexivity. Qed.

Lemma writes_stop {A : Type} : writes (@st_stop A) Stop [].
Proof. intros log. unfold st_stop. now rewrite app_nil_r. Qed.

Lemma writes_lift_ok {A : Type} (r : result A) (a : A) :
  r = Ok a -> writes (lift r) (Return a) [].
Proof. intros -> log. unfold lift. now rewrite app_nil_r. Qed.

Lemma writes_lift_err {A : Type} (r : result A) (e : exn) :
  r = Err e -> writes (lift r) (Raise e) [].
Proof. intros -> log. unfold lift. now rewrite app_nil_r. Qed.

Lemma writes_bind {A B : Type} (m : script A) (k : A -> script B) (a : A)
  (o : outcome B) (msgs1 msgs2 : list message) :
  writes m (Return a) msgs1 -> writes (k a) o msgs2 ->
  writes (bind m k) o (msgs1 ++ msgs2).
Proof.
  intros Hm Hk log. unfold bind. rewrite Hm, Hk. now rewrite app_assoc.
Qed.

Lemma writes_bind_stop {A B : Type} (m : script A) (k : A -> script B)
  (msgs : list message) :
  writes m Stop msgs -> writes (bind m k) Stop msgs.
Proof. intros Hm log. unfold bind. now rewrite Hm. Qed.

Lemma writes_bind_raise {A B : Type} (m : script A) (k : A -> script B)
  (e : exn) (msgs : list message) :
  writes m (Raise e) msgs -> writes (bind m k) (Raise e) msgs.
Proof. intros Hm log. unfold bind. now rewrite Hm. Qed.

Lemma writes_try_raise {A : Type} (body : script A) (h : exn -> script A)
  (e : exn) (o : outcome A) (msgs1 msgs2 : list message) :
  writes body (Raise e) msgs1 -> writes (h e) o msgs2 ->
  writes (try_except body h) o (msgs1 ++ msgs2).
Proof.
  intros Hb Hh log. unfold try_except. rewrite Hb, Hh. now rewrite app_assoc.
Qed.

Lemma writes_try_return {A : Type} (body : script A) (h : exn -> script A)
  (a : A) (msgs : list message) :
  writes body (Return a) msgs -> writes (try_except body h) (Return a) msgs.
Proof. intros Hb log. unfold try_except. now rewrite Hb. Qed.

Lemma writes_try_stop {A : Type} (body : script A) (h : exn -> script A)
  (msgs : list message) :
  writes body Stop msgs -> writes (try_except body h) Stop msgs.
Proof. intros Hb log. unfold try_except. now rewrite Hb. Qed.

Lemma writes_fun {A : Type} (m : script A) (o o' : outcome A)
  (msgs msgs' : list message) :
  writes m o msgs -> writes m o' msgs' -> o = o' /\ msgs = msgs'.
Proof.
  intros H H'. specialize (H []). specialize (H' []). rewrite H in H'.
  now injection H'.
Qed.

(** Running a script to a value, step by step. *)
Lemma bind_return {A B : Type} (m : script A) (k : A -> script B)
  (log log' : list message) (b : B) :
  bind m k log = (Return b, log') ->
  exists a log1, m log = (Return a, log1) /\ k a log1 = (Return b, log').
Proof.
  unfold bind. destruct (m log) as [[a| |e] log1]; try discriminate. eauto.
Qed.

Lemma try_except_return {A : Type} (body : script A) (h : exn -> script A)
  (log log' : list message) (a : A) :
  try_except body h log = (Return a, log') ->
  body log = (Return a, log') \/
  exists e log1, body log = (Raise e, log1) /\ h e log1 = (Return a, log').
Proof.
  unfold try_except. destruct (body log) as [[a'| |e] log1]; eauto.
Qed.

Lemma lift_return {A : Type} (r : result A) (log log' : list message)
  (a : A) :
  lift r log = (Return a, log') -> r = Ok a /\ log' = log.
Proof. unfold lift. destruct r; intros [= -> ->]; auto. Qed.

(** ** Duplicate rows *)

Lemma existsb_row_eqb (r : row) (seen : list row) :
  existsb (row_eqb r) seen = true <-> In r seen.
Proof.
  rewrite existsb_exists. unfold row_eqb. split.
  - intros [x [Hin Heq]]. destruct (row_eq_dec r x); [now subst|discriminate].
  - intros Hin. exists r. split; [assumption|].
    now destruct (row_eq_dec r r).
Qed.

Lemma keep_first_in (seen rs : list row) (r : row) :
  In r (keep_first seen rs) <-> In r rs /\ ~ In r seen.
Proof.
  revert seen. induction rs as [|x rs IH]; intros seen; simpl; [tauto|].
  destruct (existsb (row_eqb x) seen) eqn:E.
  - apply existsb_row_eqb in E. rewrite IH. split.
    + tauto.
    + intros [[<-|Hin] Hn]; [contradiction|tauto].
  - assert (Hx : ~ In x seen).
    { intros H. apply existsb_row_eqb in H. congruence. }
    simpl. rewrite IH. simpl. split.
    + intros [<-|[Hin Hn]]; [tauto|]. split; [tauto|]. intros H. apply Hn. auto.
    + intros [[<-|Hin] Hn]; [tauto|].
      destruct (row_eq_dec x r) as [->|Hne]; [tauto|].
      right. split; [assumption|]. intros [H|H]; [congruence|contradiction].
Qed.

Lemma keep_first_NoDup (seen rs : list row) : NoDup (keep_first seen rs).
Proof.
  revert seen. induction rs as [|x rs IH]; intros seen; simpl; [constructor|].
  destruct (existsb (row_eqb x) seen); [apply IH|].
  constructor; [|apply IH].
  rewrite keep_first_in. simpl. tauto.
Qed.

Lemma keep_first_length (seen rs : list row) :
  (length (keep_first seen rs) <= length rs)%nat.
Proof.
  revert seen. induction rs as [|x rs IH]; intros seen; simpl; [lia|].
  destruct (existsb (row_eqb x) seen); simpl.
  - specialize (IH seen). lia.
  - specialize (IH (x :: seen)). lia.
Qed.

Lemma drop_duplicates_columns (df : DataFrame) :
  columns (drop_duplicates df) = columns df.
Proof. unfold drop_duplicates. now destruct (empty df). Qed.

Lemma drop_duplicates_length (df : DataFrame) :
  (shape0 (drop_duplicates df) <= shape0 df)%nat.
Proof.
  unfold drop_duplicates, shape0. destruct (empty df); simpl; [lia|].
  apply keep_first_length.
Qed.

Lemma drop_duplicates_in (df : DataFrame) (r : row) :
  In r (rows (drop_duplicates df)) <-> In r (rows df).
Proof.
  unfold drop_duplicates. destruct (empty df); simpl; [tauto|].
  rewrite keep_first_in. simpl. tauto.
Qed.

Lemma drop_duplicates_NoDup (df : DataFrame) :
  columns df <> [] -> NoDup (rows (drop_duplicates df)).
Proof.
  intros Hc. unfold drop_duplicates, empty.
  destruct (rows df) as [|r rs] eqn:R; simpl.
  - rewrite R. constructor.
  - destruct (columns df) as [|c cs]; [contradiction|]. simpl.
    apply (keep_first_NoDup [] (r :: rs)).
Qed.

(** ** Dictionaries *)

Lemma dict_set_in {V : Type} (k : string) (v : V) (d : dict V) :
  In (k, v) (dict_set k v d).
Proof.
  induction d as [|[k' v'] d IH]; simpl; [auto|].
  destruct (String.eqb k k'); simpl; auto.
Qed.

Lemma dict_set_other {V : Type} (k k' : string) (v v' : V) (d : dict V) :
  k <> k' -> In (k, v) d -> In (k, v) (dict_set k' v' d).
Proof.
  intros Hne. induction d as [|[k0 v0] d IH]; simpl; [tauto|].
  destruct (String.eqb_spec k' k0) as [->|H0]; simpl.
  - intros [[= <- <-]|H]; [congruence|auto].
  - intros [H|H]; auto.
Qed.

Lemma dict_set_inv {V : Type} (k k' : string) (v v' : V) (d : dict V) :
  In (k, v) (dict_set k' v' d) -> (k = k' /\ v = v') \/ In (k, v) d.
Proof.
  induction d as [|[k0 v0] d IH]; simpl.
  - intros [[= <- <-]|[]]. auto.
  - destruct (String.eqb_spec k' k0) as [->|H0]; simpl.
    + intros [[= <- <-]|H]; auto.
    + intros [H|H]; auto. destruct (IH H); auto.
Qed.

Lemma dict_set_keys {V : Type} (k k' : string) (v' : V) (d : dict V) :
  In k (keys (dict_set k' v' d)) <-> k = k' \/ In k (keys d).
Proof.
  unfold keys. induction d as [|[k0 v0] d IH]; simpl.
  - intuition.
  - destruct (String.eqb_spec k' k0) as [->|H0]; simpl.
    + intuition.
    + rewrite IH. intuition.
Qed.

Lemma dict_set_nonempty {V : Type} (k : string) (v : V) (d : dict V) :
  dict_set k v d <> [].
Proof.
  destruct d as [|[k' v'] d]; simpl; [discriminate|].
  destruct (String.eqb k k'); discriminate.
Qed.

Lemma dict_of_app {V : Type} (l1 l2 : list (string * V)) (d : dict V) :
  dict_of (l1 ++ l2) d = dict_of l2 (dict_of l1 d).
Proof. apply fold_left_app. Qed.

Lemma dict_of_keys {V : Type} (items : list (string * V)) (d : dict V)
  (k : string) :
  In k (keys (dict_of items d)) <-> In k (keys d) \/ In k (map fst items).
Proof.
  revert d. induction items as [|[k' v'] items IH]; intros d; simpl.
  - tauto.
  - unfold dict_of in *. simpl. rewrite IH, dict_set_keys. intuition.
Qed.

Lemma dict_of_inv {V : Type} (items : list (string * V)) (d : dict V)
  (k : string) (v : V) :
  In (k, v) (dict_of items d) -> In (k, v) d \/ In (k, v) items.
Proof.
  revert d. induction items as [|[k' v'] items IH]; intros d; simpl; [auto|].
  unfold dict_of in *. simpl. intros H. apply IH in H.
  destruct H as [H|H]; [|auto].
  apply dict_set_inv in H. destruct H as [[-> ->]|H]; auto.
Qed.

(** When a key always comes with the same value, every item is in the
    dictionary built from the items. *)
Lemma dict_of_in {V : Type} (items : list (string * V)) (d : dict V)
  (k : string) (v : V) :
  (forall v', In (k, v') items -> v' = v) ->
  In (k, v) items -> In (k, v) (dict_of items d).
Proof.
  revert d. induction items as [|[k' v'] items IH] using rev_ind;
    intros d Hfun Hin; [contradiction|].
  rewrite dict_of_app. unfold dict_of at 1. simpl.
  destruct (String.eqb_spec k k') as [<-|Hne].
  - assert (v' = v) as -> by (apply Hfun, in_or_app; simpl; auto).
    apply dict_set_in.
  - apply dict_set_other; [assumption|].
    apply in_app_or in Hin. destruct Hin as [Hin|[[= -> ->]|[]]];
      [|congruence].
    apply IH; [|assumption].
    intros v0 H0. apply Hfun, in_or_app. auto.
Qed.

Lemma dict_of_nonempty {V : Type} (items : list (string * V)) (d : dict V) :
  items <> [] \/ d <> [] -> dict_of items d <> [].
Proof.
  revert d. induction items as [|[k v] items IH]; intros d H; simpl.
  - destruct H; [congruence|assumption].
  - unfold dict_of in *. simpl. apply IH. right. apply dict_set_nonempty.
Qed.

(** ** Dictionaries keep their keys distinct *)

Lemma dict_set_fresh {V : Type} (k : string) (v : V) (d : dict V) :
  ~ In k (keys d) -> dict_set k v d = d ++ [(k, v)].
Proof.
  unfold keys. induction d as [|[k' v'] d IH]; intros H; [reflexivity|].
  cbn [dict_set]. cbn [map fst In] in H.
  destruct (String.eqb_spec k k') as [->|Hne]; [tauto|].
  cbn [app]. f_equal. apply IH. tauto.
Qed.

Lemma dict_set_present {V : Type} (k : string) (v : V) (d : dict V) :
  In k (keys d) -> keys (dict_set k v d) = keys d.
Proof.
  unfold keys. induction d as [|[k' v'] d IH]; intros H; [contradiction|].
  cbn [dict_set]. cbn [map fst In] in H.
  destruct (String.eqb_spec k k') as [->|Hne]; [reflexivity|].
  cbn [map fst]. f_equal. apply IH. destruct H; congruence.
Qed.

Lemma dict_set_NoDup {V : Type} (k : string) (v : V) (d : dict V) :
  NoDup (keys d) -> NoDup (keys (dict_set k v d)).
Proof.
  intros H. destruct (in_dec string_dec k (keys d)) as [Hin|Hout].
  - now rewrite dict_set_present.
  - rewrite dict_set_fresh by assumption. unfold keys in *.
    rewrite map_app. cbn [map fst].
    apply NoDup_app; [assumption|repeat constructor; tauto|].
    intros x Hx [<-|[]]. contradiction.
Qed.

Lemma dict_of_NoDup {V : Type} (items : list (string * V)) (d : dict V) :
  NoDup (keys d) -> NoDup (keys (dict_of items d)).
Proof.
  revert d. induction items as [|[k v] items IH]; intros d H; [assumption|].
  unfold dict_of in *. cbn [fold_left fst snd]. apply IH.
  now apply dict_set_NoDup.
Qed.

Lemma dict_of_fresh {V : Type} (items : list (string * V)) (d : dict V) :
  NoDup (keys d ++ map fst items) -> dict_of items d = d ++ items.
Proof.
  revert d. induction items as [|[k v] items IH]; intros d H.
  - cbn. now rewrite app_nil_r.
  - unfold dict_of in *. cbn [fold_left fst snd].
    cbn [map fst] in H.
    assert (Hk : ~ In k (keys d)).
    { apply NoDup_remove_2 in H. intros Hin. apply H.
      apply in_or_app. now left. }
    rewrite dict_set_fresh by assumption.
    rewrite IH.
    + now rewrite <- app_assoc.
    + unfold keys in *. rewrite map_app. cbn [map fst].
      rewrite <- app_assoc. exact H.
Qed.

Lemma dict_of_keys_map {V W : Type} (g : string * V -> string * W)
  (items : list (string * V)) :
  (forall p, fst (g p) = fst p) ->
  NoDup (map fst items) ->
  dict_of (map g items) [] = map g items.
Proof.
  intros Hg Hnd. apply dict_of_fresh. cbn [keys map app].
  rewrite map_map. rewrite (map_ext _ fst) by exact Hg. exact Hnd.
Qed.

(** ** The three stages of the program *)

Section Stages.
Context {pandas : Pandas}.

Lemma normalize_sheet_some (df s : DataFrame) :
  normalize_sheet df = Some s <->
  skipped (fst (clean_sheet df)) = false /\
  compose_timestamps (fst (clean_sheet df)) "Date" "time" "Temp_DateTime"
  = Ok s.
Proof.
  unfold normalize_sheet. destruct (skipped _) eqn:E.
  - split; [discriminate|]. intros [H _]. discriminate.
  - destruct (compose_timestamps _ _ _ _); split.
    + intros [= ->]. auto.
    + intros [_ [= ->]]. reflexivity.
    + discriminate.
    + intros [_ H]. discriminate.
Qed.

(** Every sheet either passes or raises. *)
Lemma sheet_outcome (df : DataFrame) :
  sheet_passes df \/ exists e, sheet_raises df e.
Proof.
  unfold sheet_passes, sheet_raises.
  destruct (skipped (fst (clean_sheet df))); [now left; left|].
  destruct (compose_timestamps _ _ _ _) as [s|e]; [left|right]; eauto.
Qed.

Lemma normalize_sheet_none (df : DataFrame) :
  sheet_passes df ->
  normalize_sheet df = None <-> skipped (fst (clean_sheet df)) = true.
Proof.
  unfold sheet_passes, normalize_sheet.
  destruct (skipped _) eqn:E; [tauto|].
  intros [H|[s ->]]; [discriminate|]. split; discriminate.
Qed.

Lemma normalize_sheet_timestamped (df s : DataFrame) :
  normalize_sheet df = Some s ->
  exists js, timestamped s "Temp_DateTime" js.
Proof.
  intros H. apply normalize_sheet_some in H. destruct H as [_ H].
  apply compose_timestamps_inv in H; [|discriminate].
  destruct H as (jd & jt & jo & _ & _ & _ & H & _). eauto.
Qed.

(** One pass through the loop body on a sheet that is read and passes. *)
Lemma process_sheet_ok (f : excel) (sheet_name : string) (d : dict DataFrame)
  (df : DataFrame) :
  read_excel f (Some sheet_name) = Ok df ->
  sheet_passes df ->
  writes (process_sheet f sheet_name d)
    (Return (match normalize_sheet df with
             | Some s => dict_set sheet_name s d
             | None => d
             end))
    (sheet_messages sheet_name df).
Proof.
  intros Hread Hpass log.
  unfold process_sheet, bind, lift. rewrite Hread.
  unfold sheet_passes in Hpass.
  unfold normalize_sheet, sheet_messages, removed_warning, skip_info.
  destruct (clean_sheet df) as [c k]. cbn [fst snd] in *.
  destruct (0 <? k)%nat; cbn [st_warning emit ret].
  - destruct (skipped c) eqn:E; cbn [st_info emit ret].
    + now rewrite <- app_assoc.
    + destruct Hpass as [Hpass|[s ->]]; [discriminate|]. reflexivity.
  - destruct (skipped c) eqn:E; cbn [st_info emit ret app].
    + reflexivity.
    + destruct Hpass as [Hpass|[s ->]]; [discriminate|].
      now rewrite app_nil_r.
Qed.

Lemma process_sheet_raises (f : excel) (sheet_name : string)
  (d : dict DataFrame) (e : exn) :
  read_excel f (Some sheet_name) = Err e ->
  writes (process_sheet f sheet_name d) (Raise e) [].
Proof.
  intros Hread log. unfold process_sheet, bind, lift. rewrite Hread.
  now rewrite app_nil_r.
Qed.

(** One pass on a sheet that is read and raises: the duplicate warning is
    shown before the exception. *)
Lemma process_sheet_fails (f : excel) (sheet_name : string)
  (d : dict DataFrame) (df : DataFrame) (e : exn) :
  read_excel f (Some sheet_name) = Ok df ->
  sheet_raises df e ->
  writes (process_sheet f sheet_name d) (Raise e)
         (sheet_messages sheet_name df).
Proof.
  intros Hread [Hs Hc] log.
  unfold process_sheet, bind, lift. rewrite Hread.
  unfold sheet_messages, removed_warning.
  destruct (clean_sheet df) as [c k]. cbn [fst snd] in *.
  rewrite Hs, Hc.
  destruct (0 <? k)%nat; cbn [st_warning emit ret app];
    now rewrite ?app_nil_r.
Qed.

Lemma loop_messages_app (f : excel) (a b : list string) :
  loop_messages f (a ++ b) = loop_messages f a ++ loop_messages f b.
Proof. unfold loop_messages. apply flat_map_app. Qed.

Lemma sheets_loop_ok (f : excel) (names : list string) (d : dict DataFrame) :
  Forall (processable f) names ->
  writes (for_each names (process_sheet f) d)
    (Return (dict_of (survivors f names) d)) (loop_messages f names).
Proof.
  intros Hall. revert d.
  induction Hall as [|n names (df & Hn & Hpass) _ IH]; intros d.
  - apply writes_ret.
  - cbn [for_each survivors loop_messages flat_map]. rewrite Hn.
    rewrite dict_of_app.
    eapply writes_bind; [now apply process_sheet_ok|].
    replace (dict_of _ d)
      with (match normalize_sheet df with
            | Some s => dict_set n s d | None => d end)
      by now destruct (normalize_sheet df).
    apply IH.
Qed.

(** The loop ends at the first sheet that raises, with the diagnostics shown
    until then. *)
Lemma sheets_loop_fails_at (f : excel) (before after : list string)
  (n : string) (e : exn) (d : dict DataFrame) :
  Forall (processable f) before ->
  fails_with f n e ->
  writes (for_each (before ++ n :: after) (process_sheet f) d) (Raise e)
         (loop_messages f (before ++ [n])).
Proof.
  intros Hall Hn. revert d.
  induction Hall as [|b before (df & Hb & Hpass) _ IH]; intros d.
  - cbn [app for_each loop_messages flat_map]. rewrite app_nil_r.
    apply writes_bind_raise.
    destruct Hn as [Hn|(df & Hn & Hraises)]; rewrite Hn.
    + now apply process_sheet_raises.
    + now apply process_sheet_fails.
  - cbn [app for_each loop_messages flat_map]. rewrite Hb.
    eapply writes_bind; [exact (process_sheet_ok f b d df Hb Hpass)|apply IH].
Qed.

(** Either every sheet passes, or there is a first one that raises. *)
Lemma sheets_split (f : excel) (names : list string) :
  Forall (processable f) names \/
  exists before n after e,
    names = before ++ n :: after /\
    Forall (processable f) before /\
    fails_with f n e.
Proof.
  induction names as [|n names IH]; [left; constructor|].
  destruct (read_excel f (Some n)) as [df|e] eqn:Hn.
  2:{ right. exists [], n, names, e. repeat split; auto. now left. }
  destruct (sheet_outcome df) as [Hpass|[e Hraises]].
  2:{ right. exists [], n, names, e. repeat split; auto. right. eauto. }
  destruct IH as [Hall|(before & n' & after & e & -> & Hall & Hfail)].
  - left. constructor; [exists df; auto|assumption].
  - right. exists (n :: before), n', after, e.
    split; [reflexivity|]. split; [|assumption].
    constructor; [exists df; auto|assumption].
Qed.

End Stages.

Section Run.
Context {pandas : Pandas}.

Lemma load_mares_ok (tide_file : excel) (raw ev : DataFrame) :
  read_excel tide_file None = Ok raw -> prepare_mares raw = Ok ev ->
  writes (load_mares tide_file) (Return ev) [tide_loaded].
Proof.
  intros Hr Hp log.
  unfold load_mares, try_except, bind, lift, st_write, emit.
  now rewrite Hr, Hp.
Qed.

Lemma load_mares_unreadable (tide_file : excel) (e : exn) :
  read_excel tide_file None = Err e ->
  writes (load_mares tide_file) Stop [tide_error e].
Proof.
  intros Hr log.
  unfold load_mares, try_except, bind, lift, st_error, st_stop, emit.
  now rewrite Hr.
Qed.

Lemma load_mares_fails (tide_file : excel) (raw : DataFrame) (e : exn) :
  read_excel tide_file None = Ok raw -> prepare_mares raw = Err e ->
  writes (load_mares tide_file) Stop [tide_loaded; tide_error e].
Proof.
  intros Hr Hp log.
  unfold load_mares, try_except, bind, lift, st_write, st_error, st_stop, emit.
  rewrite Hr, Hp. now rewrite <- app_assoc.
Qed.

Lemma load_mares_return (tide_file : excel) (ev : DataFrame)
  (log log' : list message) :
  load_mares tide_file log = (Return ev, log') ->
  exists raw, read_excel tide_file None = Ok raw /\ prepare_mares raw = Ok ev.
Proof.
  intros H.
  destruct (read_excel tide_file None) as [raw|e] eqn:Hr.
  - destruct (prepare_mares raw) as [ev'|e] eqn:Hp.
    + rewrite (load_mares_ok _ _ _ Hr Hp) in H. injection H as <- _. eauto.
    + rewrite (load_mares_fails _ _ _ Hr Hp) in H. discriminate.
  - rewrite (load_mares_unreadable _ _ Hr) in H. discriminate.
Qed.

Lemma load_temps_ok (temp_file : excel) (names : list string) :
  sheet_names temp_file = Ok names ->
  Forall (processable temp_file) names ->
  writes (load_temps temp_file)
    (Return (dict_of (survivors temp_file names) []))
    (loop_messages temp_file names).
Proof.
  intros Hn Hall. unfold load_temps. apply writes_try_return.
  change (loop_messages temp_file names)
    with ([] ++ loop_messages temp_file names).
  eapply writes_bind; [exact (writes_lift_ok _ _ Hn)|].
  now apply sheets_loop_ok.
Qed.

Lemma load_temps_corrupt (temp_file : excel) (e : exn) :
  sheet_names temp_file = Err e ->
  writes (load_temps temp_file) Stop [temp_error e].
Proof.
  intros Hn log.
  unfold load_temps, try_except, bind, lift, st_error, st_stop, emit.
  now rewrite Hn.
Qed.

(** The handler of lines 100-102 takes the exception of the first sheet
    that raises. *)
Lemma load_temps_fails_at (temp_file : excel) (before after : list string)
  (n : string) (e : exn) :
  sheet_names temp_file = Ok (before ++ n :: after) ->
  Forall (processable temp_file) before ->
  fails_with temp_file n e ->
  writes (load_temps temp_file) Stop
         (loop_messages temp_file (before ++ [n]) ++ [temp_error e]).
Proof.
  intros Hn Hall Hfail. unfold load_temps.
  eapply writes_try_raise.
  - rewrite <- (app_nil_l (loop_messages temp_file (before ++ [n]))).
    eapply writes_bind; [exact (writes_lift_ok _ _ Hn)|].
    exact (sheets_loop_fails_at temp_file before after n e [] Hall Hfail).
  - change [temp_error e] with ([temp_error e] ++ []).
    eapply writes_bind; [apply writes_emit|apply writes_stop].
Qed.

Lemma merge_one_ok (ev s : DataFrame) (sheet_name : string) (je js : nat)
  (u : resolution) (tz : option string) :
  timestamped ev "Mares_DateTime" je ->
  timestamped s "Temp_DateTime" js ->
  dtype_of ev "Mares_DateTime" = Datetime64 u tz ->
  dtype_of s "Temp_DateTime" = Datetime64 u tz ->
  no_label_clash ev s ->
  merge_one ev sheet_name s
  = Ok (tagged (joined ev s je js (one_hour u)) sheet_name).
Proof.
  intros He Hs Hd Hd' Hc. unfold merge_one.
  now rewrite (merge_asof_timestamped ev s je js u tz He Hs Hd Hd' Hc).
Qed.

Lemma merge_one_inv (ev s m : DataFrame) (sheet_name : string) :
  merge_one ev sheet_name s = Ok m ->
  exists je js u,
    find_col "Mares_DateTime" (columns ev) = Some je /\
    find_col "Temp_DateTime" (columns s) = Some js /\
    StronglySorted Z.le (map (key_at je) (rows ev)) /\
    StronglySorted Z.le (map (key_at js) (rows s)) /\
    m = tagged (joined ev s je js (one_hour u)) sheet_name.
Proof.
  unfold merge_one.
  destruct (merge_asof ev s _ _ _) as [merged|] eqn:M; [|discriminate].
  intros [= <-]. apply merge_asof_inv in M.
  destruct M as (je & js & u & tz & H1 & H2 & H3 & H4 & _ & _ & _ & ->).
  exists je, js, u. repeat split; auto.
Qed.

(** What the join has checked when it returns. *)
Lemma merge_one_checked (ev s m : DataFrame) (sheet_name : string) :
  merge_one ev sheet_name s = Ok m ->
  exists je js u tz,
    find_col "Mares_DateTime" (columns ev) = Some je /\
    find_col "Temp_DateTime" (columns s) = Some js /\
    dtype_of ev "Mares_DateTime" = Datetime64 u tz /\
    dtype_of s "Temp_DateTime" = Datetime64 u tz /\
    no_label_clash ev s /\
    m = tagged (joined ev s je js (one_hour u)) sheet_name.
Proof.
  unfold merge_one.
  destruct (merge_asof ev s _ _ _) as [merged|] eqn:M; [|discriminate].
  intros [= <-]. apply merge_asof_inv in M.
  destruct M as (je & js & u & tz & H1 & H2 & _ & _ & H5 & H6 & H7 & ->).
  exists je, js, u, tz. repeat split; auto.
Qed.

Lemma tagged_shape0 (merged : DataFrame) (sheet_name : string) :
  shape0 (tagged merged sheet_name) = shape0 merged.
Proof.
  unfold tagged, setitem, shape0.
  destruct (find_col _ _); cbn [rows]; apply assign_length.
Qed.

Lemma joined_shape0 (ev s : DataFrame) (je js : nat) (tol : Z) :
  shape0 (joined ev s je js tol) = shape0 ev.
Proof. unfold joined, shape0. cbn [rows]. apply length_map. Qed.

Lemma merge_one_shape0 (ev s m : DataFrame) (sheet_name : string) :
  merge_one ev sheet_name s = Ok m -> shape0 m = shape0 ev.
Proof.
  intros H. apply merge_one_inv in H.
  destruct H as (je & js & u & _ & _ & _ & _ & ->).
  now rewrite tagged_shape0, joined_shape0.
Qed.

Lemma merge_sheet_ok (ev s m : DataFrame) (sheet_name : string)
  (acc : dict DataFrame) :
  merge_one ev sheet_name s = Ok m ->
  writes (merge_sheet ev (sheet_name, s) acc)
    (Return (dict_set sheet_name m acc))
    [merging sheet_name; merged_rows sheet_name (shape0 m)].
Proof.
  intros H log.
  unfold merge_sheet, bind, lift, st_write, emit, ret. rewrite H.
  now rewrite <- app_assoc.
Qed.

(** Line 114 is outside the two [try] blocks: what the join raises leaves
    the loop body, after the notice of line 113. *)
Lemma merge_sheet_raises (ev s : DataFrame) (sheet_name : string)
  (acc : dict DataFrame) (e : exn) :
  merge_one ev sheet_name s = Err e ->
  writes (merge_sheet ev (sheet_name, s) acc) (Raise e) [merging sheet_name].
Proof.
  intros H log.
  unfold merge_sheet, bind, lift, st_write, emit, ret. now rewrite H.
Qed.

Lemma merge_sheet_return (ev s : DataFrame) (sheet_name : string)
  (acc res : dict DataFrame) (log log' : list message) :
  merge_sheet ev (sheet_name, s) acc log = (Return res, log') ->
  exists m, merge_one ev sheet_name s = Ok m /\ res = dict_set sheet_name m acc.
Proof.
  unfold merge_sheet, bind, lift, st_write, emit, ret.
  destruct (merge_one ev sheet_name s) as [m|e]; [|discriminate].
  intros [= <- _]. eauto.
Qed.

Lemma merge_loop_return (ev : DataFrame) (items : list (string * DataFrame))
  (acc res : dict DataFrame) (log log' : list message) :
  for_each items (merge_sheet ev) acc log = (Return res, log') ->
  forall n m, In (n, m) res ->
    In (n, m) acc \/ exists s, In (n, s) items /\ merge_one ev n s = Ok m.
Proof.
  revert acc log. induction items as [|[k s] items IH]; intros acc log H n m Hin.
  - cbn in H. injection H as <- _. auto.
  - cbn [for_each] in H. apply bind_return in H.
    destruct H as (acc' & log1 & Hstep & Hrest).
    apply merge_sheet_return in Hstep. destruct Hstep as (m' & Hm' & ->).
    destruct (IH _ _ Hrest n m Hin) as [Hacc|(s' & Hs' & Hm)].
    + apply dict_set_inv in Hacc. destruct Hacc as [[-> ->]|Hacc]; [|auto].
      right. exists s. simpl. auto.
    + right. exists s'. simpl. auto.
Qed.

(** The merge loop with its diagnostics, when every join returns. *)
Lemma merge_loop_messages (ev : DataFrame) (items : list (string * DataFrame))
  (acc : dict DataFrame) :
  Forall (fun p => exists m, merge_one ev (fst p) (snd p) = Ok m) items ->
  writes (for_each items (merge_sheet ev) acc)
    (Return (dict_of (map (merge_table ev) items) acc))
    (merge_messages (shape0 ev) (keys items)).
Proof.
  intros Hall. revert acc.
  induction Hall as [|[n s] items [m Hm] _ IH]; intros acc.
  - apply writes_ret.
  - cbn [fst snd] in Hm. cbn [for_each map keys].
    assert (Ht : merge_table ev (n, s) = (n, m)).
    { unfold merge_table. cbn [fst snd]. now rewrite Hm. }
    rewrite Ht.
    change (dict_of ((n, m) :: map (merge_table ev) items) acc)
      with (dict_of (map (merge_table ev) items) (dict_set n m acc)).
    pose proof (merge_one_shape0 _ _ _ _ Hm) as Hrows.
    unfold merge_messages. cbn [flat_map fst]. rewrite <- Hrows.
    eapply writes_bind; [exact (merge_sheet_ok ev s m n acc Hm)|].
    rewrite Hrows. apply IH.
Qed.

Lemma merge_messages_app (k : nat) (a b : list string) :
  merge_messages k (a ++ b) = merge_messages k a ++ merge_messages k b.
Proof. unfold merge_messages. apply flat_map_app. Qed.

(** The merge loop ends at the first join that raises. *)
Lemma merge_loop_fails_at (ev : DataFrame)
  (done rest : list (string * DataFrame)) (n : string) (s : DataFrame)
  (e : exn) (acc : dict DataFrame) :
  Forall (fun p => exists m, merge_one ev (fst p) (snd p) = Ok m) done ->
  merge_one ev n s = Err e ->
  writes (for_each (done ++ (n, s) :: rest) (merge_sheet ev) acc) (Raise e)
         (merge_messages (shape0 ev) (keys done) ++ [merging n]).
Proof.
  intros Hall He. revert acc.
  induction Hall as [|[k t] done [m Hm] _ IH]; intros acc.
  - cbn [app for_each keys map merge_messages flat_map].
    apply writes_bind_raise. now apply merge_sheet_raises.
  - cbn [fst snd] in Hm. cbn [app for_each keys map].
    pose proof (merge_one_shape0 _ _ _ _ Hm) as Hrows.
    unfold merge_messages. cbn [flat_map]. fold (merge_messages (shape0 ev)).
    rewrite <- Hrows.
    change ([merging k; merged_rows k (shape0 m)]
            ++ flat_map (fun n0 => [merging n0; merged_rows n0 (shape0 m)])
                 (map fst done) ++ [merging n])
      with ([merging k; merged_rows k (shape0 m)]
            ++ (merge_messages (shape0 m) (keys done) ++ [merging n])).
    rewrite <- app_assoc.
    eapply writes_bind; [exact (merge_sheet_ok ev t m k acc Hm)|].
    rewrite Hrows. apply IH.
Qed.

(** Either every join returns, or there is a first one that raises. *)
Lemma merge_split (ev : DataFrame) (items : list (string * DataFrame)) :
  Forall (fun p => exists m, merge_one ev (fst p) (snd p) = Ok m) items \/
  exists done n s rest e,
    items = done ++ (n, s) :: rest /\
    Forall (fun p => exists m, merge_one ev (fst p) (snd p) = Ok m) done /\
    merge_one ev n s = Err e.
Proof.
  induction items as [|[n s] items IH]; [left; constructor|].
  destruct (merge_one ev n s) as [m|e] eqn:Hm.
  2:{ right. exists [], n, s, items, e. repeat split; auto. }
  destruct IH as [Hall|(done & n' & s' & rest & e & -> & Hall & He)].
  - left. constructor; [cbn [fst snd]; eauto|assumption].
  - right. exists ((n, s) :: done), n', s', rest, e.
    split; [reflexivity|]. split; [|assumption].
    constructor; [cbn [fst snd]; eauto|assumption].
Qed.

End Run.

Section Whole.
Context {pandas : Pandas}.

(** Nothing readable in the tide file, or a column missing: the run stops
    on the error message. *)
Lemma process_tide_unreadable (tide_file temp_file : excel) (e : exn) :
  read_excel tide_file None = Err e ->
  writes (process_and_merge_data tide_file temp_file) Stop [tide_error e].
Proof.
  intros Hr. unfold process_and_merge_data.
  apply writes_bind_stop. now apply load_mares_unreadable.
Qed.

Lemma process_tide_fails (tide_file temp_file : excel) (raw : DataFrame)
  (e : exn) :
  read_excel tide_file None = Ok raw -> prepare_mares raw = Err e ->
  writes (process_and_merge_data tide_file temp_file) Stop
         [tide_loaded; tide_error e].
Proof.
  intros Hr Hp. unfold process_and_merge_data.
  apply writes_bind_stop. now apply (load_mares_fails _ raw).
Qed.

(** The whole run once the tide stage has passed and the sheet names are
    known. *)
Lemma process_sheet_fails_at (tide_file temp_file : excel) (raw ev : DataFrame)
  (before after : list string) (n : string) (e : exn) :
  read_excel tide_file None = Ok raw ->
  prepare_mares raw = Ok ev ->
  sheet_names temp_file = Ok (before ++ n :: after) ->
  Forall (processable temp_file) before ->
  fails_with temp_file n e ->
  writes (process_and_merge_data tide_file temp_file) Stop
         ([tide_loaded] ++ loop_messages temp_file (before ++ [n])
          ++ [temp_error e]).
Proof.
  intros Hr Hp Hn Hall Hfail. unfold process_and_merge_data.
  eapply writes_bind; [exact (load_mares_ok _ _ _ Hr Hp)|].
  apply writes_bind_stop.
  now apply (load_temps_fails_at temp_file before after n e).
Qed.

Lemma process_no_sheet_left (tide_file temp_file : excel) (raw ev : DataFrame)
  (names : list string) :
  read_excel tide_file None = Ok raw ->
  prepare_mares raw = Ok ev ->
  sheet_names temp_file = Ok names ->
  Forall (processable temp_file) names ->
  survivors temp_file names = [] ->
  writes (process_and_merge_data tide_file temp_file) Stop
         ([tide_loaded] ++ loop_messages temp_file names ++ [no_valid_sheets]).
Proof.
  intros Hr Hp Hn Hall Hs. unfold process_and_merge_data.
  eapply writes_bind; [exact (load_mares_ok _ _ _ Hr Hp)|].
  eapply writes_bind; [exact (load_temps_ok _ _ Hn Hall)|].
  rewrite Hs. cbn [dict_of fold_left].
  change [no_valid_sheets] with ([no_valid_sheets] ++ []).
  eapply writes_bind; [apply writes_emit|apply writes_stop].
Qed.

Lemma process_join_raises (tide_file temp_file : excel) (raw ev : DataFrame)
  (names : list string) (done rest : list (string * DataFrame)) (n : string)
  (s : DataFrame) (e : exn) :
  read_excel tide_file None = Ok raw ->
  prepare_mares raw = Ok ev ->
  sheet_names temp_file = Ok names ->
  Forall (processable temp_file) names ->
  dict_of (survivors temp_file names) [] = done ++ (n, s) :: rest ->
  Forall (fun p => exists m, merge_one ev (fst p) (snd p) = Ok m) done ->
  merge_one ev n s = Err e ->
  writes (process_and_merge_data tide_file temp_file) (Raise e)
         ([tide_loaded] ++ loop_messages temp_file names ++ [merging_header]
          ++ merge_messages (shape0 ev) (keys done) ++ [merging n]).
Proof.
  intros Hr Hp Hn Hall Hd Hdone He. unfold process_and_merge_data.
  eapply writes_bind; [exact (load_mares_ok _ _ _ Hr Hp)|].
  eapply writes_bind; [exact (load_temps_ok _ _ Hn Hall)|].
  rewrite Hd.
  assert (Hne : done ++ (n, s) :: rest <> []) by now destruct done.
  destruct (done ++ (n, s) :: rest) as [|p ps] eqn:E; [congruence|].
  eapply writes_bind; [apply writes_emit|].
  apply writes_bind_raise. rewrite <- E.
  now apply merge_loop_fails_at.
Qed.

Lemma process_merged (tide_file temp_file : excel) (raw ev : DataFrame)
  (names : list string) :
  read_excel tide_file None = Ok raw ->
  prepare_mares raw = Ok ev ->
  sheet_names temp_file = Ok names ->
  Forall (processable temp_file) names ->
  survivors temp_file names <> [] ->
  Forall (fun p => exists m, merge_one ev (fst p) (snd p) = Ok m)
         (dict_of (survivors temp_file names) []) ->
  writes (process_and_merge_data tide_file temp_file)
    (Return (map (merge_table ev) (dict_of (survivors temp_file names) [])))
    ([tide_loaded] ++ loop_messages temp_file names ++ [merging_header]
     ++ merge_messages (shape0 ev)
          (keys (dict_of (survivors temp_file names) []))).
Proof.
  intros Hr Hp Hn Hall Hsome Hmerge.
  set (processed := dict_of (survivors temp_file names) []) in *.
  assert (Hnd : NoDup (map fst processed))
    by (apply (dict_of_NoDup _ []); constructor).
  assert (Hne : processed <> []) by (apply dict_of_nonempty; auto).
  pose proof (merge_loop_messages ev processed [] Hmerge) as Hloop.
  rewrite (dict_of_keys_map (merge_table ev) processed) in Hloop;
    [|reflexivity|exact Hnd].
  unfold process_and_merge_data.
  eapply writes_bind; [exact (load_mares_ok _ _ _ Hr Hp)|].
  eapply writes_bind; [exact (load_temps_ok _ _ Hn Hall)|].
  fold processed. clearbody processed.
  destruct processed as [|p ps]; [congruence|].
  eapply writes_bind; [apply writes_emit|].
  rewrite <- (app_nil_r (merge_messages _ _)).
  eapply writes_bind; [exact Hloop|].
  cbn [map]. apply writes_ret.
Qed.

(** Every run falls under one of the seven cases. *)
Lemma run_cases (tide_file temp_file : excel) :
  exists o msgs,
    run_case tide_file temp_file o msgs /\
    writes (process_and_merge_data tide_file temp_file) o msgs.
Proof.
  destruct (read_excel tide_file None) as [raw|e] eqn:Hr.
  2:{ exists Stop, [tide_error e]. split; [now constructor|].
      now apply process_tide_unreadable. }
  destruct (prepare_mares raw) as [ev|e] eqn:Hp.
  2:{ exists Stop, [tide_loaded; tide_error e].
      split; [now apply (TideUnusable _ _ raw)|].
      now apply (process_tide_fails _ _ raw). }
  destruct (sheet_names temp_file) as [names|e] eqn:Hn.
  2:{ exists Stop, [tide_loaded; temp_error e].
      split; [now apply (SensorsUnopenable _ _ raw ev)|].
      unfold process_and_merge_data.
      change [tide_loaded; temp_error e]
        with ([tide_loaded] ++ [temp_error e]).
      eapply writes_bind; [exact (load_mares_ok _ _ _ Hr Hp)|].
      apply writes_bind_stop. now apply load_temps_corrupt. }
  destruct (sheets_split temp_file names)
    as [Hall|(before & n & after & e & -> & Hall & Hfail)].
  2:{ exists Stop. eexists.
      split; [now apply (SheetFails _ _ raw ev before after n e)|].
      now apply (process_sheet_fails_at _ _ raw ev before after). }
  assert (Hsurv : survivors temp_file names = [] \/
                  survivors temp_file names <> []).
  { destruct (survivors temp_file names); [now left|right; discriminate]. }
  destruct Hsurv as [Hs|Hsome].
  { exists Stop. eexists.
    split; [now apply (NoSheetLeft _ _ raw ev names)|].
    now apply (process_no_sheet_left _ _ raw ev). }
  destruct (merge_split ev (dict_of (survivors temp_file names) []))
    as [Hmerge|(done & n & s & rest & e & Hd & Hdone & He)].
  - eexists. eexists.
    split; [exact (Merged _ _ raw ev names Hr Hp Hn Hall Hsome Hmerge)|].
    now apply (process_merged _ _ raw ev).
  - eexists. eexists.
    split; [exact (JoinRaises _ _ raw ev names done rest n s e
                     Hr Hp Hn Hall Hd Hdone He)|].
    now apply (process_join_raises _ _ raw ev names done rest n s e).
Qed.

Lemma run_outcome (tide_file temp_file : excel) (log : list message)
  (o : outcome (dict DataFrame)) (log' : list message) :
  process_and_merge_data tide_file temp_file log = (o, log') ->
  exists msgs, run_case tide_file temp_file o msgs /\ log' = log ++ msgs.
Proof.
  intros H. destruct (run_cases tide_file temp_file) as (o' & msgs & Hc & Hw).
  rewrite Hw in H. injection H as <- <-. eauto.
Qed.

(** What a returned result mapping is made of. *)
Lemma process_return (tide_file temp_file : excel)
  (results : dict DataFrame) (log log' : list message) :
  process_and_merge_data tide_file temp_file log = (Return results, log') ->
  exists raw ev,
    read_excel tide_file None = Ok raw /\
    prepare_mares raw = Ok ev /\
    forall n m, In (n, m) results -> exists s, merge_one ev n s = Ok m.
Proof.
  unfold process_and_merge_data. intros H.
  apply bind_return in H. destruct H as (ev & log1 & Hmares & H).
  apply load_mares_return in Hmares. destruct Hmares as (raw & Hr & Hp).
  apply bind_return in H. destruct H as (processed & log2 & _ & H).
  exists raw, ev. split; [assumption|]. split; [assumption|].
  destruct processed as [|p ps].
  - apply bind_return in H. destruct H as (? & ? & _ & H). discriminate.
  - apply bind_return in H. destruct H as (? & log3 & _ & H).
    apply bind_return in H. destruct H as (mr & log4 & Hloop & H).
    assert (results = mr) as ->.
    { destruct mr.
      - apply bind_return in H. destruct H as (? & ? & _ & H). discriminate.
      - unfold ret in H. now injection H. }
    intros n m Hin.
    destruct (merge_loop_return _ _ _ _ _ _ Hloop n m Hin)
      as [[]|(s & _ & Hm)].
    eauto.
Qed.

End Whole.

(** ** Auxiliary facts for the statements *)

Lemma Forall2_map_right {A B : Type} (P : A -> B -> Prop) (f : A -> B)
  (l : list A) :
  (forall x, In x l -> P x (f x)) -> Forall2 P l (map f l).
Proof.
  induction l as [|x l IH]; intros H; simpl; constructor.
  - apply H. now left.
  - apply IH. intros y Hy. apply H. now right.
Qed.

Lemma keep_first_fresh (seen rs : list row) :
  NoDup rs -> (forall r, In r rs -> ~ In r seen) -> keep_first seen rs = rs.
Proof.
  intros Hnd. revert seen. induction Hnd as [|x rs Hx Hnd IH]; intros seen Hf;
    [reflexivity|].
  cbn [keep_first].
  destruct (existsb (row_eqb x) seen) eqn:E.
  - apply existsb_row_eqb in E. exfalso. apply (Hf x); [now left|assumption].
  - f_equal. apply IH. intros r Hr [<-|Hs]; [contradiction|].
    apply (Hf r); [now right|assumption].
Qed.

Lemma keep_first_seen (seen rs : list row) (x : row) :
  In x seen -> keep_first seen (x :: rs) = keep_first seen rs.
Proof.
  intros H. cbn [keep_first]. apply existsb_row_eqb in H. now rewrite H.
Qed.

(** Two rows that agree outside the dropped column are the same row once it
    is dropped. *)
Lemma drop_in_row_agree (c : string) (cols : list string) (r1 r2 : row) :
  (forall j, nth_error cols j <> Some c -> nth_error r1 j = nth_error r2 j) ->
  drop_in_row c cols r1 = drop_in_row c cols r2.
Proof.
  unfold drop_in_row. revert r1 r2.
  induction cols as [|n cols IH]; intros r1 r2 H; [reflexivity|].
  assert (Htl : forall t1 t2 : row,
            (forall j, nth_error (n :: cols) (S j) <> Some c ->
                       nth_error t1 j = nth_error t2 j) ->
            map snd (filter (fun p => negb (String.eqb (fst p) c))
                            (combine cols t1))
            = map snd (filter (fun p => negb (String.eqb (fst p) c))
                              (combine cols t2))).
  { intros t1 t2 Ht. apply IH. intros j Hj. apply Ht. exact Hj. }
  destruct (String.eqb_spec n c) as [->|Hne].
  - destruct r1 as [|x1 t1], r2 as [|x2 t2]; cbn [combine filter fst];
      rewrite ?String.eqb_refl; cbn [negb map].
    + reflexivity.
    + rewrite <- (Htl [] t2); [now destruct cols|].
      intros j Hj. specialize (H (S j) Hj). cbn in H. rewrite <- H.
      now destruct j.
    + rewrite (Htl t1 []); [now destruct cols|].
      intros j Hj. specialize (H (S j) Hj). cbn in H. rewrite H.
      now destruct j.
    + apply Htl. intros j Hj. exact (H (S j) Hj).
  - assert (H0 : nth_error r1 0 = nth_error r2 0).
    { apply (H 0%nat). cbn. congruence. }
    destruct r1 as [|x1 t1], r2 as [|x2 t2]; try discriminate.
    + reflexivity.
    + injection H0 as <-. cbn [combine filter fst].
      replace (String.eqb n c) with false
        by (symmetry; now apply String.eqb_neq).
      cbn [negb map snd]. f_equal.
      apply Htl. intros j Hj. exact (H (S j) Hj).
Qed.

Lemma has_column_filter (c : string) (df : DataFrame) (keep : string -> bool)
  (rs : list row) (ds : list (string * dtype)) :
  has_column c df = false ->
  has_column c (Frame (filter keep (columns df)) rs ds) = false.
Proof.
  unfold has_column. cbn [columns]. intros H.
  destruct (existsb (String.eqb c) (filter keep (columns df))) eqn:E;
    [|reflexivity].
  apply existsb_exists in E. destruct E as (n & Hin & Hn).
  apply filter_In in Hin. destruct Hin as [Hin _].
  assert (existsb (String.eqb c) (columns df) = true)
    by (apply existsb_exists; eauto).
  congruence.
Qed.

Lemma filter_idem {A : Type} (f : A -> bool) (l : list A) :
  filter f (filter f l) = filter f l.
Proof.
  induction l as [|x l IH]; [reflexivity|]. cbn [filter].
  destruct (f x) eqn:E; [|exact IH]. cbn [filter]. rewrite E. now f_equal.
Qed.

Lemma key_at_of_cell (j : nat) (l l' : list row) :
  map (cell_at j) l = map (cell_at j) l' ->
  map (key_at j) l = map (key_at j) l'.
Proof.
  intros H.
  change (key_at j)
    with (fun r => match key_of (cell_at j r) with Some k => k | None => 0 end).
  rewrite <- !(map_map (cell_at j)
                 (fun c => match key_of c with Some k => k | None => 0 end)).
  now rewrite H.
Qed.

(** Tagging the joined table with the sheet name leaves the event
    timestamps where they were. *)
Lemma tagged_joined_keys (ev s : DataFrame) (je js : nat) (tol : Z)
  (sheet_name : string) :
  find_col "Mares_DateTime" (columns ev) = Some je ->
  Forall (fun r => has_key je r = true) (rows ev) ->
  map (cell_at je) (rows (tagged (joined ev s je js tol) sheet_name))
  = map (cell_at je) (rows ev).
Proof.
  intros Hje Hkeys.
  assert (Hjoin : map (cell_at je) (rows (joined ev s je js tol))
                  = map (cell_at je) (rows ev)).
  { cbn [joined rows]. rewrite map_map. apply map_ext_in. intros r Hr.
    apply cell_at_app, cell_at_length.
    rewrite Forall_forall in Hkeys.
    rewrite (has_key_datetime _ _ (Hkeys r Hr)). discriminate. }
  assert (Hlabel : nth_error (columns (joined ev s je js tol)) je
                   = Some (suffixed "_x" (columns s) "Mares_DateTime")).
  { cbn [joined columns]. rewrite nth_error_app1.
    - apply map_nth_error. now apply find_col_nth.
    - rewrite length_map. now apply find_col_lt in Hje. }
  unfold tagged, setitem.
  destruct (find_col "Source_Temp_Sheet" (columns (joined ev s je js tol)))
    as [jx|] eqn:E; cbn [rows].
  - rewrite assign_other_column; [exact Hjoin|].
    intros ->. apply find_col_nth in E. rewrite E in Hlabel.
    unfold suffixed in Hlabel. destruct (existsb _ _); discriminate.
  - rewrite assign_other_column; [exact Hjoin|].
    assert (je < length (columns (joined ev s je js tol)))%nat; [|lia].
    apply nth_error_Some. congruence.
Qed.

Lemma assign_repeat {A : Type} (j : nat) (g : A -> row) (v : cell)
  (l : list A) :
  assign j (map g l) (repeat v (length l))
  = map (fun e => set_at j v (g e)) l.
Proof.
  induction l as [|e es IH]; [reflexivity|].
  cbn [map length repeat assign hd tl]. now rewrite IH.
Qed.

Lemma nth_error_assign (j : nat) (rs : list row) (vals : list cell)
  (i : nat) (r : row) :
  nth_error rs i = Some r ->
  nth_error (assign j rs vals) i = Some (set_at j (nth i vals NA) r).
Proof.
  revert vals i. induction rs as [|r0 rs IH]; intros vals i H.
  - destruct i; discriminate.
  - destruct i as [|i]; cbn [assign nth_error] in *.
    + injection H as ->. now destruct vals.
    + rewrite (IH (tl vals) i H). now destruct vals as [|v vals]; destruct i.
Qed.

(** The rows of a merged table: each event row, what the join found for
    it, and the tag written over position [jtag]. *)
Lemma tagged_joined_rows (ev s : DataFrame) (je js : nat) (tol : Z)
  (sheet_name : string) :
  exists jtag,
    find_col "Source_Temp_Sheet"
             (columns (tagged (joined ev s je js tol) sheet_name))
    = Some jtag /\
    rows (tagged (joined ev s je js tol) sheet_name)
    = map (fun e =>
             set_at jtag (Str sheet_name)
               (e ++ matched s (map (key_at js) (rows s)) tol (key_at je e)))
          (rows ev).
Proof.
  unfold tagged, setitem, shape0.
  assert (Hrows : forall j,
    assign j (rows (joined ev s je js tol))
           (repeat (Str sheet_name) (length (rows (joined ev s je js tol))))
    = map (fun e =>
             set_at j (Str sheet_name)
               (e ++ matched s (map (key_at js) (rows s)) tol (key_at je e)))
          (rows ev)).
  { intros j. cbn [joined rows]. rewrite length_map.
    apply (assign_repeat j
             (fun e => e ++ matched s (map (key_at js) (rows s)) tol
                                    (key_at je e))). }
  destruct (find_col "Source_Temp_Sheet" (columns (joined ev s je js tol)))
    as [j|] eqn:E; cbn [columns rows].
  - exists j. split; [exact E|apply Hrows].
  - exists (length (columns (joined ev s je js tol))).
    split; [now apply find_col_app_new|apply Hrows].
Qed.

Section Results.
Context {pandas : Pandas}.

Lemma survivors_in (f : excel) (names : list string) (n : string)
  (s : DataFrame) :
  In (n, s) (survivors f names) <->
  In n names /\
  exists df, read_excel f (Some n) = Ok df /\ normalize_sheet df = Some s.
Proof.
  unfold survivors. rewrite in_flat_map. split.
  - intros (n' & Hn' & Hin).
    destruct (read_excel f (Some n')) as [df|] eqn:R; [|contradiction].
    destruct (normalize_sheet df) as [s'|] eqn:N; [|contradiction].
    destruct Hin as [[= -> ->]|[]]. eauto.
  - intros (Hn & df & R & N). exists n. split; [assumption|].
    rewrite R, N. now left.
Qed.

Lemma clean_sheet_has_column (c : string) (df : DataFrame) :
  has_column c df = false -> has_column c (fst (clean_sheet df)) = false.
Proof.
  intros H. unfold clean_sheet. cbn [fst].
  unfold has_column at 1. rewrite drop_duplicates_columns.
  destruct (has_column "ficheiro.origem" df); [|exact H].
  exact (has_column_filter c df _ _ _ H).
Qed.

Lemma survivors_fun (f : excel) (names : list string) (n : string)
  (s s' : DataFrame) :
  In (n, s) (survivors f names) -> In (n, s') (survivors f names) -> s' = s.
Proof.
  intros H H'. apply survivors_in in H, H'.
  destruct H as (_ & df & R & N), H' as (_ & df' & R' & N'). congruence.
Qed.

Lemma stored_in (f : excel) (names : list string) (n : string)
  (s : DataFrame) :
  In (n, s) (dict_of (survivors f names) []) <-> In (n, s) (survivors f names).
Proof.
  split.
  - intros H. apply dict_of_inv in H. now destruct H as [[]|H].
  - intros H. apply dict_of_in; [|exact H].
    intros s' H'. now apply (survivors_fun f names n).
Qed.

(** The run, sheet by sheet, when it gets through both stages and every
    join returns: a skipped sheet leaves its diagnostic and no entry, any
    other sheet leaves its merged table. *)
Lemma process_sheet_by_sheet (tide_file temp_file : excel) (raw ev : DataFrame)
  (names : list string) :
  read_excel tide_file None = Ok raw ->
  prepare_mares raw = Ok ev ->
  sheet_names temp_file = Ok names ->
  Forall (processable temp_file) names ->
  survivors temp_file names <> [] ->
  Forall (fun p => exists m, merge_one ev (fst p) (snd p) = Ok m)
         (dict_of (survivors temp_file names) []) ->
  exists results msgs,
    writes (process_and_merge_data tide_file temp_file) (Return results) msgs /\
    (forall n df,
       In n names -> read_excel temp_file (Some n) = Ok df ->
       if skipped (fst (clean_sheet df))
       then In (skip_info n) msgs /\ ~ In n (keys results)
       else exists s m,
              normalize_sheet df = Some s /\ merge_one ev n s = Ok m /\
              In (n, m) results) /\
    (forall n, In n (keys results) -> In n names) /\
    results = map (merge_table ev) (dict_of (survivors temp_file names) []).
Proof.
  intros Hr Hp Hn Hall Hsome Hmerge.
  pose proof (process_merged _ _ _ _ _ Hr Hp Hn Hall Hsome Hmerge) as Hrun.
  set (processed := dict_of (survivors temp_file names) []) in *.
  set (results := map (merge_table ev) processed) in *.
  assert (Hkeys : forall n, In n (keys results) ->
            exists s, In (n, s) (survivors temp_file names)).
  { intros n H. unfold keys, results in H. rewrite map_map in H.
    cbn [merge_table fst] in H.
    apply in_map_iff in H. destruct H as ([n' s] & <- & H).
    exists s. now apply stored_in. }
  exists results. eexists.
  split; [exact Hrun|]. split; [|split; [|reflexivity]].
  - intros n df Hin R.
    assert (Hpass : sheet_passes df).
    { rewrite Forall_forall in Hall.
      destruct (Hall n Hin) as (df' & R' & Hpass). congruence. }
    destruct (skipped (fst (clean_sheet df))) eqn:S.
    + split.
      * apply in_or_app. right. apply in_or_app. left.
        unfold loop_messages. apply in_flat_map. exists n.
        split; [assumption|]. rewrite R. unfold sheet_messages. rewrite S.
        apply in_or_app. right. now left.
      * intros H. destruct (Hkeys n H) as [s Hs]. apply survivors_in in Hs.
        destruct Hs as (_ & df' & R' & N').
        assert (df' = df) as -> by congruence.
        apply (normalize_sheet_none df Hpass) in S. congruence.
    + destruct (normalize_sheet df) as [s|] eqn:N.
      2:{ apply (normalize_sheet_none df Hpass) in N. congruence. }
      assert (Hsurv : In (n, s) (survivors temp_file names)).
      { apply survivors_in. eauto. }
      assert (Hstored : In (n, s) processed) by now apply stored_in.
      rewrite Forall_forall in Hmerge.
      destruct (Hmerge _ Hstored) as [m Hm]. cbn [fst snd] in Hm.
      exists s, m. split; [reflexivity|]. split; [exact Hm|].
      apply in_map_iff. exists (n, s). split; [|exact Hstored].
      unfold merge_table. cbn [fst snd]. now rewrite Hm.
  - intros n H. destruct (Hkeys n H) as [s Hs].
    now apply survivors_in in Hs.
Qed.

End Results.

(** * The claims *)

Section Claims.
Context {pandas : Pandas}.

(** C1 (amended).  Whenever the join of a normalised event table with a
    normalised sensor table returns a table, the two timestamp columns have
    one and the same datetime type, and, provided no event is [2^63] ticks
    or more away from a reading, the rows of the merged table are the event
    rows, in order, each extended by a sensor row whose timestamp is
    nearest to the event's among all sensor rows and at most one hour away,
    or by one null per sensor column when every sensor row is more than one
    hour away (in particular when there is none), with the sheet name
    written over the tag position.  The tolerance is inclusive: with a
    single reading, a distance of at most one hour is matched and any
    greater one is not. *)
Theorem merge_pairs_nearest_within_one_hour
  (tide sheet ev sensor merged : DataFrame) (sheet_name : string) :
  prepare_mares tide = Ok ev ->
  normalize_sheet sheet = Some sensor ->
  merge_one ev sheet_name sensor = Ok merged ->
  (forall je js,
     find_col "Mares_DateTime" (columns ev) = Some je ->
     find_col "Temp_DateTime" (columns sensor) = Some js ->
     within_reach ev sensor je js) ->
  exists je js u tz jtag,
    find_col "Mares_DateTime" (columns ev) = Some je /\
    find_col "Temp_DateTime" (columns sensor) = Some js /\
    dtype_of ev "Mares_DateTime" = Datetime64 u tz /\
    dtype_of sensor "Temp_DateTime" = Datetime64 u tz /\
    Forall (fun e => cell_at je e = Datetime (key_at je e)) (rows ev) /\
    Forall (fun s => cell_at js s = Datetime (key_at js s)) (rows sensor) /\
    find_col "Source_Temp_Sheet" (columns merged) = Some jtag /\
    Forall2
      (fun e m =>
         exists part,
           m = set_at jtag (Str sheet_name) (e ++ part) /\
           nearest_match sensor js (one_hour u) (key_at je e) part)
      (rows ev) (rows merged) /\
    (forall s0,
       rows sensor = [s0] ->
       Forall2
         (fun e m =>
            (Z.abs (key_at js s0 - key_at je e) <= one_hour u ->
             m = set_at jtag (Str sheet_name) (e ++ s0)) /\
            (Z.abs (key_at js s0 - key_at je e) > one_hour u ->
             m = set_at jtag (Str sheet_name)
                   (e ++ repeat NA (length (columns sensor)))))
         (rows ev) (rows merged)).
Proof.
  intros Hev Hs Hm Hreach.
  destruct (merge_one_checked _ _ _ _ Hm)
    as (je & js & u & tz & Hje & Hjs & Hde & Hds & _ & ->).
  specialize (Hreach je js Hje Hjs).
  destruct (prepare_mares_inv _ _ Hev)
    as (jm & jd & jt & je' & _ & _ & _ & (Hje' & He2 & He3) & _).
  assert (je' = je) as -> by congruence.
  destruct (normalize_sheet_timestamped _ _ Hs) as (js' & Hjs' & Hs2 & Hs3).
  assert (js' = js) as -> by congruence.
  destruct (tagged_joined_rows ev sensor je js (one_hour u) sheet_name)
    as (jtag & Htag & Hrows).
  assert (Hmatch : forall e, In e (rows ev) ->
            nearest_match sensor js (one_hour u) (key_at je e)
              (matched sensor (map (key_at js) (rows sensor)) (one_hour u)
                       (key_at je e))).
  { intros e He. apply matched_spec; [exact Hs3|].
    intros s Hin. now apply Hreach. }
  exists je, js, u, tz, jtag.
  split; [exact Hje|]. split; [exact Hjs|]. split; [exact Hde|].
  split; [exact Hds|]. split.
  { eapply Forall_impl; [|exact He2]. intros r. apply has_key_datetime. }
  split.
  { eapply Forall_impl; [|exact Hs2]. intros r. apply has_key_datetime. }
  split; [exact Htag|]. rewrite Hrows. split.
  - apply Forall2_map_right. intros e He.
    eexists. split; [reflexivity|]. now apply Hmatch.
  - intros s0 Hs0. apply Forall2_map_right. intros e He.
    pose proof (Hmatch e He) as Hn.
    remember (matched sensor (map (key_at js) (rows sensor)) (one_hour u)
                      (key_at je e)) as part eqn:Hpart.
    clear Hpart. unfold nearest_match in Hn. rewrite Hs0 in Hn.
    assert (Honly : forall x, In x [s0] -> x = s0)
      by (intros x [<-|[]]; reflexivity).
    split; intros Hd.
    + destruct Hn as [(Hin & _)|(_ & Hfar)].
      * now rewrite (Honly _ Hin).
      * specialize (Hfar s0 (or_introl eq_refl)). lia.
    + destruct Hn as [(Hin & Hnear & _)|(Hnull & _)].
      * rewrite (Honly _ Hin) in Hnear. lia.
      * now rewrite Hnull.
Qed.

(** C2.  Whenever the run returns a result mapping, every merged table in
    it has exactly as many rows as the normalised event table, and that
    number is the count of valid composed timestamps among the rows of the
    tide table that pass the [Preia-Mar] filter; the sensor tables play no
    part in it. *)
Theorem merged_rows_equal_event_rows (tide_file temp_file : excel)
  (log log' : list message) (results : dict DataFrame) :
  process_and_merge_data tide_file temp_file log = (Return results, log') ->
  exists raw ev jm jd jt,
    read_excel tide_file None = Ok raw /\
    prepare_mares raw = Ok ev /\
    find_col "Mare" (columns raw) = Some jm /\
    find_col "Data" (columns raw) = Some jd /\
    find_col "Hora" (columns raw) = Some jt /\
    shape0 ev
    = length (filter valid (stamps_of (preia_mar raw jm) jd jt)) /\
    forall sheet_name merged,
      In (sheet_name, merged) results -> shape0 merged = shape0 ev.
Proof.
  intros H. apply process_return in H.
  destruct H as (raw & ev & Hr & Hp & Hres).
  destruct (prepare_mares_inv _ _ Hp)
    as (jm & jd & jt & je & Hm & Hd & Ht & _ & _ & _ & Hlen).
  exists raw, ev, jm, jd, jt. repeat split; auto.
  intros n m Hin. destruct (Hres n m Hin) as [s Hs].
  now apply (merge_one_shape0 ev s m n).
Qed.

(** C3.  The filter keeps exactly the rows whose ['Mare'] cell is the text
    [Preia-Mar].  A cell passes the comparison only if it is that very
    string (no change of case, no surrounding blank, not a null).  Every
    row of the tide table that passes, and whose date and time compose to a
    valid timestamp, is a row of the normalised event table, with that
    timestamp and with its other cells unchanged, the time apart; every row
    of the normalised event table carries [Preia-Mar]; the number of rows is
    the number of valid timestamps among the rows that pass; and the rows
    filtered out have no influence on the table. *)
Theorem only_preia_mar_rows_survive (raw ev : DataFrame) :
  prepare_mares raw = Ok ev ->
  exists jm jd jt je,
    find_col "Mare" (columns raw) = Some jm /\
    find_col "Data" (columns raw) = Some jd /\
    find_col "Hora" (columns raw) = Some jt /\
    find_col "Mares_DateTime" (columns ev) = Some je /\
    let high := select raw (fun r => eq_str "Preia-Mar" (cell_at jm r)) in
    (forall r, In r (rows high) <->
               In r (rows raw) /\ cell_at jm r = Str "Preia-Mar") /\
    (forall i r k,
       nth_error (rows high) i = Some r ->
       nth_error (stamps_of high jd jt) i = Some (Some k) ->
       exists r',
         In r' (rows ev) /\ cell_at je r' = Datetime k /\
         forall j, j <> je -> j <> jt -> cell_at j r' = cell_at j r) /\
    Forall (fun r => cell_at jm r = Str "Preia-Mar") (rows ev) /\
    shape0 ev = length (filter valid (stamps_of high jd jt)) /\
    prepare_mares high = Ok ev /\
    (forall c, eq_str "Preia-Mar" c = true <-> c = Str "Preia-Mar") /\
    eq_str "Preia-Mar" (Str "preia-mar") = false /\
    eq_str "Preia-Mar" (Str "PREIA-MAR") = false /\
    eq_str "Preia-Mar" (Str " Preia-Mar") = false /\
    eq_str "Preia-Mar" (Str "Preia-Mar ") = false /\
    eq_str "Preia-Mar" NA = false.
Proof.
  intros Hp.
  assert (Heq : forall c, eq_str "Preia-Mar" c = true <-> c = Str "Preia-Mar").
  { intros c. destruct c; simpl; try (split; [discriminate|congruence]).
    rewrite String.eqb_eq. split; congruence. }
  destruct (prepare_mares_inv _ _ Hp)
    as (jm & jd & jt & je & Hm & Hd & Ht & (Hje & _ & _) & Hpos & Hperm & Hlen).
  exists jm, jd, jt, je.
  split; [assumption|]. split; [assumption|]. split; [assumption|].
  split; [assumption|]. cbv zeta.
  change (select raw (fun r => eq_str "Preia-Mar" (cell_at jm r)))
    with (preia_mar raw jm).
  assert (Hin : forall r, In r (rows (preia_mar raw jm)) <->
                          In r (rows raw) /\ cell_at jm r = Str "Preia-Mar").
  { intros r. unfold preia_mar, select. cbn [rows].
    rewrite filter_In, Heq. tauto. }
  assert (Hsame : prepare_mares (preia_mar raw jm) = prepare_mares raw).
  { unfold prepare_mares, col_pos, preia_mar, select. cbn [columns rows].
    rewrite Hm.
    now rewrite filter_idem. }
  assert (Hjt : jm <> jt) by (eapply find_col_distinct; eauto; discriminate).
  assert (Hjte : jt <> je).
  { destruct Hpos as [Hpos| ->].
    - eapply find_col_distinct; eauto. discriminate.
    - apply find_col_lt in Ht. lia. }
  assert (Hjme : jm <> je).
  { destruct Hpos as [Hpos| ->].
    - eapply find_col_distinct; eauto. discriminate.
    - apply find_col_lt in Hm. lia. }
  assert (Hall : Forall (fun r => cell_at jm r = Str "Preia-Mar") (rows ev)).
  { apply Forall_forall. intros r' Hr'.
    apply (Permutation_in _ Hperm) in Hr'.
    apply filter_In in Hr'. destruct Hr' as [Hr' _].
    unfold stamped in Hr'.
    apply assign_in in Hr'. destruct Hr' as (r1 & v1 & Hr1 & ->).
    apply assign_in in Hr1. destruct Hr1 as (r0 & v0 & Hr0 & ->).
    rewrite !cell_at_set_at_other by assumption.
    now apply Hin. }
  split; [exact Hin|]. split.
  { intros i r k Hr Hk.
    set (times := map Str (astype_str (map (cell_at jt)
                                          (rows (preia_mar raw jm))))).
    set (vals := map stamp_cell (stamps_of (preia_mar raw jm) jd jt)).
    assert (Hv : nth i vals NA = Datetime k).
    { unfold vals.
      change NA with (stamp_cell None). rewrite map_nth.
      now rewrite (nth_error_nth _ _ _ Hk). }
    assert (Hrow : nth_error (stamped (preia_mar raw jm) jd jt je) i
                   = Some (set_at je (Datetime k)
                             (set_at jt (nth i times NA) r))).
    { unfold stamped. fold times. fold vals. rewrite <- Hv.
      apply nth_error_assign. now apply nth_error_assign. }
    exists (set_at je (Datetime k) (set_at jt (nth i times NA) r)).
    split; [|split].
    - apply (Permutation_in _ (Permutation_sym Hperm)).
      apply filter_In. split; [exact (nth_error_In _ _ Hrow)|].
      now rewrite cell_at_set_at_same.
    - apply cell_at_set_at_same.
    - intros j H1 H2. now rewrite !cell_at_set_at_other by assumption. }
  split; [exact Hall|]. split; [exact Hlen|].
  split; [now rewrite Hsame|].
  split; [exact Heq|]. repeat split; reflexivity.
Qed.

(** C4.  For every sensor sheet that can be read, the rows left after the
    provenance column is dropped and the duplicates are removed are the
    same rows, each once, whenever a column remains (in particular whenever
    the sheet goes on to timestamp composition); the number removed is the
    difference of the row counts and is reported in a warning exactly when
    it is positive.  A sheet with rows [a; a; b; c; e], the last four
    distinct, loses one row and keeps four. *)
Theorem duplicates_removed_and_reported (f : excel) (sheet_name : string)
  (d : dict DataFrame) (df : DataFrame) :
  read_excel f (Some sheet_name) = Ok df ->
  let before :=
    if has_column "ficheiro.origem" df
    then drop_column df "ficheiro.origem" else df in
  let cleaned := fst (clean_sheet df) in
  let removed := snd (clean_sheet df) in
  cleaned = drop_duplicates before /\
  (removed + shape0 cleaned = shape0 before)%nat /\
  (forall r, In r (rows cleaned) <-> In r (rows before)) /\
  (columns before <> [] -> NoDup (rows cleaned)) /\
  (skipped cleaned = false -> NoDup (rows cleaned)) /\
  (exists o,
     writes (process_sheet f sheet_name d) o
       ((if (0 <? removed)%nat
         then [removed_warning sheet_name removed] else [])
        ++ (if skipped cleaned then [skip_info sheet_name] else []))) /\
  (forall cols a b c e,
     cols <> [] -> NoDup [a; b; c; e] ->
     drop_duplicates (mkDataFrame cols [a; a; b; c; e])
     = mkDataFrame cols [a; b; c; e]).
Proof.
  intros Hread before cleaned removed.
  assert (Hc : cleaned = drop_duplicates before) by reflexivity.
  assert (Hk : removed = (shape0 before - shape0 cleaned)%nat) by reflexivity.
  pose proof (drop_duplicates_length before) as Hle. rewrite <- Hc in Hle.
  assert (Hnd : columns before <> [] -> NoDup (rows cleaned)).
  { intros H. rewrite Hc. now apply drop_duplicates_NoDup. }
  split; [exact Hc|]. split; [lia|]. split.
  { intros r. rewrite Hc. apply drop_duplicates_in. }
  split; [exact Hnd|]. split.
  { intros Hs. apply Hnd. intros Hcols.
    unfold skipped in Hs. apply orb_false_elim in Hs. destruct Hs as [Hs _].
    apply orb_false_elim in Hs. destruct Hs as [_ Hs].
    apply negb_false_iff in Hs.
    rewrite Hc in Hs. unfold has_column in Hs.
    rewrite drop_duplicates_columns, Hcols in Hs. discriminate. }
  split.
  { destruct (sheet_outcome df) as [Hpass|[e0 Hfail]].
    - eexists. exact (process_sheet_ok f sheet_name d df Hread Hpass).
    - eexists. exact (process_sheet_fails f sheet_name d df e0 Hread Hfail). }
  intros cols a b c e Hcols Hdist.
  unfold drop_duplicates, empty. cbn [rows columns length].
  destruct cols as [|n cols]; [contradiction|]. cbn [length Nat.eqb orb].
  f_equal.
  change (keep_first [] [a; a; b; c; e])
    with (a :: keep_first [a] (a :: [b; c; e])).
  rewrite keep_first_seen by now left.
  f_equal. inversion Hdist as [|? ? Ha Hrest]; subst.
  apply keep_first_fresh; [assumption|].
  intros r Hr [<-|[]]. contradiction.
Qed.

(** C10.  The provenance column is dropped before duplicates are looked
    for: two rows of a sheet that agree in every column other than
    ['ficheiro.origem'] become the same row, and the cleaned sheet holds
    that row exactly once. *)
Theorem provenance_ignored_by_duplicates (df : DataFrame) (r1 r2 : row) :
  has_column "ficheiro.origem" df = true ->
  columns (drop_column df "ficheiro.origem") <> [] ->
  In r1 (rows df) -> In r2 (rows df) ->
  (forall j, nth_error (columns df) j <> Some "ficheiro.origem" ->
             nth_error r1 j = nth_error r2 j) ->
  fst (clean_sheet df) = drop_duplicates (drop_column df "ficheiro.origem") /\
  has_column "ficheiro.origem" (fst (clean_sheet df)) = false /\
  drop_in_row "ficheiro.origem" (columns df) r1
  = drop_in_row "ficheiro.origem" (columns df) r2 /\
  count_occ row_eq_dec (rows (fst (clean_sheet df)))
            (drop_in_row "ficheiro.origem" (columns df) r1) = 1%nat.
Proof.
  intros Hprov Hcols H1 H2 Hagree.
  assert (Hc : fst (clean_sheet df)
               = drop_duplicates (drop_column df "ficheiro.origem")).
  { unfold clean_sheet. now rewrite Hprov. }
  split; [exact Hc|]. split; [|split].
  - rewrite Hc. unfold has_column. rewrite drop_duplicates_columns.
    cbn [drop_column columns].
    destruct (existsb _ _) eqn:E; [|reflexivity].
    apply existsb_exists in E. destruct E as (n & Hin & Hn).
    apply String.eqb_eq in Hn. subst n.
    apply filter_In in Hin. destruct Hin as [_ Hin].
    now rewrite String.eqb_refl in Hin.
  - now apply drop_in_row_agree.
  - rewrite Hc. apply NoDup_count_occ'.
    + now apply drop_duplicates_NoDup.
    + apply drop_duplicates_in. cbn [drop_column rows]. now apply in_map.
Qed.

(** C5 (amended).  The sheets are dealt with in turn.  A sheet that is
    empty or lacks ['Date'] or ['time'] after cleaning is skipped: the loop
    body shows the skip notice, leaves the mapping as it is and goes on to
    the next sheet; in a run that returns, such a sheet has no entry in the
    result mapping and every other sheet has its merged table there.  An
    exception raised while a sheet is read or processed is not a skip: the
    run stops at the first such sheet on the error message and returns
    nothing.  A workbook of one well-formed sheet and one sheet without a
    ['time'] column yields exactly the well-formed sheet's merge, when that
    merge is carried out. *)
Theorem skipped_sheets_do_not_abort (tide_file temp_file : excel)
  (raw ev : DataFrame) (names : list string) :
  read_excel tide_file None = Ok raw ->
  prepare_mares raw = Ok ev ->
  sheet_names temp_file = Ok names ->
  (forall n df d,
     read_excel temp_file (Some n) = Ok df ->
     skipped (fst (clean_sheet df)) = true ->
     exists msgs,
       writes (process_sheet temp_file n d) (Return d) msgs /\
       In (skip_info n) msgs)
  /\
  (forall results msgs,
     writes (process_and_merge_data tide_file temp_file)
            (Return results) msgs ->
     (forall n df,
        In n names -> read_excel temp_file (Some n) = Ok df ->
        if skipped (fst (clean_sheet df))
        then In (skip_info n) msgs /\ ~ In n (keys results)
        else exists s m,
               normalize_sheet df = Some s /\ merge_one ev n s = Ok m /\
               In (n, m) results) /\
     (forall n, In n (keys results) -> In n names))
  /\
  (forall before n after e,
     names = before ++ n :: after ->
     Forall (processable temp_file) before ->
     fails_with temp_file n e ->
     writes (process_and_merge_data tide_file temp_file) Stop
            ([tide_loaded] ++ loop_messages temp_file (before ++ [n])
             ++ [temp_error e]))
  /\
  (forall a b good bad s m,
     temp_file = Workbook [(a, Ok good); (b, Ok bad)] -> a <> b ->
     normalize_sheet good = Some s -> has_column "time" bad = false ->
     merge_one ev a s = Ok m ->
     exists msgs,
       writes (process_and_merge_data tide_file temp_file)
              (Return [(a, m)]) msgs /\
       In (skip_info b) msgs).
Proof.
  intros Hr Hp Hn. split; [|split; [|split]].
  - intros n df d R S.
    assert (Hpass : sheet_passes df) by now left.
    pose proof (process_sheet_ok temp_file n d df R Hpass) as H.
    rewrite (proj2 (normalize_sheet_none df Hpass) S) in H.
    eexists. split; [exact H|].
    unfold sheet_messages. rewrite S. apply in_or_app. right. now left.
  - intros results msgs Hrun.
    destruct (run_cases tide_file temp_file) as (o & msgs' & Hc & Hw).
    destruct (writes_fun _ _ _ _ _ Hrun Hw) as [<- <-].
    inversion Hc as [| | | | | |raw' ev' names' Hr' Hp' Hn' Hall Hsome Hmerge];
      subst.
    assert (raw' = raw) as -> by congruence.
    assert (ev' = ev) as -> by congruence.
    assert (names' = names) as -> by congruence.
    destruct (process_sheet_by_sheet _ _ _ _ _ Hr Hp Hn Hall Hsome Hmerge)
      as (results' & msgs' & H1 & H2 & H3 & ->).
    destruct (writes_fun _ _ _ _ _ Hrun H1) as [_ <-].
    split; assumption.
  - intros before n after e -> Hall Hfail.
    now apply (process_sheet_fails_at _ _ raw ev before after).
  - intros a b good bad s m -> Hab Hgood Hbad Hm.
    set (temp_file := Workbook [(a, Ok good); (b, Ok bad)]) in *.
    assert (Ra : read_excel temp_file (Some a) = Ok good).
    { cbn. now rewrite String.eqb_refl. }
    assert (Rb : read_excel temp_file (Some b) = Ok bad).
    { cbn. replace (String.eqb a b) with false
        by (symmetry; now apply String.eqb_neq).
      now rewrite String.eqb_refl. }
    assert (Sb : skipped (fst (clean_sheet bad)) = true).
    { unfold skipped. rewrite (clean_sheet_has_column _ _ Hbad).
      cbn [negb]. apply orb_true_r. }
    assert (Pb : sheet_passes bad) by now left.
    assert (Pa : sheet_passes good).
    { apply normalize_sheet_some in Hgood. right. destruct Hgood; eauto. }
    assert (Sa : skipped (fst (clean_sheet good)) = false)
      by now apply normalize_sheet_some in Hgood.
    assert (Nb : normalize_sheet bad = None)
      by now apply normalize_sheet_none.
    assert (Hsurv : survivors temp_file [a; b] = [(a, s)]).
    { unfold survivors. cbn [flat_map]. now rewrite Ra, Rb, Hgood, Nb. }
    assert (Hall : Forall (processable temp_file) [a; b]).
    { repeat constructor; eexists; eauto. }
    assert (Hsome : survivors temp_file [a; b] <> [])
      by (rewrite Hsurv; discriminate).
    assert (Hmerge : Forall (fun p => exists m,
                        merge_one ev (fst p) (snd p) = Ok m)
                       (dict_of (survivors temp_file [a; b]) [])).
    { rewrite Hsurv. repeat constructor. cbn [fst snd]. eauto. }
    destruct (process_sheet_by_sheet tide_file temp_file raw ev [a; b]
                Hr Hp eq_refl Hall Hsome Hmerge)
      as (results & msgs & H1 & H2 & _ & H4).
    pose proof (H2 b bad (or_intror (or_introl eq_refl)) Rb) as Hb.
    rewrite Sb in Hb. destruct Hb as [Hb _].
    exists msgs. split; [|exact Hb].
    rewrite Hsurv in H4.
    assert (Hres : results = [(a, m)]).
    { rewrite H4. unfold dict_of. cbn [fold_left fst snd dict_set map].
      unfold merge_table. cbn [fst snd]. now rewrite Hm. }
    now rewrite <- Hres.
Qed.

(** C6 (amended).  If the tide workbook cannot be read, or its first sheet
    lacks the ['Mare'], ['Hora'] or ['Data'] column, the run stops on the
    error message and returns no result mapping, whatever the sensor
    workbook holds.  These three are the only columns whose absence has
    this effect: a table that has them passes the tide stage, with or
    without ['Alt'], unless [pd.to_datetime] itself raises on its strings,
    in which case the run stops on that exception. *)
Theorem unusable_tide_input_aborts (tide_file temp_file : excel) :
  (forall e,
     read_excel tide_file None = Err e ->
     writes (process_and_merge_data tide_file temp_file) Stop
            [tide_error e])
  /\
  (forall raw,
     read_excel tide_file None = Ok raw ->
     has_column "Mare" raw = false \/ has_column "Hora" raw = false \/
     has_column "Data" raw = false ->
     exists c,
       writes (process_and_merge_data tide_file temp_file) Stop
              [tide_loaded; tide_error (KeyError c)])
  /\
  (forall raw,
     read_excel tide_file None = Ok raw ->
     has_column "Mare" raw = true -> has_column "Hora" raw = true ->
     has_column "Data" raw = true ->
     exists jm jd jt,
       find_col "Mare" (columns raw) = Some jm /\
       find_col "Data" (columns raw) = Some jd /\
       find_col "Hora" (columns raw) = Some jt /\
       ((exists ev d vs,
           to_datetime (stamp_strings (preia_mar raw jm) jd jt)
           = Ok (d, vs) /\
           prepare_mares raw = Ok ev /\
           writes (load_mares tide_file) (Return ev) [tide_loaded]) \/
        (exists e,
           to_datetime (stamp_strings (preia_mar raw jm) jd jt) = Err e /\
           writes (process_and_merge_data tide_file temp_file) Stop
                  [tide_loaded; tide_error e]))).
Proof.
  split; [|split].
  - intros e Hr. now apply process_tide_unreadable.
  - intros raw Hr Hmiss.
    destruct (prepare_mares_missing raw Hmiss) as [c Hc].
    exists c. now apply (process_tide_fails _ _ raw).
  - intros raw Hr Hm Ht Hd.
    destruct (prepare_mares_cases raw Hm Ht Hd)
      as (jm & jd & jt & Hjm & Hjd & Hjt & H).
    exists jm, jd, jt. split; [assumption|]. split; [assumption|].
    split; [assumption|].
    destruct H as [(ev & d & vs & S & Hev)|(e & S & Hev)].
    + left. exists ev, d, vs. split; [assumption|]. split; [assumption|].
      now apply (load_mares_ok _ raw).
    + right. exists e. split; [assumption|].
      now apply (process_tide_fails _ _ raw).
Qed.

(** C7 (amended).  When no row of the tide table carries [Preia-Mar], the
    normalised event table has no rows, every join that returns gives a
    table without rows, and a run that returns gives a result mapping in
    which every sheet that was not skipped has an entry and every table has
    no rows.  The run does return when both stages pass, a sheet is not
    skipped and every join returns; a join raises when it refuses the two
    timestamp columns, and then the run returns nothing. *)
Theorem no_matching_event_gives_empty_tables (tide_file temp_file : excel)
  (raw : DataFrame) :
  read_excel tide_file None = Ok raw ->
  (forall jm r, find_col "Mare" (columns raw) = Some jm ->
                In r (rows raw) -> cell_at jm r <> Str "Preia-Mar") ->
  (forall ev, prepare_mares raw = Ok ev -> rows ev = [])
  /\
  (forall ev n s m,
     prepare_mares raw = Ok ev -> merge_one ev n s = Ok m -> rows m = [])
  /\
  (forall log log' results,
     process_and_merge_data tide_file temp_file log = (Return results, log') ->
     results <> [] /\
     (forall n m, In (n, m) results -> rows m = []) /\
     (forall names n df,
        sheet_names temp_file = Ok names -> In n names ->
        read_excel temp_file (Some n) = Ok df ->
        skipped (fst (clean_sheet df)) = false ->
        exists m, In (n, m) results /\ rows m = []))
  /\
  (forall ev names,
     prepare_mares raw = Ok ev ->
     sheet_names temp_file = Ok names ->
     Forall (processable temp_file) names ->
     survivors temp_file names <> [] ->
     Forall (fun p => exists m, merge_one ev (fst p) (snd p) = Ok m)
            (dict_of (survivors temp_file names) []) ->
     exists results msgs,
       writes (process_and_merge_data tide_file temp_file)
              (Return results) msgs /\
       results <> [])
  /\
  (forall ev names done rest n s e,
     prepare_mares raw = Ok ev ->
     sheet_names temp_file = Ok names ->
     Forall (processable temp_file) names ->
     dict_of (survivors temp_file names) [] = done ++ (n, s) :: rest ->
     Forall (fun p => exists m, merge_one ev (fst p) (snd p) = Ok m) done ->
     merge_one ev n s = Err e ->
     forall log,
       fst (process_and_merge_data tide_file temp_file log) = Raise e).
Proof.
  intros Hr Hnone.
  assert (Hempty : forall ev, prepare_mares raw = Ok ev -> rows ev = []).
  { intros ev Hev. apply length_zero_iff_nil.
    destruct (prepare_mares_inv _ _ Hev)
      as (jm & jd & jt & je & Hjm & _ & _ & _ & _ & _ & Hlen).
    rewrite Hlen.
    assert (Hrows : rows (preia_mar raw jm) = []).
    { unfold preia_mar, select. cbn [rows].
      destruct (filter _ (rows raw)) as [|r rs] eqn:F; [reflexivity|].
      assert (Hr0 : In r (filter (fun r => eq_str "Preia-Mar" (cell_at jm r))
                                 (rows raw))) by (rewrite F; now left).
      apply filter_In in Hr0. destruct Hr0 as [Hr0 Heq].
      exfalso. apply (Hnone jm r Hjm Hr0).
      destruct (cell_at jm r); try discriminate.
      cbn in Heq. apply String.eqb_eq in Heq. now subst. }
    pose proof (stamps_of_length (preia_mar raw jm) jd jt) as Hs.
    rewrite Hrows in Hs. cbn [length] in Hs.
    destruct (stamps_of (preia_mar raw jm) jd jt); [reflexivity|].
    cbn [length] in Hs. lia. }
  assert (Hzero : forall ev n s m,
            prepare_mares raw = Ok ev -> merge_one ev n s = Ok m ->
            rows m = []).
  { intros ev n s m Hev H. apply length_zero_iff_nil.
    change (shape0 m = 0%nat). rewrite (merge_one_shape0 _ _ _ _ H).
    unfold shape0. now rewrite (Hempty ev Hev). }
  split; [exact Hempty|]. split; [exact Hzero|]. split; [|split].
  - intros log log' results H.
    pose proof (process_return _ _ _ _ _ H) as (raw' & ev & Hr' & Hev & Hres).
    assert (raw' = raw) as -> by congruence.
    assert (Hall0 : forall n m, In (n, m) results -> rows m = []).
    { intros n m Hin. destruct (Hres n m Hin) as [s Hs].
      now apply (Hzero ev n s). }
    apply run_outcome in H. destruct H as (msgs & Hc & _).
    inversion Hc as [| | | | | |raw' ev' names Hr'' Hp Hn Hall Hsome Hmerge];
      subst.
    assert (raw' = raw) as -> by congruence.
    assert (ev' = ev) as -> by congruence.
    destruct (process_sheet_by_sheet _ _ _ _ _ Hr Hp Hn Hall Hsome Hmerge)
      as (results & msgs' & _ & H2 & _ & Hres').
    rewrite <- Hres' in *.
    split; [|split; [exact Hall0|]].
    + rewrite Hres'. intros E. apply map_eq_nil in E. revert E.
      apply dict_of_nonempty. now left.
    + intros names' n df Hn' Hin R S.
      assert (names' = names) as -> by congruence.
      specialize (H2 n df Hin R). rewrite S in H2.
      destruct H2 as (s & m & _ & _ & Hm).
      exists m. split; [exact Hm|]. now apply (Hall0 n).
  - intros ev names Hev Hn Hall Hsome Hmerge.
    destruct (process_sheet_by_sheet _ _ _ _ _ Hr Hev Hn Hall Hsome Hmerge)
      as (results & msgs & H1 & _ & _ & Hres).
    exists results, msgs. split; [exact H1|].
    rewrite Hres. intros E. apply map_eq_nil in E. revert E.
    apply dict_of_nonempty. now left.
  - intros ev names done rest n s e Hev Hn Hall Hd Hdone He log.
    now rewrite (process_join_raises _ _ raw ev names done rest n s e
                   Hr Hev Hn Hall Hd Hdone He log).
Qed.

(** C9.  In every merged table of a returned result mapping the event
    timestamps sit where the normalised event table has them, are those of
    the event table in the same order, and ascend down the table. *)
Theorem merged_rows_ascend (tide_file temp_file : excel)
  (log log' : list message) (results : dict DataFrame) :
  process_and_merge_data tide_file temp_file log = (Return results, log') ->
  exists raw ev je,
    read_excel tide_file None = Ok raw /\
    prepare_mares raw = Ok ev /\
    find_col "Mares_DateTime" (columns ev) = Some je /\
    forall sheet_name merged,
      In (sheet_name, merged) results ->
      map (cell_at je) (rows merged) = map (cell_at je) (rows ev) /\
      Forall (fun r => cell_at je r = Datetime (key_at je r))
             (rows merged) /\
      StronglySorted Z.le (map (key_at je) (rows merged)).
Proof.
  intros H. apply process_return in H.
  destruct H as (raw & ev & Hr & Hp & Hres).
  destruct (prepare_mares_inv _ _ Hp)
    as (jm & jd & jt & je & _ & _ & _ & (Hje & Hkeys & Hsorted) & _).
  exists raw, ev, je. split; [assumption|]. split; [assumption|].
  split; [assumption|].
  intros sheet_name merged Hin.
  destruct (Hres _ _ Hin) as [s Hs]. apply merge_one_inv in Hs.
  destruct Hs as (je' & js & u & Hje' & _ & _ & _ & ->).
  assert (je' = je) as -> by congruence.
  pose proof (tagged_joined_keys ev s je js (one_hour u) sheet_name Hje Hkeys)
    as Hcells.
  split; [exact Hcells|]. split.
  - apply Forall_forall. intros r Hr0.
    assert (Hc : In (cell_at je r) (map (cell_at je) (rows ev))).
    { rewrite <- Hcells. now apply in_map. }
    apply in_map_iff in Hc. destruct Hc as (r0 & Heq & Hr1).
    rewrite Forall_forall in Hkeys.
    pose proof (has_key_datetime _ _ (Hkeys r0 Hr1)) as Hd.
    unfold key_at in *. rewrite <- Heq. rewrite Hd. reflexivity.
  - now rewrite (key_at_of_cell je _ (rows ev) Hcells).
Qed.

End Claims.

(** * Further properties of the program *)

Section Further.
Context {pandas : Pandas}.

Lemma survivors_keys (f : excel) (names : list string) :
  Forall (processable f) names ->
  map fst (survivors f names) = filter (survives f) names.
Proof.
  unfold survivors, survives.
  induction 1 as [|n names (df & R & Hpass) _ IH]; [reflexivity|].
  cbn [flat_map filter]. rewrite map_app, IH, R.
  destruct (normalize_sheet df) as [s|] eqn:N.
  - apply normalize_sheet_some in N. destruct N as [-> _]. reflexivity.
  - apply (normalize_sheet_none df Hpass) in N. rewrite N. reflexivity.
Qed.

Lemma survivors_nonempty (f : excel) (names : list string) :
  Forall (processable f) names ->
  survivors f names <> [] <-> existsb (survives f) names = true.
Proof.
  intros Hall. rewrite existsb_exists. split.
  - intros H. destruct (survivors f names) as [|[n s] l] eqn:E; [congruence|].
    assert (Hin : In n (map fst (survivors f names)))
      by (rewrite E; now left).
    rewrite (survivors_keys _ _ Hall) in Hin. apply filter_In in Hin. eauto.
  - intros (n & Hin & Hs) E.
    assert (H : In n (filter (survives f) names)) by now apply filter_In.
    rewrite <- (survivors_keys _ _ Hall), E in H. contradiction.
Qed.

(** The join of two timestamped tables raises nothing but a [MergeError]:
    the key columns are there and sorted, so what is left to refuse is
    their types and the labels. *)
Lemma merge_one_raises (ev s : DataFrame) (n : string) (je js : nat)
  (e : exn) :
  timestamped ev "Mares_DateTime" je ->
  timestamped s "Temp_DateTime" js ->
  merge_one ev n s = Err e ->
  exists text, e = MergeError text.
Proof.
  intros (Hje & Hek & Hes) (Hjs & Hsk & Hss).
  unfold merge_one, merge_asof, col_pos. rewrite Hje, Hjs.
  destruct (dtype_of ev "Mares_DateTime") as [u tz|];
    [|intros [= <-]; eauto].
  destruct (dtype_of s "Temp_DateTime") as [u' tz'|];
    [|intros [= <-]; eauto].
  destruct (dtype_eqb _ _); [|intros [= <-]; eauto].
  rewrite (sorted_keys_ok _ _ _ Hek Hes), (sorted_keys_ok _ _ _ Hsk Hss).
  destruct (caused_by_suffix _ _ ++ caused_by_suffix _ _);
    [discriminate|intros [= <-]; eauto].
Qed.

(** X1.  Only the join of line 114 lets an exception leave
    [process_and_merge_data].  A run that raises has passed both loading
    stages, whose exceptions are caught; what it raises is the
    [MergeError] of the join of the event table with the first stored
    sheet that the join refuses, and its last diagnostic is the notice
    that this sheet is being merged. *)
Theorem only_the_join_raises (tide_file temp_file : excel)
  (log log' : list message) (e : exn) :
  process_and_merge_data tide_file temp_file log = (Raise e, log') ->
  exists raw ev names done rest n s,
    read_excel tide_file None = Ok raw /\
    prepare_mares raw = Ok ev /\
    sheet_names temp_file = Ok names /\
    Forall (processable temp_file) names /\
    dict_of (survivors temp_file names) [] = done ++ (n, s) :: rest /\
    Forall (fun p => exists m, merge_one ev (fst p) (snd p) = Ok m) done /\
    merge_one ev n s = Err e /\
    (exists text, e = MergeError text) /\
    log' = log ++ [tide_loaded] ++ loop_messages temp_file names
               ++ [merging_header]
               ++ merge_messages (shape0 ev) (keys done) ++ [merging n].
Proof.
  intros H. apply run_outcome in H. destruct H as (msgs & Hc & ->).
  inversion Hc
    as [| | | | |raw ev names done rest n s e' Hr Hp Hn Hall Hd Hdone He|];
    subst.
  exists raw, ev, names, done, rest, n, s.
  repeat (split; [assumption|]). split; [|reflexivity].
  destruct (prepare_mares_inv _ _ Hp) as (_ & _ & _ & je & _ & _ & _ & Hev & _).
  assert (Hin : In (n, s) (survivors temp_file names)).
  { apply stored_in. rewrite Hd. apply in_or_app. right. now left. }
  apply survivors_in in Hin. destruct Hin as (_ & df & _ & Hs).
  destruct (normalize_sheet_timestamped _ _ Hs) as [js Hts].
  exact (merge_one_raises ev s n je js e Hev Hts He).
Qed.

(** X2.  A run returns a result mapping exactly when the first sheet of the
    tide workbook is read and passes the tide stage, the sensor workbook
    opens, each of its sheets is read and dealt with without an exception,
    at least one sheet passes the test of line 88, and for every stored
    sheet the two timestamp columns have one and the same datetime type and
    the suffixes of the join create no duplicate label. *)
Theorem run_returns_exactly_when (tide_file temp_file : excel)
  (log : list message) :
  (exists results,
     fst (process_and_merge_data tide_file temp_file log) = Return results)
  <->
  (exists raw ev names,
     read_excel tide_file None = Ok raw /\
     prepare_mares raw = Ok ev /\
     sheet_names temp_file = Ok names /\
     Forall (processable temp_file) names /\
     existsb (survives temp_file) names = true /\
     forall n s,
       In (n, s) (dict_of (survivors temp_file names) []) ->
       exists u tz,
         dtype_of ev "Mares_DateTime" = Datetime64 u tz /\
         dtype_of s "Temp_DateTime" = Datetime64 u tz /\
         no_label_clash ev s).
Proof.
  split.
  - destruct (run_cases tide_file temp_file) as (o & msgs & Hc & Hw).
    rewrite Hw. cbn [fst]. intros [results Hres].
    destruct Hc as [| | | | | |raw ev names Hr Hp Hn Hall Hsome Hmerge];
      try discriminate.
    exists raw, ev, names.
    repeat (split; [assumption|]).
    split; [now apply survivors_nonempty|].
    intros n s Hin. rewrite Forall_forall in Hmerge.
    destruct (Hmerge _ Hin) as [m Hm]. cbn [fst snd] in Hm.
    destruct (merge_one_checked _ _ _ _ Hm)
      as (je & js & u & tz & _ & _ & H1 & H2 & H3 & _).
    now exists u, tz.
  - intros (raw & ev & names & Hr & Hp & Hn & Hall & Hsome & Hjoin).
    apply (survivors_nonempty _ _ Hall) in Hsome.
    assert (Hmerge : Forall (fun p => exists m,
                        merge_one ev (fst p) (snd p) = Ok m)
                       (dict_of (survivors temp_file names) [])).
    { apply Forall_forall. intros [n s] Hin. cbn [fst snd].
      destruct (Hjoin n s Hin) as (u & tz & H1 & H2 & H3).
      destruct (prepare_mares_inv _ _ Hp)
        as (_ & _ & _ & je & _ & _ & _ & Hev & _).
      apply stored_in, survivors_in in Hin.
      destruct Hin as (_ & df & _ & Hs).
      destruct (normalize_sheet_timestamped _ _ Hs) as [js Hts].
      eexists. exact (merge_one_ok ev s n je js u tz Hev Hts H1 H2 H3). }
    pose proof (process_merged _ _ _ _ _ Hr Hp Hn Hall Hsome Hmerge) as Hw.
    eexists. now rewrite Hw.
Qed.

(** X3.  When the tide table is usable and every sensor sheet is readable
    but fails the test of line 88 (also when the workbook has no sheet),
    the run stops after one skip diagnostic per sheet and the warning that
    no valid temperature sheet was found; no merge is attempted. *)
Theorem no_surviving_sheet_stops (tide_file temp_file : excel)
  (raw ev : DataFrame) (names : list string) :
  read_excel tide_file None = Ok raw ->
  prepare_mares raw = Ok ev ->
  sheet_names temp_file = Ok names ->
  (forall n, In n names ->
     exists df, read_excel temp_file (Some n) = Ok df /\
                skipped (fst (clean_sheet df)) = true) ->
  writes (process_and_merge_data tide_file temp_file) Stop
         ([tide_loaded] ++ loop_messages temp_file names ++ [no_valid_sheets])
  /\
  (forall n, In n names -> In (skip_info n) (loop_messages temp_file names))
  /\
  ~ In merging_header (loop_messages temp_file names ++ [no_valid_sheets]).
Proof.
  intros Hr Hp Hn Hskip.
  assert (Hall : Forall (processable temp_file) names).
  { apply Forall_forall. intros n Hin.
    destruct (Hskip n Hin) as (df & R & S). exists df. split; [exact R|].
    now left. }
  assert (Hs : survivors temp_file names = []).
  { destruct (survivors temp_file names) as [|[n s] l] eqn:E; [reflexivity|].
    assert (Hin : In (n, s) (survivors temp_file names))
      by (rewrite E; now left).
    apply survivors_in in Hin. destruct Hin as (Hin & df & R & N).
    destruct (Hskip n Hin) as (df' & R' & S).
    assert (df' = df) as -> by congruence.
    apply normalize_sheet_some in N. destruct N as [N _]. congruence. }
  split; [|split].
  - unfold process_and_merge_data.
    eapply writes_bind; [exact (load_mares_ok _ _ _ Hr Hp)|].
    eapply writes_bind; [exact (load_temps_ok _ _ Hn Hall)|].
    rewrite Hs. cbn [dict_of fold_left].
    change [no_valid_sheets] with ([no_valid_sheets] ++ []).
    eapply writes_bind; [apply writes_emit|apply writes_stop].
  - intros n Hin. destruct (Hskip n Hin) as (df & R & S).
    unfold loop_messages. apply in_flat_map. exists n. split; [assumption|].
    rewrite R. unfold sheet_messages. rewrite S.
    apply in_or_app. right. now left.
  - intros Hin. apply in_app_or in Hin. destruct Hin as [Hin|[Hin|[]]].
    + unfold loop_messages in Hin. apply in_flat_map in Hin.
      destruct Hin as (n & _ & Hin).
      destruct (read_excel temp_file (Some n)) as [df|]; [|contradiction].
      unfold sheet_messages in Hin. apply in_app_or in Hin.
      destruct Hin as [Hin|Hin].
      * destruct (0 <? _)%nat; [|contradiction].
        destruct Hin as [Hin|[]]. discriminate.
      * destruct (skipped _); [|contradiction].
        destruct Hin as [Hin|[]]. discriminate.
    + discriminate.
Qed.

(** X4.  When the sensor workbook cannot be opened the run stops; if the
    tide table was usable, the diagnostics are the tide notice followed by
    the temperature-data error quoting the exception, and no sheet is
    processed. *)
Theorem unopenable_sensor_workbook_stops (tide_file temp_file : excel)
  (e : exn) :
  sheet_names temp_file = Err e ->
  (forall log, fst (process_and_merge_data tide_file temp_file log) = Stop)
  /\
  (forall raw ev,
     read_excel tide_file None = Ok raw -> prepare_mares raw = Ok ev ->
     writes (process_and_merge_data tide_file temp_file) Stop
            [tide_loaded; temp_error e]).
Proof.
  intros Hn.
  destruct (run_cases tide_file temp_file) as (o & msgs & Hc & Hw).
  split.
  - intros log. rewrite Hw. cbn [fst].
    destruct Hc; try reflexivity; congruence.
  - intros raw ev Hr Hp.
    destruct Hc; congruence.
Qed.

Lemma loop_messages_kinds (f : excel) (names : list string) (m : message) :
  In m (loop_messages f names) ->
  (exists n k, m = removed_warning n k) \/ (exists n, m = skip_info n).
Proof.
  unfold loop_messages. rewrite in_flat_map. intros (n & _ & Hin).
  destruct (read_excel f (Some n)) as [df|]; [|contradiction].
  unfold sheet_messages in Hin. apply in_app_or in Hin.
  destruct Hin as [Hin|Hin].
  - destruct (0 <? _)%nat; [|contradiction]. destruct Hin as [<-|[]]. eauto.
  - destruct (skipped _); [|contradiction]. destruct Hin as [<-|[]]. eauto.
Qed.

Lemma merge_messages_kinds (k : nat) (names : list string) (m : message) :
  In m (merge_messages k names) -> fst m = OnWrite.
Proof.
  unfold merge_messages. rewrite in_flat_map. intros (n & _ & Hin).
  destruct Hin as [<-|[<-|[]]]; reflexivity.
Qed.

(** X5.  The branch of lines 126-128 is dead: no run ever shows the
    warning that no data was merged.  Once one sheet has got through the
    sensor stage the merge loop stores a table for it, so the result
    mapping tested there is never empty. *)
Theorem no_data_merged_never_shown (tide_file temp_file : excel)
  (log : list message) :
  ~ In no_data_merged log ->
  ~ In no_data_merged
       (snd (process_and_merge_data tide_file temp_file log)).
Proof.
  intros Hlog.
  destruct (run_cases tide_file temp_file) as (o & msgs & Hc & Hw).
  rewrite Hw. cbn [snd]. intros Hin. apply in_app_or in Hin.
  destruct Hin as [Hin|Hin]; [contradiction|].
  assert (Hloop : forall names, ~ In no_data_merged (loop_messages temp_file names)).
  { intros names H. apply loop_messages_kinds in H.
    destruct H as [(n & k & H)|(n & H)]; discriminate. }
  destruct Hc; cbn [app] in Hin.
  - destruct Hin as [Hm|[]]. discriminate.
  - destruct Hin as [Hm|[Hm|[]]]; discriminate.
  - destruct Hin as [Hm|[Hm|[]]]; discriminate.
  - destruct Hin as [Hm|Hin]; [discriminate|].
    apply in_app_or in Hin. destruct Hin as [Hin|[Hm|[]]];
      [now apply (Hloop (before ++ [n]))|discriminate].
  - destruct Hin as [Hm|Hin]; [discriminate|].
    apply in_app_or in Hin. destruct Hin as [Hin|[Hm|[]]];
      [now apply (Hloop names)|discriminate].
  - destruct Hin as [Hm|Hin]; [discriminate|].
    apply in_app_or in Hin. destruct Hin as [Hin|[Hm|Hin]];
      [now apply (Hloop names)|discriminate|].
    apply in_app_or in Hin. destruct Hin as [Hin|[Hm|[]]];
      [|discriminate].
    apply merge_messages_kinds in Hin. discriminate.
  - destruct Hin as [Hm|Hin]; [discriminate|].
    apply in_app_or in Hin. destruct Hin as [Hin|[Hm|Hin]];
      [now apply (Hloop names)|discriminate|].
    apply merge_messages_kinds in Hin. discriminate.
Qed.

End Further.

(** ** Ties, tags and shapes *)

(** Where the forward search stops, whatever the differences are. *)
Lemma forward_position (l : Z) (rs : list Z) (k : nat) :
  StronglySorted Z.le rs ->
  count_ge l (rev rs) = S k ->
  (length rs - S k < length rs)%nat /\
  l <= nth (length rs - S k) rs 0.
Proof.
  intros Hs E.
  pose proof (count_ge_bound l (rev rs)) as Hb.
  pose proof (count_ge_before l (rev rs) k) as Hbefore.
  rewrite length_rev in Hb. rewrite E in Hb, Hbefore.
  specialize (Hbefore (Nat.lt_succ_diag_r k)).
  rewrite rev_nth in Hbefore by lia.
  split; [lia|exact Hbefore].
Qed.

(** X6.  Ties go to the earlier reading.  On sorted keys that are 64-bit
    integers, as all timestamps are, if the nearest search returns position
    [p] and some key that is not after [l] is exactly as far from [l] as
    the key at [p], then the key at [p] is that earlier key, not the later
    one at the same distance; among rows with that key the last in table
    order is taken. *)
Theorem nearest_tie_prefers_earlier (l tol : Z) (rs : list Z) (p i : nat) :
  int64 l -> Forall int64 rs ->
  StronglySorted Z.le rs ->
  nearest l rs tol = Some p ->
  (i < length rs)%nat ->
  nth i rs 0 <= l ->
  Z.abs (nth i rs 0 - l) = Z.abs (nth p rs 0 - l) ->
  nth p rs 0 = nth i rs 0 /\ (i <= p)%nat.
Proof.
  intros Hl Hrs Hs Hn Hi Hle Htie.
  assert (Hr : forall q, (q < length rs)%nat -> int64 (nth q rs 0)).
  { intros q Hq. now apply Forall_nth. }
  pose proof (sorted_nth rs Hs) as Hmono.
  pose proof (count_le_at l rs) as Hat.
  pose proof (count_le_bound l rs) as Hbound.
  assert (Hlt : (i < count_le l rs)%nat).
  { destruct (Nat.lt_ge_cases i (count_le l rs)) as [|Hge]; [assumption|].
    specialize (Hmono (count_le l rs) i). lia. }
  unfold nearest, backward, forward in Hn.
  destruct (count_le l rs) as [|b] eqn:E; [lia|].
  pose proof (count_le_before l rs b) as Hb. rewrite E in Hb.
  specialize (Hb (Nat.lt_succ_diag_r b)).
  assert (Hib : nth i rs 0 <= nth b rs 0) by (apply Hmono; lia).
  destruct (Nat.eq_dec p b) as [->|Hpb]; [split; lia|].
  exfalso.
  destruct (count_ge l (rev rs)) as [|k] eqn:G.
  { destruct (sub64 l (nth b rs 0) >? tol); congruence. }
  destruct (forward_position l rs k Hs G) as [Hf1 Hf2].
  cbv zeta in Hn.
  set (f := (length rs - S k)%nat) in *.
  assert (Hpf : p = f).
  { destruct (sub64 l (nth b rs 0) >? tol);
      destruct (sub64 (nth f rs 0) l >? tol);
      try destruct (sub64 l (nth b rs 0) <=? sub64 (nth f rs 0) l);
      congruence. }
  subst p.
  pose proof (Hr i Hi) as Hii. pose proof (Hr f Hf1) as Hif.
  unfold int64 in Hl, Hii, Hif.
  assert (Hd : l - nth i rs 0 = nth f rs 0 - l) by lia.
  assert (Hbk : sub64 l (nth b rs 0) = l - nth b rs 0)
    by (apply sub64_exact; lia).
  assert (Hfw : sub64 (nth f rs 0) l = nth f rs 0 - l)
    by (apply sub64_exact; lia).
  rewrite Hbk, Hfw in Hn.
  destruct (Z.gtb_spec (l - nth b rs 0) tol);
    destruct (Z.gtb_spec (nth f rs 0 - l) tol);
    cbv iota in Hn; rewrite ?Hbk, ?Hfw in Hn;
    try destruct (Z.leb_spec (l - nth b rs 0) (nth f rs 0 - l));
    try congruence; lia.
Qed.

(** X20.  Where the 64-bit difference leaves its range.  On sorted keys
    that are 64-bit integers, when the last key that is not after [l] lies
    [2^63] ticks or more before it, the difference wraps to a negative
    number: it passes every tolerance that is not negative and wins the
    comparison of the two candidates, so the search returns that key,
    however near a later key is. *)
Theorem nearest_wraps_on_distant_keys (l tol : Z) (rs : list Z) (b : nat) :
  int64 l -> Forall int64 rs ->
  StronglySorted Z.le rs ->
  0 <= tol ->
  (b < length rs)%nat ->
  nth b rs 0 <= l ->
  (forall i, (b < i < length rs)%nat -> l < nth i rs 0) ->
  2 ^ 63 <= l - nth b rs 0 ->
  sub64 l (nth b rs 0) < 0 /\ nearest l rs tol = Some b.
Proof.
  intros Hl Hrs Hs Htol Hb Hle Hafter Hfar.
  assert (Hr : forall q, (q < length rs)%nat -> int64 (nth q rs 0)).
  { intros q Hq. now apply Forall_nth. }
  pose proof (sorted_nth rs Hs) as Hmono.
  assert (E : count_le l rs = S b).
  { pose proof (count_le_bound l rs) as Hbound.
    pose proof (count_le_at l rs) as Hat.
    pose proof (count_le_before l rs (S b)) as Hbefore.
    destruct (Nat.lt_trichotomy (count_le l rs) (S b)) as [Hc|[Hc|Hc]];
      [|assumption|].
    - specialize (Hmono (count_le l rs) b). lia.
    - specialize (Hafter (S b)). lia. }
  pose proof (Hr b Hb) as Hib. unfold int64 in Hl, Hib.
  assert (Hbk : sub64 l (nth b rs 0) = l - nth b rs 0 - 2 ^ 64)
    by (apply wrap64_high; lia).
  split; [lia|].
  unfold nearest, backward, forward. rewrite E, Hbk.
  destruct (Z.gtb_spec (l - nth b rs 0 - 2 ^ 64) tol) as [Hgt|_]; [lia|].
  destruct (count_ge l (rev rs)) as [|k] eqn:G; [reflexivity|].
  destruct (forward_position l rs k Hs G) as [Hf1 Hf2].
  cbv zeta. set (f := (length rs - S k)%nat) in *.
  pose proof (Hr f Hf1) as Hif. unfold int64 in Hif.
  assert (Hfw : sub64 (nth f rs 0) l = nth f rs 0 - l)
    by (apply sub64_exact; lia).
  rewrite Hfw.
  destruct (Z.gtb_spec (nth f rs 0 - l) tol); [reflexivity|].
  rewrite Hbk, Hfw.
  destruct (Z.leb_spec (l - nth b rs 0 - 2 ^ 64) (nth f rs 0 - l));
    [reflexivity|lia].
Qed.

Lemma tagged_tag (merged : DataFrame) (sheet_name : string) :
  exists j,
    find_col "Source_Temp_Sheet" (columns (tagged merged sheet_name)) = Some j /\
    Forall (fun r => cell_at j r = Str sheet_name)
           (rows (tagged merged sheet_name)).
Proof.
  unfold tagged, setitem.
  set (vals := repeat (Str sheet_name) (shape0 merged)).
  assert (Hlen : length vals = length (rows merged))
    by apply repeat_length.
  assert (Hall : forall j, Forall (fun r => cell_at j r = Str sheet_name)
                                  (assign j (rows merged) vals)).
  { intros j. apply Forall_forall. intros r Hr.
    assert (Hc : In (cell_at j r) vals).
    { rewrite <- (assign_column j (rows merged) vals Hlen). now apply in_map. }
    now apply repeat_spec in Hc. }
  destruct (find_col "Source_Temp_Sheet" (columns merged)) as [j|] eqn:E;
    cbn [columns rows].
  - exists j. split; [assumption|apply Hall].
  - exists (length (columns merged)).
    split; [now apply find_col_app_new|apply Hall].
Qed.

Section Shapes.
Context {pandas : Pandas}.

(** X7.  Every row of every merged table carries, in the column
    ['Source_Temp_Sheet'], the name of the sheet under which the table is
    stored in the result mapping. *)
Theorem merged_rows_carry_sheet_name (tide_file temp_file : excel)
  (log log' : list message) (results : dict DataFrame) :
  process_and_merge_data tide_file temp_file log = (Return results, log') ->
  forall sheet_name merged,
    In (sheet_name, merged) results ->
    exists j,
      find_col "Source_Temp_Sheet" (columns merged) = Some j /\
      Forall (fun r => cell_at j r = Str sheet_name) (rows merged).
Proof.
  intros H n m Hin. apply process_return in H.
  destruct H as (raw & ev & _ & _ & Hres).
  destruct (Hres n m Hin) as [s Hs]. apply merge_one_inv in Hs.
  destruct Hs as (je & js & u & _ & _ & _ & _ & ->).
  apply tagged_tag.
Qed.

End Shapes.

(** ** Rectangular tables stay rectangular *)

Lemma set_at_length_inside (j : nat) (v : cell) (r : row) :
  (j < length r)%nat -> length (set_at j v r) = length r.
Proof.
  intros H. unfold set_at.
  rewrite length_app, length_firstn, length_app, repeat_length.
  cbn [length]. rewrite length_skipn. lia.
Qed.

Lemma set_at_end (v : cell) (r : row) : set_at (length r) v r = r ++ [v].
Proof.
  unfold set_at. rewrite firstn_app, firstn_all, Nat.sub_diag.
  cbn [firstn]. rewrite app_nil_r.
  rewrite skipn_all2 by lia. reflexivity.
Qed.

Lemma assign_width_inside (j w : nat) (rs : list row) (vals : list cell) :
  (j < w)%nat ->
  Forall (fun r => length r = w) rs ->
  Forall (fun r => length r = w) (assign j rs vals).
Proof.
  intros Hj H. revert vals. induction H as [|r rs Hr _ IH]; intros vals;
    cbn [assign]; constructor; [|apply IH].
  rewrite set_at_length_inside; lia.
Qed.

Lemma assign_width_end (w : nat) (rs : list row) (vals : list cell) :
  Forall (fun r => length r = w) rs ->
  Forall (fun r => length r = S w) (assign w rs vals).
Proof.
  intros H. revert vals. induction H as [|r rs Hr _ IH]; intros vals;
    cbn [assign]; constructor; [|apply IH].
  rewrite <- Hr, set_at_end, length_app. cbn [length]. lia.
Qed.

Lemma setitem_rectangular (df : DataFrame) (c : string) (vals : list cell) :
  rectangular df -> rectangular (setitem df c vals).
Proof.
  unfold rectangular, setitem. intros H.
  destruct (find_col c (columns df)) as [j|] eqn:E; cbn [columns rows].
  - apply assign_width_inside; [now apply find_col_lt in E|assumption].
  - rewrite length_app. cbn [length]. rewrite Nat.add_1_r.
    now apply assign_width_end.
Qed.

Lemma rectangular_rows (df df' : DataFrame) :
  length (columns df') = length (columns df) ->
  (forall r, In r (rows df') -> In r (rows df)) ->
  rectangular df -> rectangular df'.
Proof.
  unfold rectangular. intros Hc Hin H. apply Forall_forall. intros r Hr.
  rewrite Forall_forall in H. rewrite Hc. now apply H, Hin.
Qed.

Lemma drop_in_row_length (c : string) (cols : list string) (r : row) :
  length r = length cols ->
  length (drop_in_row c cols r)
  = length (filter (fun n => negb (String.eqb n c)) cols).
Proof.
  unfold drop_in_row. rewrite length_map. revert r.
  induction cols as [|n cols IH]; intros [|x r] H; try discriminate;
    [reflexivity|].
  cbn [combine filter fst]. injection H as H.
  destruct (negb (String.eqb n c)); cbn [length]; now rewrite IH.
Qed.

Lemma drop_column_rectangular (df : DataFrame) (c : string) :
  rectangular df -> rectangular (drop_column df c).
Proof.
  unfold rectangular, drop_column. cbn [columns rows]. intros H.
  apply Forall_forall. intros r Hr. apply in_map_iff in Hr.
  destruct Hr as (r0 & <- & Hr0). rewrite Forall_forall in H.
  apply drop_in_row_length. now apply H.
Qed.

Lemma drop_duplicates_rectangular (df : DataFrame) :
  rectangular df -> rectangular (drop_duplicates df).
Proof.
  apply rectangular_rows.
  - now rewrite drop_duplicates_columns.
  - intros r. apply drop_duplicates_in.
Qed.

Lemma clean_sheet_rectangular (df : DataFrame) :
  rectangular df -> rectangular (fst (clean_sheet df)).
Proof.
  intros H. unfold clean_sheet. cbn [fst]. apply drop_duplicates_rectangular.
  destruct (has_column _ df); [now apply drop_column_rectangular|assumption].
Qed.

Lemma joined_rectangular (left right : DataFrame) (lj rj : nat) (tol : Z) :
  rectangular left -> rectangular right ->
  rectangular (joined left right lj rj tol).
Proof.
  unfold rectangular, joined. cbn [columns rows]. intros Hl Hr.
  apply Forall_forall. intros r Hin. apply in_map_iff in Hin.
  destruct Hin as (e & <- & He).
  rewrite Forall_forall in Hl, Hr.
  rewrite !length_app, !length_map, (Hl e He). f_equal.
  unfold matched.
  assert (Hnull : length (null_row right) = length (columns right))
    by apply repeat_length.
  destruct (nearest _ _ _) as [p|]; [|exact Hnull].
  destruct (nth_in_or_default p (rows right) (null_row right)) as [H|H].
  - now apply Hr.
  - now rewrite H.
Qed.

Lemma tagged_rectangular (merged : DataFrame) (sheet_name : string) :
  rectangular merged -> rectangular (tagged merged sheet_name).
Proof. apply setitem_rectangular. Qed.

Section Rectangular.
Context {pandas : Pandas}.

Lemma sort_values_rows_in (df df' : DataFrame) (c : string) :
  sort_values df c = Ok df' ->
  columns df' = columns df /\ forall r, In r (rows df') -> In r (rows df).
Proof.
  unfold sort_values, col_pos.
  destruct (find_col c (columns df)) as [j|]; [|discriminate].
  intros [= <-]. cbn [columns rows]. split; [reflexivity|].
  intros r Hr. apply in_app_or in Hr. destruct Hr as [Hr|Hr].
  - apply in_map_iff in Hr. destruct Hr as (i & <- & Hi).
    set (dated := filter (has_key j) (rows df)) in *.
    apply (Permutation_in _ (argsort_perm _)) in Hi.
    apply in_seq in Hi. rewrite length_map in Hi.
    assert (Hd : In (nth i dated []) dated) by (apply nth_In; lia).
    unfold dated in Hd. now apply filter_In in Hd.
  - now apply filter_In in Hr.
Qed.

Lemma compose_timestamps_rectangular (df df' : DataFrame)
  (date time out : string) :
  compose_timestamps df date time out = Ok df' ->
  rectangular df -> rectangular df'.
Proof.
  unfold compose_timestamps. intros H Hrect.
  destruct (getitem df time) as [t|]; [|discriminate].
  set (df1 := setitem df time _) in H.
  destruct (getitem df1 date) as [d|]; [|discriminate].
  destruct (to_datetime _) as [[ty vs]|]; [|discriminate].
  cbn [fst snd] in H.
  set (df2 := setitem_datetime df1 out ty vs) in H.
  assert (H2 : rectangular df2).
  { unfold df2, setitem_datetime, rectangular. cbn [columns rows].
    now repeat apply setitem_rectangular. }
  unfold dropna in H. destruct (col_pos df2 out) as [j|]; [|discriminate].
  apply sort_values_rows_in in H. destruct H as [Hc Hin].
  cbn [select columns rows] in Hc, Hin.
  apply (rectangular_rows df2); [now rewrite Hc| |assumption].
  intros r Hr. apply Hin in Hr. now apply filter_In in Hr.
Qed.

Lemma prepare_mares_rectangular (raw ev : DataFrame) :
  prepare_mares raw = Ok ev -> rectangular raw -> rectangular ev.
Proof.
  unfold prepare_mares. intros H Hrect.
  destruct (col_pos raw "Mare") as [j|]; [|discriminate].
  destruct (compose_timestamps _ _ _ _) as [df|] eqn:C; [|discriminate].
  injection H as <-.
  apply compose_timestamps_rectangular in C.
  - unfold rectangular, rename in *. cbn [columns rows].
    now rewrite length_map.
  - apply (rectangular_rows raw); [reflexivity| |assumption].
    intros r Hr. cbn [select rows] in Hr. now apply filter_In in Hr.
Qed.

Lemma normalize_sheet_rectangular (df s : DataFrame) :
  normalize_sheet df = Some s -> rectangular df -> rectangular s.
Proof.
  intros H Hrect. apply normalize_sheet_some in H. destruct H as [_ H].
  apply compose_timestamps_rectangular in H; [assumption|].
  now apply clean_sheet_rectangular.
Qed.

Lemma merge_one_rectangular (ev s m : DataFrame) (sheet_name : string) :
  merge_one ev sheet_name s = Ok m ->
  rectangular ev -> rectangular s -> rectangular m.
Proof.
  intros H He Hs. apply merge_one_inv in H.
  destruct H as (je & js & u & _ & _ & _ & _ & ->).
  now apply tagged_rectangular, joined_rectangular.
Qed.

(** X8.  If the tables read from the two workbooks are rectangular (every
    row has one cell per column), so is every merged table of the result
    mapping: selecting, assigning, dropping, sorting and joining never
    leave a row shorter or longer than the header. *)
Theorem merged_tables_are_rectangular (tide_file temp_file : excel)
  (log log' : list message) (results : dict DataFrame) :
  process_and_merge_data tide_file temp_file log = (Return results, log') ->
  (forall raw, read_excel tide_file None = Ok raw -> rectangular raw) ->
  (forall n df, read_excel temp_file (Some n) = Ok df -> rectangular df) ->
  forall sheet_name merged,
    In (sheet_name, merged) results -> rectangular merged.
Proof.
  intros H Htide Htemp n m Hin.
  apply run_outcome in H. destruct H as (msgs & Hc & _).
  inversion Hc as [| | | | | |raw ev names Hr Hp Hn Hall Hsome Hm]; subst.
  apply in_map_iff in Hin. destruct Hin as ([n' s] & Heq & Hin).
  rewrite Forall_forall in Hm. destruct (Hm _ Hin) as [m' Hm'].
  cbn [fst snd] in Hm'.
  unfold merge_table in Heq. cbn [fst snd] in Heq. rewrite Hm' in Heq.
  injection Heq as -> ->.
  apply dict_of_inv in Hin. destruct Hin as [[]|Hin].
  apply survivors_in in Hin. destruct Hin as (_ & df & R & N).
  apply (merge_one_rectangular ev s m n Hm').
  - apply (prepare_mares_rectangular raw); auto.
  - apply (normalize_sheet_rectangular df); eauto.
Qed.

End Rectangular.

(** ** The columns of a merged table *)

Lemma suffixed_disjoint (suffix : string) (others cols : list string) :
  (forall c, In c cols -> ~ In c others) ->
  map (suffixed suffix others) cols = cols.
Proof.
  intros H. rewrite <- (map_id cols) at 2. apply map_ext_in. intros c Hc.
  unfold suffixed. destruct (existsb (String.eqb c) others) eqn:E;
    [|reflexivity].
  apply existsb_exists in E. destruct E as (x & Hx & Heq).
  apply String.eqb_eq in Heq. subst x. now apply H in Hc.
Qed.

Lemma assign_append (rs : list row) (vals : list cell) (w : nat) :
  Forall (fun r => length r = w) rs ->
  assign w rs vals
  = map (fun p => fst p ++ [snd p])
        (combine rs (vals ++ repeat NA (length rs - length vals))).
Proof.
  intros H. revert vals. induction H as [|r rs Hr _ IH]; intros vals;
    [reflexivity|].
  cbn [assign]. rewrite <- Hr at 1. rewrite set_at_end.
  destruct vals as [|v vals]; cbn [hd tl length app Nat.sub repeat combine map
                                   fst snd].
  - f_equal. rewrite IH. cbn [length app]. now rewrite Nat.sub_0_r.
  - f_equal. apply IH.
Qed.

Lemma tag_rows (rs : list row) (v : cell) :
  map (fun p => fst p ++ [snd p]) (combine rs (repeat v (length rs)))
  = map (fun r => r ++ [v]) rs.
Proof.
  induction rs as [|r rs IH]; [reflexivity|].
  cbn [length repeat combine map fst snd]. now rewrite IH.
Qed.

Lemma matched_length (right : DataFrame) (rk : list Z) (tol l : Z) :
  rectangular right ->
  length (matched right rk tol l) = length (columns right).
Proof.
  intros Hr. unfold matched.
  assert (Hnull : length (null_row right) = length (columns right))
    by apply repeat_length.
  destruct (nearest l rk tol) as [p|]; [|exact Hnull].
  destruct (nth_in_or_default p (rows right) (null_row right)) as [H|H].
  - unfold rectangular in Hr. rewrite Forall_forall in Hr. now apply Hr.
  - now rewrite H.
Qed.

(** X9.  When no column label of the normalised event table occurs in the
    normalised sensor table and neither has a ['Source_Temp_Sheet']
    column, the merged table has the event columns, then the sensor
    columns, then ['Source_Temp_Sheet'], and each of its rows is the event
    row, followed by one cell per sensor column, followed by the sheet
    name. *)
Theorem merged_schema_without_collisions (ev s m : DataFrame)
  (sheet_name : string) :
  merge_one ev sheet_name s = Ok m ->
  rectangular ev -> rectangular s ->
  (forall c, In c (columns ev) -> ~ In c (columns s)) ->
  ~ In "Source_Temp_Sheet" (columns ev ++ columns s) ->
  columns m = columns ev ++ columns s ++ ["Source_Temp_Sheet"] /\
  Forall2
    (fun e r =>
       exists part,
         r = e ++ part ++ [Str sheet_name] /\
         length part = length (columns s))
    (rows ev) (rows m).
Proof.
  intros Hm He Hs Hdisj Htag.
  apply merge_one_inv in Hm.
  destruct Hm as (je & js & u & _ & _ & _ & _ & ->).
  assert (Hcols : columns (joined ev s je js (one_hour u))
                  = columns ev ++ columns s).
  { cbn [joined columns]. rewrite !suffixed_disjoint; [reflexivity| |assumption].
    intros c Hc Hin. now apply (Hdisj c). }
  pose proof (joined_rectangular ev s je js (one_hour u) He Hs) as Hj.
  unfold rectangular in Hj. rewrite Hcols in Hj.
  assert (Hnone : find_col "Source_Temp_Sheet" (columns ev ++ columns s) = None)
    by now apply find_col_none.
  unfold tagged, setitem. rewrite Hcols, Hnone. cbn [columns rows].
  split; [now rewrite <- app_assoc|].
  rewrite (assign_append _ _ _ Hj).
  unfold shape0. rewrite repeat_length, Nat.sub_diag. cbn [repeat].
  rewrite app_nil_r, tag_rows. cbn [joined rows]. rewrite map_map.
  apply Forall2_map_right. intros e _.
  exists (matched s (map (key_at js) (rows s)) (one_hour u) (key_at je e)).
  split; [now rewrite <- app_assoc|]. now apply matched_length.
Qed.

(** ** Keys, stored tables and diagnostics *)

Lemma map_fst_merge_table {pandas : Pandas} (ev : DataFrame)
  (items : list (string * DataFrame)) :
  map fst (map (merge_table ev) items) = map fst items.
Proof. rewrite map_map. reflexivity. Qed.

Lemma keep_first_idem (rs : list row) :
  keep_first [] (keep_first [] rs) = keep_first [] rs.
Proof.
  apply keep_first_fresh; [apply keep_first_NoDup|]. intros r _ [].
Qed.

Lemma drop_duplicates_idem (df : DataFrame) :
  drop_duplicates (drop_duplicates df) = drop_duplicates df.
Proof.
  unfold drop_duplicates at 2. destruct (empty df) eqn:E.
  - unfold drop_duplicates. now rewrite E.
  - unfold drop_duplicates, empty. cbn [rows columns].
    unfold empty in E. apply orb_false_elim in E. destruct E as [Er Ec].
    destruct (rows df) as [|r rs]; [discriminate|].
    change (keep_first [] (r :: rs)) with (r :: keep_first [r] rs).
    cbn [length Nat.eqb orb]. rewrite Ec.
    change (r :: keep_first [r] rs) with (keep_first [] (r :: rs)).
    now rewrite keep_first_idem.
Qed.

Section Stored.
Context {pandas : Pandas}.

Lemma load_temps_return (temp_file : excel) (log log' : list message)
  (processed : dict DataFrame) :
  load_temps temp_file log = (Return processed, log') ->
  exists names,
    sheet_names temp_file = Ok names /\
    Forall (processable temp_file) names /\
    processed = dict_of (survivors temp_file names) [].
Proof.
  intros H.
  destruct (sheet_names temp_file) as [names|e] eqn:Hn.
  2:{ rewrite (load_temps_corrupt _ _ Hn) in H. discriminate. }
  destruct (sheets_split temp_file names)
    as [Hall|(before & n & after & e & -> & Hall & Hfail)].
  - rewrite (load_temps_ok _ _ Hn Hall) in H. injection H as <- _.
    exists names. auto.
  - rewrite (load_temps_fails_at _ _ _ _ _ Hn Hall Hfail) in H.
    discriminate.
Qed.

(** X10.  The keys of a returned result mapping are pairwise distinct, and
    when the sheet names of the sensor workbook are distinct they are the
    names of the sheets that were read and not skipped, in workbook
    order. *)
Theorem result_keys_follow_sheet_order (tide_file temp_file : excel)
  (log log' : list message) (results : dict DataFrame) :
  process_and_merge_data tide_file temp_file log = (Return results, log') ->
  NoDup (keys results) /\
  results <> [] /\
  forall names,
    sheet_names temp_file = Ok names -> NoDup names ->
    keys results = filter (survives temp_file) names.
Proof.
  intros H. apply run_outcome in H. destruct H as (msgs & Hc & _).
  inversion Hc as [| | | | | |raw ev names Hr Hp Hn Hall Hsome Ho]; subst.
  unfold keys. rewrite map_fst_merge_table. split; [|split].
  - apply (dict_of_NoDup _ []). constructor.
  - intros E. apply map_eq_nil in E. revert E.
    apply dict_of_nonempty. now left.
  - intros names' Hn' Hnd. assert (names' = names) as -> by congruence.
    rewrite dict_of_fresh.
    + cbn [app]. now apply survivors_keys.
    + cbn [keys map app]. rewrite (survivors_keys _ _ Hall).
      now apply NoDup_filter.
Qed.

(** X11.  Both stages hand sorted tables to the join: every row of the
    normalised event table holds a datetime in ['Mares_DateTime'], every
    row of every table stored by the sensor stage holds one in
    ['Temp_DateTime'], and in both the datetimes ascend down the table. *)
Theorem normalised_tables_are_sorted (temp_file : excel)
  (log log' : list message) (processed : dict DataFrame) :
  load_temps temp_file log = (Return processed, log') ->
  (forall n s, In (n, s) processed ->
     exists js, timestamped s "Temp_DateTime" js) /\
  (forall raw ev, prepare_mares raw = Ok ev ->
     exists je, timestamped ev "Mares_DateTime" je).
Proof.
  intros H. split.
  - intros n s Hin. apply load_temps_return in H.
    destruct H as (names & _ & _ & ->).
    apply dict_of_inv in Hin. destruct Hin as [[]|Hin].
    apply survivors_in in Hin. destruct Hin as (_ & df & _ & N).
    now apply (normalize_sheet_timestamped df).
  - intros raw ev Hp.
    destruct (prepare_mares_inv _ _ Hp)
      as (jm & jd & jt & je & _ & _ & _ & He & _).
    eauto.
Qed.

(** X12.  The emptiness test of line 88 comes before the timestamps are
    composed: a sheet that passes it but has no parseable timestamp is not
    skipped.  When composing its timestamps raises nothing, the loop body
    stores the sheet with no rows and shows nothing but the duplicate
    warning, if duplicates were removed; and whenever the join of an event
    table with the stored sheet returns, every row of the merged table is
    the event row followed by nulls, with the sheet name written at the
    tag position. *)
Theorem unparseable_sheet_is_null_matched (f : excel) (sheet_name : string)
  (d : dict DataFrame) (df s : DataFrame) :
  read_excel f (Some sheet_name) = Ok df ->
  skipped (fst (clean_sheet df)) = false ->
  compose_timestamps (fst (clean_sheet df)) "Date" "time" "Temp_DateTime"
  = Ok s ->
  (forall jd jt,
     find_col "Date" (columns (fst (clean_sheet df))) = Some jd ->
     find_col "time" (columns (fst (clean_sheet df))) = Some jt ->
     filter valid (stamps_of (fst (clean_sheet df)) jd jt) = []) ->
  rows s = [] /\
  writes (process_sheet f sheet_name d)
         (Return (dict_set sheet_name s d))
         (if (0 <? snd (clean_sheet df))%nat
          then [removed_warning sheet_name (snd (clean_sheet df))]
          else []) /\
  forall ev m,
    merge_one ev sheet_name s = Ok m ->
    exists j,
      find_col "Source_Temp_Sheet" (columns m) = Some j /\
      rows m = map (fun e => set_at j (Str sheet_name)
                               (e ++ repeat NA (length (columns s))))
                   (rows ev).
Proof.
  intros Hread Hskip Hs Hnone.
  assert (N : normalize_sheet df = Some s) by now apply normalize_sheet_some.
  assert (Hrows : rows s = []).
  { pose proof Hs as Hs'.
    apply compose_timestamps_inv in Hs'; [|discriminate].
    destruct Hs' as (jd & jt & jo & Hd & Ht & _ & _ & _ & Hlen).
    rewrite (Hnone jd jt Hd Ht) in Hlen. now apply length_zero_iff_nil. }
  split; [exact Hrows|]. split.
  - assert (Hpass : sheet_passes df) by (right; eauto).
    pose proof (process_sheet_ok f sheet_name d df Hread Hpass) as H.
    rewrite N in H. unfold sheet_messages in H.
    rewrite Hskip, app_nil_r in H. exact H.
  - intros ev m Hm.
    destruct (merge_one_checked _ _ _ _ Hm)
      as (je & js & u & tz & _ & _ & _ & _ & _ & ->).
    destruct (tagged_joined_rows ev s je js (one_hour u) sheet_name)
      as (j & Hj & Hr).
    exists j. split; [exact Hj|]. rewrite Hr.
    apply map_ext. intros e. rewrite Hrows. reflexivity.
Qed.

(** X13.  Cleaning is idempotent: cleaning an already cleaned sheet changes
    nothing and finds no duplicate, so it would add no warning. *)
Theorem clean_sheet_is_idempotent (df : DataFrame) :
  clean_sheet (fst (clean_sheet df)) = (fst (clean_sheet df), 0%nat).
Proof.
  set (before := if has_column "ficheiro.origem" df
                 then drop_column df "ficheiro.origem" else df).
  assert (Hc : fst (clean_sheet df) = drop_duplicates before) by reflexivity.
  assert (Hno : has_column "ficheiro.origem" (drop_duplicates before) = false).
  { unfold has_column. rewrite drop_duplicates_columns. unfold before.
    destruct (has_column "ficheiro.origem" df) eqn:E; [|exact E].
    cbn [drop_column columns].
    destruct (existsb _ _) eqn:X; [|reflexivity].
    apply existsb_exists in X. destruct X as (n & Hin & Hn).
    apply String.eqb_eq in Hn. subst n.
    apply filter_In in Hin. destruct Hin as [_ Hin].
    now rewrite String.eqb_refl in Hin. }
  rewrite Hc. unfold clean_sheet at 1. rewrite Hno.
  rewrite drop_duplicates_idem, Nat.sub_diag. reflexivity.
Qed.

Lemma prepare_mares_first_missing (raw : DataFrame) :
  (has_column "Mare" raw = false ->
   prepare_mares raw = Err (KeyError "Mare")) /\
  (has_column "Mare" raw = true -> has_column "Hora" raw = false ->
   prepare_mares raw = Err (KeyError "Hora")) /\
  (has_column "Mare" raw = true -> has_column "Hora" raw = true ->
   has_column "Data" raw = false ->
   prepare_mares raw = Err (KeyError "Data")).
Proof.
  unfold prepare_mares, col_pos. repeat split.
  - intros Hm. apply has_column_false in Hm. now rewrite Hm.
  - intros Hm Ht. apply has_column_find in Hm. destruct Hm as [jm ->].
    apply has_column_false in Ht.
    now rewrite compose_timestamps_no_time.
  - intros Hm Ht Hd. apply has_column_find in Hm, Ht.
    destruct Hm as [jm ->], Ht as [jt Ht].
    apply has_column_false in Hd.
    now rewrite (compose_timestamps_no_date _ _ _ _ jt).
Qed.

(** X14.  For a tide sheet that can be read, the error message names the
    first missing column in the order ['Mare'], ['Hora'], ['Data']; the run
    stops there, after the notice that the tide data was loaded. *)
Theorem tide_error_names_first_missing_column (tide_file temp_file : excel)
  (raw : DataFrame) :
  read_excel tide_file None = Ok raw ->
  (has_column "Mare" raw = false ->
   writes (process_and_merge_data tide_file temp_file) Stop
          [tide_loaded; tide_error (KeyError "Mare")])
  /\
  (has_column "Mare" raw = true -> has_column "Hora" raw = false ->
   writes (process_and_merge_data tide_file temp_file) Stop
          [tide_loaded; tide_error (KeyError "Hora")])
  /\
  (has_column "Mare" raw = true -> has_column "Hora" raw = true ->
   has_column "Data" raw = false ->
   writes (process_and_merge_data tide_file temp_file) Stop
          [tide_loaded; tide_error (KeyError "Data")]).
Proof.
  intros Hr.
  destruct (prepare_mares_first_missing raw) as (H1 & H2 & H3).
  repeat split; intros; apply (process_tide_fails _ _ raw); auto.
Qed.

End Stored.

(** ** Diagnostics, stored rows and renamed columns *)

Lemma rename_no_old (cols : list string) :
  ~ In "Alt" (map (rename_label [("Alt", "Mares_Alt"); ("Mare", "Mares_Mare")])
                  cols) /\
  ~ In "Mare" (map (rename_label [("Alt", "Mares_Alt"); ("Mare", "Mares_Mare")])
                   cols).
Proof.
  split; intros H; apply in_map_iff in H; destruct H as (n & Hn & _);
    cbn [rename_label] in Hn;
    (destruct (String.eqb_spec n "Alt") as [E1|H1]; [discriminate|]);
    (destruct (String.eqb_spec n "Mare") as [E2|H2]; [discriminate|]);
    congruence.
Qed.

Section Diagnostics.
Context {pandas : Pandas}.

(** X15.  The diagnostics of a run that returns are, in this order: the
    tide notice; for each sensor sheet in workbook order, the duplicate
    warning if duplicates were removed and the skip notice if it was
    skipped; the merging header; and for each key of the result mapping the
    two merge notices, the second reporting the number of rows of the
    normalised event table.  Nothing reports the rows that were dropped for
    an unparseable timestamp. *)
Theorem successful_run_diagnostics (tide_file temp_file : excel)
  (log log' : list message) (results : dict DataFrame) :
  process_and_merge_data tide_file temp_file log = (Return results, log') ->
  exists raw ev names,
    read_excel tide_file None = Ok raw /\
    prepare_mares raw = Ok ev /\
    sheet_names temp_file = Ok names /\
    log' = log ++ [tide_loaded] ++ loop_messages temp_file names
               ++ [merging_header]
               ++ merge_messages (shape0 ev) (keys results) /\
    forall m, In m (loop_messages temp_file names) ->
      (exists n k, In n names /\ (0 < k)%nat /\ m = removed_warning n k) \/
      (exists n, In n names /\ m = skip_info n).
Proof.
  intros H. apply run_outcome in H. destruct H as (msgs & Hc & ->).
  inversion Hc as [| | | | | |raw ev names Hr Hp Hn Hall Hsome Ho]; subst.
  exists raw, ev, names. repeat split; auto.
  - unfold keys at 2. now rewrite map_fst_merge_table.
  - intros m Hin. unfold loop_messages in Hin. apply in_flat_map in Hin.
    destruct Hin as (n & Hn' & Hin).
    destruct (read_excel temp_file (Some n)) as [df|]; [|contradiction].
    unfold sheet_messages in Hin. apply in_app_or in Hin.
    destruct Hin as [Hin|Hin].
    + destruct (0 <? snd (clean_sheet df))%nat eqn:E; [|contradiction].
      destruct Hin as [<-|[]]. left. exists n, (snd (clean_sheet df)).
      apply Nat.ltb_lt in E. auto.
    + destruct (skipped _); [|contradiction].
      destruct Hin as [<-|[]]. right. eauto.
Qed.

(** X16.  The table the sensor stage stores for a sheet has exactly as
    many rows as the cleaned sheet has valid composed timestamps, never
    more rows than the sheet as read: rows with an unparseable date or
    time are left out of the join. *)
Theorem stored_rows_are_valid_readings (df s : DataFrame) :
  normalize_sheet df = Some s ->
  exists jd jt,
    find_col "Date" (columns (fst (clean_sheet df))) = Some jd /\
    find_col "time" (columns (fst (clean_sheet df))) = Some jt /\
    shape0 s
    = length (filter valid (stamps_of (fst (clean_sheet df)) jd jt)) /\
    (shape0 s <= shape0 (fst (clean_sheet df)))%nat /\
    (shape0 s <= shape0 df)%nat.
Proof.
  intros H. apply normalize_sheet_some in H. destruct H as [_ H].
  apply compose_timestamps_inv in H; [|discriminate].
  destruct H as (jd & jt & jo & Hd & Ht & _ & _ & _ & Hlen).
  exists jd, jt. split; [assumption|]. split; [assumption|].
  split; [exact Hlen|].
  assert (H1 : (shape0 s <= shape0 (fst (clean_sheet df)))%nat).
  { unfold shape0. rewrite Hlen.
    etransitivity; [apply filter_length_le|].
    apply (stamps_of_length (fst (clean_sheet df)) jd jt). }
  split; [exact H1|].
  assert (H2 : (shape0 (fst (clean_sheet df)) <= shape0 df)%nat).
  { unfold clean_sheet. cbn [fst].
    etransitivity; [apply drop_duplicates_length|].
    destruct (has_column _ df); [|reflexivity].
    unfold shape0, drop_column. cbn [rows]. now rewrite length_map. }
  lia.
Qed.

(** X17.  The normalised event table has no column labelled ['Alt'] or
    ['Mare']: where the tide sheet had them it has ['Mares_Alt'] and
    ['Mares_Mare'], at the same positions, so that sensor columns of those
    names cannot collide with them. *)
Theorem value_and_type_columns_are_renamed (raw ev : DataFrame) :
  prepare_mares raw = Ok ev ->
  ~ In "Alt" (columns ev) /\ ~ In "Mare" (columns ev) /\
  (exists jm, find_col "Mare" (columns raw) = Some jm /\
              nth_error (columns ev) jm = Some "Mares_Mare") /\
  (forall ja, find_col "Alt" (columns raw) = Some ja ->
              nth_error (columns ev) ja = Some "Mares_Alt").
Proof.
  unfold prepare_mares, col_pos. intros H.
  destruct (find_col "Mare" (columns raw)) as [jm|] eqn:Hm; [|discriminate].
  destruct (compose_timestamps _ _ _ _) as [df|] eqn:C; [|discriminate].
  injection H as <-. cbn [rename columns].
  apply compose_timestamps_inv in C; [|discriminate].
  destruct C as (jd & jt & jo & _ & _ & Hc & _).
  assert (Hcols : exists more, columns df = columns raw ++ more).
  { rewrite Hc. unfold setitem. cbn [select columns].
    destruct (find_col "Mares_DateTime" (columns raw)); cbn [columns].
    - exists []. now rewrite app_nil_r.
    - eauto. }
  destruct Hcols as [more Hcols].
  destruct (rename_no_old (columns df)) as [Ha Hb].
  split; [exact Ha|]. split; [exact Hb|].
  assert (Hnth : forall c j, find_col c (columns raw) = Some j ->
            nth_error (map (rename_label [("Alt", "Mares_Alt");
                                          ("Mare", "Mares_Mare")])
                           (columns df)) j
            = Some (rename_label [("Alt", "Mares_Alt"); ("Mare", "Mares_Mare")]
                                 c)).
  { intros c j Hj. apply map_nth_error. rewrite Hcols.
    rewrite nth_error_app1 by now apply find_col_lt in Hj.
    now apply find_col_nth. }
  split.
  - exists jm. split; [reflexivity|]. exact (Hnth "Mare" jm Hm).
  - intros ja Hja. exact (Hnth "Alt" ja Hja).
Qed.

End Diagnostics.

(** ** The time-of-day columns *)

Lemma find_col_rename_other (c : string) (cols : list string) :
  c <> "Alt" -> c <> "Mare" -> c <> "Mares_Alt" -> c <> "Mares_Mare" ->
  find_col c
    (map (rename_label [("Alt", "Mares_Alt"); ("Mare", "Mares_Mare")]) cols)
  = find_col c cols.
Proof.
  intros H1 H2 H3 H4.
  induction cols as [|n cols IH]; [reflexivity|].
  cbn [map find_col]. rewrite IH.
  assert (H : String.eqb c
                (rename_label [("Alt", "Mares_Alt"); ("Mare", "Mares_Mare")] n)
              = String.eqb c n); [|now rewrite H].
  cbn [rename_label].
  destruct (String.eqb_spec n "Alt") as [E|_].
  { rewrite E. apply String.eqb_neq in H1, H3. now rewrite H1, H3. }
  destruct (String.eqb_spec n "Mare") as [E|_]; [|reflexivity].
  rewrite E. apply String.eqb_neq in H2, H4. now rewrite H2, H4.
Qed.

Section TimeOfDay.
Context {pandas : Pandas}.

Lemma compose_timestamps_text (df df' : DataFrame) (date time out : string) :
  date <> time -> out <> time ->
  compose_timestamps df date time out = Ok df' ->
  exists jt,
    find_col time (columns df) = Some jt /\
    find_col time (columns df') = Some jt /\
    Forall (fun r => exists s, cell_at jt r = Str s) (rows df').
Proof.
  intros Hne Hout H. apply compose_timestamps_inv in H; [|assumption].
  destruct H as (jd & jt & jo & Hd & Ht & Hc & (Hj & _ & _) & Hp & _).
  assert (Ht' : find_col time (columns df') = Some jt).
  { rewrite Hc. unfold setitem.
    destruct (find_col out (columns df)); cbn [columns]; [assumption|].
    now apply find_col_app_old. }
  exists jt. split; [assumption|]. split; [assumption|].
  assert (Hjj : jt <> jo).
  { apply not_eq_sym. eapply find_col_distinct; eauto. }
  apply Forall_forall. intros r Hr.
  apply (Permutation_in _ Hp) in Hr. apply filter_In in Hr.
  destruct Hr as [Hr _].
  assert (Hin : In (cell_at jt r)
                   (map Str (astype_str (map (cell_at jt) (rows df))))).
  { rewrite <- (assign_column jt (rows df)
                  (map Str (astype_str (map (cell_at jt) (rows df))))).
    - rewrite <- (assign_other_column jt jo _
                    (map stamp_cell (stamps_of df jd jt)) Hjj).
      now apply in_map.
    - now rewrite length_map, astype_str_length, length_map. }
  apply in_map_iff in Hin. destruct Hin as (s & Hs & _). eauto.
Qed.

(** X18.  Both stages leave their time-of-day column as text: every row of
    the normalised event table holds a string under ['Hora'], and every row
    of a stored sensor table holds a string under ['time'], whatever cells
    the workbook had there; the columns keep their positions. *)
Theorem time_of_day_columns_become_text (raw ev df s : DataFrame) :
  prepare_mares raw = Ok ev ->
  normalize_sheet df = Some s ->
  (exists jh, find_col "Hora" (columns raw) = Some jh /\
              find_col "Hora" (columns ev) = Some jh /\
              Forall (fun r => exists t, cell_at jh r = Str t) (rows ev)) /\
  (exists jt, find_col "time" (columns (fst (clean_sheet df))) = Some jt /\
              find_col "time" (columns s) = Some jt /\
              Forall (fun r => exists t, cell_at jt r = Str t) (rows s)).
Proof.
  intros Hev Hs. split.
  - unfold prepare_mares, col_pos in Hev.
    destruct (find_col "Mare" (columns raw)) as [jm|]; [|discriminate].
    destruct (compose_timestamps _ _ _ _) as [d|] eqn:C; [|discriminate].
    injection Hev as <-. cbn [rename columns rows].
    apply compose_timestamps_text in C; [|discriminate|discriminate].
    destruct C as (jh & H1 & H2 & H3). exists jh.
    rewrite find_col_rename_other by discriminate. auto.
  - apply normalize_sheet_some in Hs. destruct Hs as [_ Hs].
    apply compose_timestamps_text in Hs; [|discriminate|discriminate].
    exact Hs.
Qed.

End TimeOfDay.

(** ** The first sheet that cannot be read *)

Section Unreadable.
Context {pandas : Pandas}.

(** X19.  When a sheet of the sensor workbook cannot be read, and the
    sheets before it were read and dealt with without an exception, the run
    stops at that sheet: the diagnostics are the tide notice, the warnings
    and skip notices of the sheets before it, and the temperature error
    carrying that sheet's exception.  The sheets after it are not looked
    at, and nothing is merged, also not the sheets already normalised. *)
Theorem first_unreadable_sheet_stops_run (tide_file temp_file : excel)
  (raw ev : DataFrame) (before after : list string) (n : string) (e : exn) :
  read_excel tide_file None = Ok raw ->
  prepare_mares raw = Ok ev ->
  sheet_names temp_file = Ok (before ++ n :: after) ->
  Forall (processable temp_file) before ->
  read_excel temp_file (Some n) = Err e ->
  writes (process_and_merge_data tide_file temp_file) Stop
         ([tide_loaded] ++ loop_messages temp_file before ++ [temp_error e]).
Proof.
  intros Hr Hp Hn Hall He.
  assert (Hfail : fails_with temp_file n e) by now left.
  pose proof (process_sheet_fails_at _ _ _ _ _ _ _ _ Hr Hp Hn Hall Hfail)
    as H.
  rewrite loop_messages_app in H.
  unfold loop_messages at 2 in H. cbn [flat_map] in H.
  rewrite He in H. cbn [app] in H. now rewrite app_nil_r in H.
Qed.

End Unreadable.

(** * The claims on the sample workbooks *)

#[local] Existing Instance Reference.pandas.

Lemma merge_pairs_nearest_within_one_hour_witness :
  prepare_mares Demo.tide_table = Ok Demo.events /\
  normalize_sheet Demo.sheet_a = Some Demo.sensor_a /\
  merge_one Demo.events "A" Demo.sensor_a = Ok Demo.merged_a /\
  exists je js u tz jtag,
    find_col "Mares_DateTime" (columns Demo.events) = Some je /\
    find_col "Temp_DateTime" (columns Demo.sensor_a) = Some js /\
    dtype_of Demo.events "Mares_DateTime" = Datetime64 u tz /\
    dtype_of Demo.sensor_a "Temp_DateTime" = Datetime64 u tz /\
    find_col "Source_Temp_Sheet" (columns Demo.merged_a) = Some jtag /\
    Forall2
      (fun e m =>
         exists part,
           m = set_at jtag (Str "A") (e ++ part) /\
           nearest_match Demo.sensor_a js (one_hour u) (key_at je e) part)
      (rows Demo.events) (rows Demo.merged_a) /\
    map (cell_at 1) (rows Demo.merged_a)
    = [Str "08:00:00"; Str "20:30:00"; Str "23:00:00"] /\
    map (cell_at 6) (rows Demo.merged_a)
    = [Str "08:05:00"; NA; Str "23:59:59"].
Proof.
  assert (H1 : prepare_mares Demo.tide_table = Ok Demo.events)
    by (vm_compute; reflexivity).
  assert (H2 : normalize_sheet Demo.sheet_a = Some Demo.sensor_a)
    by (vm_compute; reflexivity).
  assert (H3 : merge_one Demo.events "A" Demo.sensor_a = Ok Demo.merged_a)
    by (vm_compute; reflexivity).
  split; [exact H1|]. split; [exact H2|]. split; [exact H3|].
  destruct (merge_pairs_nearest_within_one_hour
              Demo.tide_table Demo.sheet_a Demo.events Demo.sensor_a
              Demo.merged_a "A" H1 H2 H3)
    as (je & js & u & tz & jtag & Hje & Hjs & Hde & Hds & _ & _ & Htag
        & Hrows & _).
  - intros je js Hje Hjs. vm_compute in Hje, Hjs.
    injection Hje as <-. injection Hjs as <-.
    intros e s He Hs.
    destruct He as [<-|[<-|[<-|[]]]]; destruct Hs as [<-|[<-|[<-|[]]]];
      vm_compute; reflexivity.
  - exists je, js, u, tz, jtag. repeat (split; [assumption|]).
    split; reflexivity.
Defined.

(** C1, as stated, fails.  Readings whose times are written with a UTC
    offset are normalised into a column that has a time zone; the join
    refuses it against the event column, which has none, and the run ends
    on that exception, no event being paired with any reading.  And a
    reading more than [2^63] nanoseconds before an event is paired with it
    although another reading is ten minutes after the event. *)
Lemma zoned_or_distant_readings_are_not_paired :
  normalize_sheet Sample.offset_sheet = Some Sample.offset_sensor /\
  merge_one Demo.events "A" Sample.offset_sensor
  = Err (MergeError "incompatible merge keys, must be the same type") /\
  process_and_merge_data Demo.tide_file Sample.offset_file []
  = (Raise (MergeError "incompatible merge keys, must be the same type"),
     [tide_loaded; merging_header; merging "A"]) /\
  prepare_mares Sample.far_tide = Ok Sample.far_events /\
  normalize_sheet Sample.far_sheet = Some Sample.far_sensor /\
  merge_one Sample.far_events "A" Sample.far_sensor = Ok Sample.far_merged /\
  map (key_at 4) (rows Sample.far_events) = [9223369200000000000] /\
  map (key_at 3) (rows Sample.far_sensor)
  = [-9223284600000000000; 9223369800000000000] /\
  9223369800000000000 - 9223369200000000000 <= one_hour Nanoseconds /\
  map (fun m => (cell_at 5 m, cell_at 6 m, key_at 8 m))
      (rows Sample.far_merged)
  = [(Str "1677-09-22", Str "00:30:00", -9223284600000000000)].
Proof.
  repeat split; vm_compute; try reflexivity. discriminate.
Qed.

Lemma merged_rows_equal_event_rows_witness :
  process_and_merge_data Demo.tide_file Demo.temp_file []
  = (Return Sample.results, Sample.diagnostics) /\
  exists raw ev jm jd jt,
    read_excel Demo.tide_file None = Ok raw /\
    prepare_mares raw = Ok ev /\
    find_col "Mare" (columns raw) = Some jm /\
    find_col "Data" (columns raw) = Some jd /\
    find_col "Hora" (columns raw) = Some jt /\
    shape0 ev = length (filter valid (stamps_of (preia_mar raw jm) jd jt)) /\
    forall sheet_name merged,
      In (sheet_name, merged) Sample.results -> shape0 merged = shape0 ev.
Proof.
  assert (H : process_and_merge_data Demo.tide_file Demo.temp_file []
              = (Return Sample.results, Sample.diagnostics))
    by (vm_compute; reflexivity).
  split; [exact H|].
  exact (merged_rows_equal_event_rows _ _ _ _ _ H).
Defined.

Lemma only_preia_mar_rows_survive_witness :
  prepare_mares Demo.tide_table = Ok Demo.events /\
  Forall (fun r => cell_at 2 r = Str "Preia-Mar") (rows Demo.events) /\
  exists r',
    In r' (rows Demo.events) /\
    cell_at 4 r' = Datetime 1704141000000000000 /\
    cell_at 0 r' = Str "2024-01-01" /\ cell_at 3 r' = Num (19 # 10).
Proof.
  assert (H : prepare_mares Demo.tide_table = Ok Demo.events)
    by (vm_compute; reflexivity).
  split; [exact H|].
  destruct (only_preia_mar_rows_survive _ _ H)
    as (jm & jd & jt & je & Hjm & Hjd & Hjt & Hje & _ & Hkept & Hall & _).
  vm_compute in Hjm, Hjd, Hjt, Hje.
  injection Hjm as <-. injection Hjd as <-. injection Hjt as <-.
  injection Hje as <-.
  split; [exact Hall|].
  destruct (Hkept 0%nat
              [Str "2024-01-01"; Str "20:30:00"; Str "Preia-Mar";
               Num (19 # 10)]
              1704141000000000000)
    as (r' & Hin & Hk & Hother).
  - reflexivity.
  - vm_compute; reflexivity.
  - exists r'. split; [exact Hin|]. split; [exact Hk|].
    split; [exact (Hother 0%nat ltac:(discriminate) ltac:(discriminate))
           |exact (Hother 3%nat ltac:(discriminate) ltac:(discriminate))].
Defined.

Lemma duplicates_removed_and_reported_witness :
  read_excel Demo.temp_file (Some "A") = Ok Demo.sheet_a /\
  (snd (clean_sheet Demo.sheet_a)
   + shape0 (fst (clean_sheet Demo.sheet_a))
   = shape0 (drop_column Demo.sheet_a "ficheiro.origem"))%nat /\
  snd (clean_sheet Demo.sheet_a) = 1%nat.
Proof.
  assert (H : read_excel Demo.temp_file (Some "A") = Ok Demo.sheet_a)
    by reflexivity.
  split; [exact H|]. split; [|reflexivity].
  pose proof (duplicates_removed_and_reported
                Demo.temp_file "A" [] Demo.sheet_a H) as T.
  cbv zeta in T. destruct T as (_ & T & _). exact T.
Defined.

Lemma skipped_sheets_do_not_abort_witness :
  read_excel Demo.tide_file None = Ok Demo.tide_table /\
  prepare_mares Demo.tide_table = Ok Demo.events /\
  sheet_names Demo.temp_file = Ok ["A"; "B"] /\
  merge_one Demo.events "A" Demo.sensor_a = Ok Demo.merged_a /\
  exists msgs,
    writes (process_and_merge_data Demo.tide_file Demo.temp_file)
           (Return [("A", Demo.merged_a)]) msgs /\
    In (skip_info "B") msgs.
Proof.
  assert (H1 : read_excel Demo.tide_file None = Ok Demo.tide_table)
    by reflexivity.
  assert (H2 : prepare_mares Demo.tide_table = Ok Demo.events)
    by (vm_compute; reflexivity).
  assert (H3 : sheet_names Demo.temp_file = Ok ["A"; "B"]) by reflexivity.
  assert (H4 : merge_one Demo.events "A" Demo.sensor_a = Ok Demo.merged_a)
    by (vm_compute; reflexivity).
  split; [exact H1|]. split; [exact H2|]. split; [exact H3|].
  split; [exact H4|].
  destruct (skipped_sheets_do_not_abort
              Demo.tide_file Demo.temp_file Demo.tide_table Demo.events
              ["A"; "B"] H1 H2 H3) as (_ & _ & _ & T).
  apply (T "A" "B" Demo.sheet_a Demo.sheet_b Demo.sensor_a Demo.merged_a).
  - reflexivity.
  - discriminate.
  - vm_compute; reflexivity.
  - reflexivity.
  - exact H4.
Defined.

(** C5, as stated, fails: sheet A is well formed and is merged when it is
    alone in the workbook, but when the sheet next to it cannot be read the
    run stops, whichever of the two comes first, and sheet A's merge is
    lost. *)
Lemma unreadable_sheet_aborts_run :
  fst (process_and_merge_data Demo.tide_file
         (Workbook [("A", Ok Demo.sheet_a)]) [])
  = Return [("A", Demo.merged_a)] /\
  process_and_merge_data Demo.tide_file Sample.broken_after []
  = (Stop,
     [tide_loaded; removed_warning "A" 1;
      temp_error (IOError "bad sheet")]) /\
  process_and_merge_data Demo.tide_file Sample.broken_before []
  = (Stop, [tide_loaded; temp_error (IOError "bad sheet")]).
Proof. repeat split; vm_compute; reflexivity. Qed.

Lemma unusable_tide_input_aborts_witness :
  read_excel (Workbook [("Mares", Ok Sample.tide_without_hora)]) None
  = Ok Sample.tide_without_hora /\
  has_column "Hora" Sample.tide_without_hora = false /\
  exists c,
    writes (process_and_merge_data
              (Workbook [("Mares", Ok Sample.tide_without_hora)])
              Demo.temp_file)
           Stop [tide_loaded; tide_error (KeyError c)].
Proof.
  split; [reflexivity|]. split; [reflexivity|].
  destruct (unusable_tide_input_aborts
              (Workbook [("Mares", Ok Sample.tide_without_hora)])
              Demo.temp_file) as (_ & T & _).
  apply (T Sample.tide_without_hora); [reflexivity|].
  right. left. reflexivity.
Defined.

(** C6, as stated, fails for the ['Alt'] column: a tide table without it is
    processed and merged like any other. *)
Lemma missing_alt_does_not_abort :
  has_column "Alt" Sample.tide_without_alt = false /\
  fst (process_and_merge_data
         (Workbook [("Mares", Ok Sample.tide_without_alt)])
         Demo.temp_file [])
  = Return Sample.results_without_alt /\
  map fst Sample.results_without_alt = ["A"] /\
  map shape0 (map snd Sample.results_without_alt) = [1%nat].
Proof. repeat split; vm_compute; reflexivity. Qed.

Lemma no_matching_event_gives_empty_tables_witness :
  read_excel (Workbook [("Mares", Ok Sample.low_tides)]) None
  = Ok Sample.low_tides /\
  (forall ev, prepare_mares Sample.low_tides = Ok ev -> rows ev = []) /\
  (forall log log' results,
     process_and_merge_data (Workbook [("Mares", Ok Sample.low_tides)])
                            Demo.temp_file log
     = (Return results, log') ->
     results <> [] /\ forall n m, In (n, m) results -> rows m = []).
Proof.
  assert (H : read_excel (Workbook [("Mares", Ok Sample.low_tides)]) None
              = Ok Sample.low_tides) by reflexivity.
  split; [exact H|].
  destruct (no_matching_event_gives_empty_tables
              (Workbook [("Mares", Ok Sample.low_tides)]) Demo.temp_file
              Sample.low_tides H) as (T1 & _ & T3 & _).
  - intros jm r Hjm Hin. vm_compute in Hjm. injection Hjm as <-.
    destruct Hin as [<-|[<-|[]]]; discriminate.
  - split; [exact T1|].
    intros log log' results Hrun.
    destruct (T3 log log' results Hrun) as (A & B & _). split; assumption.
Defined.

(** C7, as stated, fails: no row of the tide table is a high tide and the
    sensor sheet is not skipped, but its times are written with a UTC
    offset; the join refuses its timestamp column and the run ends on that
    exception, with no result mapping and so no table for the sheet. *)
Lemma zoned_sheet_gets_no_empty_table :
  Forall (fun r => cell_at 2 r <> Str "Preia-Mar") (rows Sample.low_tides) /\
  skipped (fst (clean_sheet Sample.offset_sheet)) = false /\
  normalize_sheet Sample.offset_sheet = Some Sample.offset_sensor /\
  process_and_merge_data (Workbook [("Mares", Ok Sample.low_tides)])
                         Sample.offset_file []
  = (Raise (MergeError "incompatible merge keys, must be the same type"),
     [tide_loaded; merging_header; merging "A"]).
Proof.
  split; [repeat constructor; discriminate|].
  repeat split; vm_compute; reflexivity.
Qed.

Lemma merged_rows_ascend_witness :
  process_and_merge_data Demo.tide_file Demo.temp_file []
  = (Return Sample.results, Sample.diagnostics) /\
  exists raw ev je,
    read_excel Demo.tide_file None = Ok raw /\
    prepare_mares raw = Ok ev /\
    find_col "Mares_DateTime" (columns ev) = Some je /\
    forall sheet_name merged,
      In (sheet_name, merged) Sample.results ->
      map (cell_at je) (rows merged) = map (cell_at je) (rows ev) /\
      Forall (fun r => cell_at je r = Datetime (key_at je r)) (rows merged) /\
      StronglySorted Z.le (map (key_at je) (rows merged)).
Proof.
  assert (H : process_and_merge_data Demo.tide_file Demo.temp_file []
              = (Return Sample.results, Sample.diagnostics))
    by (vm_compute; reflexivity).
  split; [exact H|].
  exact (merged_rows_ascend _ _ _ _ _ H).
Defined.

Lemma provenance_ignored_by_duplicates_witness :
  count_occ row_eq_dec (rows (fst (clean_sheet Demo.sheet_a)))
    [Str "2024-01-01"; Str "08:05:00"; Num (182 # 10)] = 1%nat.
Proof.
  destruct (provenance_ignored_by_duplicates Demo.sheet_a
              [Str "2024-01-01"; Str "08:05:00"; Num (182 # 10); Str "a.csv"]
              [Str "2024-01-01"; Str "08:05:00"; Num (182 # 10); Str "b.csv"])
    as (_ & _ & _ & T).
  - reflexivity.
  - discriminate.
  - right. left. reflexivity.
  - right. right. left. reflexivity.
  - intros [|[|[|[|j]]]] Hj; try reflexivity.
    exfalso. apply Hj. reflexivity.
  - exact T.
Defined.


(** * The further properties on the sample workbooks *)

Lemma no_surviving_sheet_stops_witness :
  writes (process_and_merge_data Demo.tide_file Sample.skipped_only) Stop
         [tide_loaded; skip_info "B"; skip_info "E"; no_valid_sheets].
Proof.
  destruct (no_surviving_sheet_stops
              Demo.tide_file Sample.skipped_only Demo.tide_table Demo.events
              ["B"; "E"]) as [T _].
  - reflexivity.
  - vm_compute; reflexivity.
  - reflexivity.
  - intros n [<-|[<-|[]]]; eexists; split; reflexivity.
  - exact T.
Defined.

Lemma unopenable_sensor_workbook_stops_witness :
  sheet_names Sample.not_a_workbook = Err (IOError "File is not a zip file") /\
  writes (process_and_merge_data Demo.tide_file Sample.not_a_workbook) Stop
         [tide_loaded; temp_error (IOError "File is not a zip file")].
Proof.
  assert (H : sheet_names Sample.not_a_workbook
              = Err (IOError "File is not a zip file")) by reflexivity.
  split; [exact H|].
  apply (proj2 (unopenable_sensor_workbook_stops
                  Demo.tide_file Sample.not_a_workbook _ H)
               Demo.tide_table Demo.events).
  - reflexivity.
  - vm_compute; reflexivity.
Defined.

Lemma no_data_merged_never_shown_witness :
  ~ In no_data_merged
       (snd (process_and_merge_data Demo.tide_file Demo.temp_file [])).
Proof.
  apply no_data_merged_never_shown. intros [].
Defined.

Lemma nearest_tie_prefers_earlier_witness :
  nearest 25 [10; 20; 20; 30] (one_hour Nanoseconds) = Some 2%nat /\
  nth 2 [10; 20; 20; 30] 0 = nth 1 [10; 20; 20; 30] 0 /\ (1 <= 2)%nat.
Proof.
  assert (H : nearest 25 [10; 20; 20; 30] (one_hour Nanoseconds)
              = Some 2%nat)
    by (vm_compute; reflexivity).
  split; [exact H|].
  apply (nearest_tie_prefers_earlier
           25 (one_hour Nanoseconds) [10; 20; 20; 30] 2 1).
  - unfold int64; lia.
  - repeat constructor; unfold int64; lia.
  - repeat constructor; lia.
  - exact H.
  - simpl; lia.
  - simpl; lia.
  - reflexivity.
Defined.

Lemma merged_rows_carry_sheet_name_witness :
  process_and_merge_data Demo.tide_file Demo.temp_file []
  = (Return Sample.results, Sample.diagnostics) /\
  forall sheet_name merged,
    In (sheet_name, merged) Sample.results ->
    exists j,
      find_col "Source_Temp_Sheet" (columns merged) = Some j /\
      Forall (fun r => cell_at j r = Str sheet_name) (rows merged).
Proof.
  assert (H : process_and_merge_data Demo.tide_file Demo.temp_file []
              = (Return Sample.results, Sample.diagnostics))
    by (vm_compute; reflexivity).
  split; [exact H|].
  exact (merged_rows_carry_sheet_name _ _ _ _ _ H).
Defined.

Lemma merged_tables_are_rectangular_witness :
  process_and_merge_data Demo.tide_file Demo.temp_file []
  = (Return Sample.results, Sample.diagnostics) /\
  forall sheet_name merged,
    In (sheet_name, merged) Sample.results -> rectangular merged.
Proof.
  assert (H : process_and_merge_data Demo.tide_file Demo.temp_file []
              = (Return Sample.results, Sample.diagnostics))
    by (vm_compute; reflexivity).
  split; [exact H|].
  apply (merged_tables_are_rectangular _ _ _ _ _ H).
  - intros raw Hr. injection Hr as <-. repeat constructor.
  - intros n df Hr. unfold read_excel, Demo.temp_file in Hr.
    cbn [find fst] in Hr.
    destruct (String.eqb "A" n).
    + injection Hr as <-. repeat constructor.
    + destruct (String.eqb "B" n); [|discriminate].
      injection Hr as <-. repeat constructor.
Defined.

Lemma merged_schema_without_collisions_witness :
  merge_one Demo.events "A" Demo.sensor_a = Ok Demo.merged_a /\
  columns Demo.merged_a
  = ["Data"; "Hora"; "Mares_Mare"; "Mares_Alt"; "Mares_DateTime";
     "Date"; "time"; "CaboSines"; "Temp_DateTime"; "Source_Temp_Sheet"].
Proof.
  assert (H : merge_one Demo.events "A" Demo.sensor_a = Ok Demo.merged_a)
    by (vm_compute; reflexivity).
  split; [exact H|].
  apply (merged_schema_without_collisions
           Demo.events Demo.sensor_a Demo.merged_a "A" H).
  - repeat constructor.
  - repeat constructor.
  - intros c Hc Hs. cbn in Hc, Hs. intuition congruence.
  - intros Hin. cbn in Hin. intuition discriminate.
Defined.

Lemma result_keys_follow_sheet_order_witness :
  process_and_merge_data Demo.tide_file Demo.temp_file []
  = (Return Sample.results, Sample.diagnostics) /\
  NoDup ["A"; "B"] /\
  keys Sample.results = filter (survives Demo.temp_file) ["A"; "B"].
Proof.
  assert (H : process_and_merge_data Demo.tide_file Demo.temp_file []
              = (Return Sample.results, Sample.diagnostics))
    by (vm_compute; reflexivity).
  assert (Hnd : NoDup ["A"; "B"]).
  { repeat constructor; cbn; intuition discriminate. }
  split; [exact H|]. split; [exact Hnd|].
  destruct (result_keys_follow_sheet_order _ _ _ _ _ H) as (_ & _ & T).
  apply T; [reflexivity|exact Hnd].
Defined.

Lemma normalised_tables_are_sorted_witness :
  load_temps Demo.temp_file []
  = (Return Sample.processed, [removed_warning "A" 1; skip_info "B"]) /\
  forall n s, In (n, s) Sample.processed ->
    exists js, timestamped s "Temp_DateTime" js.
Proof.
  assert (H : load_temps Demo.temp_file []
              = (Return Sample.processed,
                 [removed_warning "A" 1; skip_info "B"]))
    by (vm_compute; reflexivity).
  split; [exact H|].
  exact (proj1 (normalised_tables_are_sorted _ _ _ _ H)).
Defined.

Lemma unparseable_sheet_is_null_matched_witness :
  skipped (fst (clean_sheet Sample.garbled_sheet)) = false /\
  rows Sample.garbled_sensor = [] /\
  writes (process_sheet (Workbook [("G", Ok Sample.garbled_sheet)]) "G" [])
         (Return [("G", Sample.garbled_sensor)]) [].
Proof.
  assert (H : skipped (fst (clean_sheet Sample.garbled_sheet)) = false)
    by (vm_compute; reflexivity).
  split; [exact H|].
  destruct (unparseable_sheet_is_null_matched
              (Workbook [("G", Ok Sample.garbled_sheet)]) "G" []
              Sample.garbled_sheet Sample.garbled_sensor)
    as (Hrows & Hw & _).
  - reflexivity.
  - exact H.
  - vm_compute; reflexivity.
  - intros jd jt Hd Ht. vm_compute in Hd, Ht.
    injection Hd as <-. injection Ht as <-. vm_compute; reflexivity.
  - split; [exact Hrows|exact Hw].
Defined.

Lemma tide_error_names_first_missing_column_witness :
  has_column "Mare" Sample.tide_without_hora = true /\
  has_column "Hora" Sample.tide_without_hora = false /\
  writes (process_and_merge_data
            (Workbook [("Mares", Ok Sample.tide_without_hora)])
            Demo.temp_file)
         Stop [tide_loaded; tide_error (KeyError "Hora")].
Proof.
  split; [reflexivity|]. split; [reflexivity|].
  destruct (tide_error_names_first_missing_column
              (Workbook [("Mares", Ok Sample.tide_without_hora)])
              Demo.temp_file Sample.tide_without_hora) as (_ & T & _).
  - reflexivity.
  - apply T; reflexivity.
Defined.

Lemma successful_run_diagnostics_witness :
  process_and_merge_data Demo.tide_file Demo.temp_file []
  = (Return Sample.results, Sample.diagnostics) /\
  exists raw ev names,
    read_excel Demo.tide_file None = Ok raw /\
    prepare_mares raw = Ok ev /\
    sheet_names Demo.temp_file = Ok names /\
    Sample.diagnostics
    = [] ++ [tide_loaded] ++ loop_messages Demo.temp_file names
         ++ [merging_header]
         ++ merge_messages (shape0 ev) (keys Sample.results) /\
    forall m, In m (loop_messages Demo.temp_file names) ->
      (exists n k, In n names /\ (0 < k)%nat /\ m = removed_warning n k) \/
      (exists n, In n names /\ m = skip_info n).
Proof.
  assert (H : process_and_merge_data Demo.tide_file Demo.temp_file []
              = (Return Sample.results, Sample.diagnostics))
    by (vm_compute; reflexivity).
  split; [exact H|].
  exact (successful_run_diagnostics _ _ _ _ _ H).
Defined.

Lemma stored_rows_are_valid_readings_witness :
  normalize_sheet Demo.sheet_a = Some Demo.sensor_a /\
  (shape0 Demo.sensor_a <= shape0 Demo.sheet_a)%nat.
Proof.
  assert (H : normalize_sheet Demo.sheet_a = Some Demo.sensor_a)
    by (vm_compute; reflexivity).
  split; [exact H|].
  destruct (stored_rows_are_valid_readings _ _ H) as (jd & jt & T).
  apply T.
Defined.

Lemma value_and_type_columns_are_renamed_witness :
  prepare_mares Demo.tide_table = Ok Demo.events /\
  ~ In "Alt" (columns Demo.events) /\ ~ In "Mare" (columns Demo.events).
Proof.
  assert (H : prepare_mares Demo.tide_table = Ok Demo.events)
    by (vm_compute; reflexivity).
  split; [exact H|].
  destruct (value_and_type_columns_are_renamed _ _ H) as (Ha & Hm & _).
  split; assumption.
Defined.

Lemma time_of_day_columns_become_text_witness :
  prepare_mares Demo.tide_table = Ok Demo.events /\
  normalize_sheet Demo.sheet_a = Some Demo.sensor_a /\
  exists jh, find_col "Hora" (columns Demo.events) = Some jh /\
    Forall (fun r => exists t, cell_at jh r = Str t) (rows Demo.events).
Proof.
  assert (H1 : prepare_mares Demo.tide_table = Ok Demo.events)
    by (vm_compute; reflexivity).
  assert (H2 : normalize_sheet Demo.sheet_a = Some Demo.sensor_a)
    by (vm_compute; reflexivity).
  split; [exact H1|]. split; [exact H2|].
  destruct (time_of_day_columns_become_text _ _ _ _ H1 H2)
    as [(jh & _ & Hj & Hall) _].
  exists jh. split; assumption.
Defined.

Lemma first_unreadable_sheet_stops_run_witness :
  sheet_names Sample.broken_between = Ok (["A"] ++ "B" :: ["C"]) /\
  read_excel Sample.broken_between (Some "B") = Err (IOError "bad sheet") /\
  writes (process_and_merge_data Demo.tide_file Sample.broken_between) Stop
         [tide_loaded; removed_warning "A" 1;
          temp_error (IOError "bad sheet")].
Proof.
  split; [reflexivity|]. split; [reflexivity|].
  apply (first_unreadable_sheet_stops_run
           Demo.tide_file Sample.broken_between Demo.tide_table Demo.events
           ["A"] ["C"] "B" (IOError "bad sheet")).
  - reflexivity.
  - vm_compute; reflexivity.
  - reflexivity.
  - repeat constructor. exists Demo.sheet_a. split; [reflexivity|].
    right. exists Demo.sensor_a. vm_compute; reflexivity.
  - reflexivity.
Defined.

Lemma only_the_join_raises_witness :
  process_and_merge_data Demo.tide_file Sample.offset_file []
  = (Raise (MergeError "incompatible merge keys, must be the same type"),
     [tide_loaded; merging_header; merging "A"]) /\
  exists raw ev names done rest n s,
    read_excel Demo.tide_file None = Ok raw /\
    prepare_mares raw = Ok ev /\
    sheet_names Sample.offset_file = Ok names /\
    dict_of (survivors Sample.offset_file names) []
    = (done ++ (n, s) :: rest) /\
    merge_one ev n s
    = Err (MergeError "incompatible merge keys, must be the same type").
Proof.
  assert (H : process_and_merge_data Demo.tide_file Sample.offset_file []
              = (Raise (MergeError
                          "incompatible merge keys, must be the same type"),
                 [tide_loaded; merging_header; merging "A"]))
    by (vm_compute; reflexivity).
  split; [exact H|].
  destruct (only_the_join_raises _ _ _ _ _ H)
    as (raw & ev & names & done & rest & n & s
        & Hr & Hp & Hn & _ & Hd & _ & He & _).
  exists raw, ev, names, done, rest, n, s. repeat split; assumption.
Defined.

Lemma nearest_wraps_on_distant_keys_witness :
  9223369800000000000 - 9223369200000000000 <= one_hour Nanoseconds /\
  sub64 9223369200000000000 (-9223284600000000000) < 0 /\
  nearest 9223369200000000000
          [-9223284600000000000; 9223369800000000000]
          (one_hour Nanoseconds)
  = Some 0%nat.
Proof.
  split; [vm_compute; discriminate|].
  apply (nearest_wraps_on_distant_keys
           9223369200000000000 (one_hour Nanoseconds)
           [-9223284600000000000; 9223369800000000000] 0).
  - unfold int64; lia.
  - repeat constructor; unfold int64; lia.
  - repeat constructor; lia.
  - vm_compute; discriminate.
  - simpl; lia.
  - simpl; lia.
  - intros [|[|i]] Hi; simpl in *; lia.
  - simpl; lia.
Defined.
